(** * Marks transformation: grading schemes, grace marks, SGPA and result

    A shallow embedding of [src/transformer.py] (scheme registry,
    [compute_grade_and_points], [format_dob], [transform_row],
    [transform_dataframe]) and of the handlers of [src/app.py] that call it,
    with the properties of the grading logic and of the record produced.

    Modelling conventions.
    - A row (a Python [dict] with string keys) is a [gmap string pyval].
    - Python [int], [float] and numpy scalars are embedded by numeric value in
      [pyfloat]: finite values are exact rationals, with separate values for
      the two infinities and for NaN (the missing value of pandas).  Binary
      rounding and the sign of zero are not modelled.
    - [try]/[except] blocks are modelled by [option]: [None] is a raised
      exception, the [except] branch is the [None] case.
    - The three library conversions whose full grammar is outside the
      repository ([str] of a finite number, [float] of a string,
      [pandas.to_numeric] of a string) are fields of the class [PyLib], and
      the few facts used about them are the class [PyLibLaws]; [dec_lib] is
      a concrete instance on decimal notation. *)

From Stdlib Require Import QArith Qround Qabs Lqa ZArith String Ascii List.
From Stdlib Require Import DecimalString DecimalNat.
From stdpp Require Import gmap strings list fin_maps.

Local Open Scope string_scope.

(* ===================================================================== *)
(** ** Numbers *)
(* ===================================================================== *)

Inductive pyfloat : Type :=
  | Fin (q : Q)
  | PInf
  | NInf
  | NaN.

Definition Qltb (x y : Q) : bool := negb (Qle_bool y x).

Definition fopp (a : pyfloat) : pyfloat :=
  match a with
  | Fin x => Fin (- x)
  | PInf => NInf
  | NInf => PInf
  | NaN => NaN
  end.

Definition fadd (a b : pyfloat) : pyfloat :=
  match a, b with
  | NaN, _ | _, NaN => NaN
  | Fin x, Fin y => Fin (x + y)
  | PInf, NInf | NInf, PInf => NaN
  | PInf, _ | _, PInf => PInf
  | NInf, _ | _, NInf => NInf
  end.

Definition fsub (a b : pyfloat) : pyfloat := fadd a (fopp b).

(** Sign flip of an infinity by a finite factor; zero times infinity is NaN. *)
Definition inf_scaled (pos : bool) (y : Q) : pyfloat :=
  if Qeq_bool y 0 then NaN
  else if xorb pos (Qltb y 0) then PInf else NInf.

Definition fmul (a b : pyfloat) : pyfloat :=
  match a, b with
  | NaN, _ | _, NaN => NaN
  | Fin x, Fin y => Fin (x * y)
  | PInf, Fin y | Fin y, PInf => inf_scaled true y
  | NInf, Fin y | Fin y, NInf => inf_scaled false y
  | PInf, PInf | NInf, NInf => PInf
  | PInf, NInf | NInf, PInf => NInf
  end.

(** IEEE division, as numpy performs it and as Python performs it when the
    divisor is not zero. *)
Definition fdiv (a b : pyfloat) : pyfloat :=
  match a, b with
  | NaN, _ | _, NaN => NaN
  | Fin x, Fin y =>
      if Qeq_bool y 0 then
        (if Qltb 0 x then PInf else if Qltb x 0 then NInf else NaN)
      else Fin (x / y)
  | Fin _, (PInf | NInf) => Fin 0
  | PInf, Fin y => if Qltb y 0 then NInf else PInf
  | NInf, Fin y => if Qltb y 0 then PInf else NInf
  | (PInf | NInf), (PInf | NInf) => NaN
  end.

Definition fis_zero (a : pyfloat) : bool :=
  match a with Fin x => Qeq_bool x 0 | _ => false end.

(** Python [a / b] on Python floats: [ZeroDivisionError] on a zero divisor. *)
Definition py_div (a b : pyfloat) : option pyfloat :=
  if fis_zero b then None else Some (fdiv a b).

Definition flt (a b : pyfloat) : bool :=
  match a, b with
  | NaN, _ | _, NaN => false
  | Fin x, Fin y => Qltb x y
  | NInf, (Fin _ | PInf) => true
  | Fin _, PInf => true
  | _, _ => false
  end.

Definition fle (a b : pyfloat) : bool :=
  match a, b with
  | NaN, _ | _, NaN => false
  | Fin x, Fin y => Qle_bool x y
  | NInf, _ => true
  | _, PInf => true
  | _, _ => false
  end.

Definition fgt (a b : pyfloat) : bool := flt b a.
Definition fge (a b : pyfloat) : bool := fle b a.

(** Python [max(a, b)] and [min(a, b)]: the first argument is kept unless the
    second is strictly larger (smaller). *)
Definition py_max (a b : pyfloat) : pyfloat := if fgt b a then b else a.
Definition py_min (a b : pyfloat) : pyfloat := if flt b a then b else a.

Definition fZ (z : Z) : pyfloat := Fin (inject_Z z).

(** Rounding half to even, the rule of Python's [round]. *)
Definition round_half_even (q : Q) : Z :=
  let f := Qfloor q in
  let r := (q - inject_Z f)%Q in
  if Qltb r (1 # 2) then f
  else if Qltb (1 # 2) r then (f + 1)%Z
  else if Z.even f then f else (f + 1)%Z.

(** [round(x, 2)]; infinities and NaN are returned unchanged. *)
Definition py_round2 (a : pyfloat) : pyfloat :=
  match a with
  | Fin x => Fin (inject_Z (round_half_even (x * 100)) / 100)
  | _ => a
  end.

(** [int(round(x))].  On an infinity or NaN Python raises; [transform_row]
    only reaches this with a finite value (lemma [grant_bounds]). *)
Definition py_int_round (a : pyfloat) : Z :=
  match a with Fin x => round_half_even x | _ => 0%Z end.

(** [int(x)]: truncation toward zero (same remark on non-finite values). *)
Definition py_int (a : pyfloat) : Z :=
  match a with
  | Fin x => if Qltb x 0 then Qceiling x else Qfloor x
  | _ => 0%Z
  end.

Definition fsum (l : list pyfloat) : pyfloat := fold_left fadd l (fZ 0).

(* ===================================================================== *)
(** ** Strings *)
(* ===================================================================== *)

(** Decimal rendering of the integers of an f-string. *)
Definition dec (n : nat) : string := NilEmpty.string_of_uint (Nat.to_uint n).

Definition z_str (z : Z) : string :=
  if (z <? 0)%Z then "-" +:+ dec (Z.to_nat (- z)) else dec (Z.to_nat z).

Definition is_space (c : ascii) : bool :=
  let n := nat_of_ascii c in
  (Nat.eqb n 32 || (Nat.leb 9 n && Nat.leb n 13) || (Nat.leb 28 n && Nat.leb n 31))%bool.

Fixpoint lstrip (s : string) : string :=
  match s with
  | String c s' => if is_space c then lstrip s' else s
  | EmptyString => EmptyString
  end.

Fixpoint srev_acc (s acc : string) : string :=
  match s with
  | String c s' => srev_acc s' (String c acc)
  | EmptyString => acc
  end.

Definition srev (s : string) : string := srev_acc s "".

Definition strip (s : string) : string := srev (lstrip (srev (lstrip s))).

Definition upper_char (c : ascii) : ascii :=
  let n := nat_of_ascii c in
  if (Nat.leb 97 n && Nat.leb n 122)%bool then ascii_of_nat (n - 32) else c.

Definition lower_char (c : ascii) : ascii :=
  let n := nat_of_ascii c in
  if (Nat.leb 65 n && Nat.leb n 90)%bool then ascii_of_nat (n + 32) else c.

Fixpoint smap (f : ascii -> ascii) (s : string) : string :=
  match s with
  | String c s' => String (f c) (smap f s')
  | EmptyString => EmptyString
  end.

Definition upper : string -> string := smap upper_char.
Definition lower : string -> string := smap lower_char.

Fixpoint sforall (p : ascii -> bool) (s : string) : bool :=
  match s with
  | String c s' => p c && sforall p s'
  | EmptyString => true
  end.

Fixpoint has_char (c : ascii) (s : string) : bool :=
  match s with
  | String d s' => Ascii.eqb c d || has_char c s'
  | EmptyString => false
  end.

(** [s.split(c)]: the fields between the separators, at least one. *)
Fixpoint split_on (c : ascii) (s : string) : list string :=
  match s with
  | EmptyString => [EmptyString]
  | String d s' =>
      if Ascii.eqb c d then EmptyString :: split_on c s'
      else match split_on c s' with
           | p :: ps => String d p :: ps
           | [] => [String d EmptyString]
           end
  end.

Definition part (n : nat) (ps : list string) : string := nth n ps "".

Definition starts_with_G (s : string) : bool :=
  match s with
  | String "G" (String "-" _) => true
  | _ => false
  end.

(** [s.replace("G-", "")]. *)
Fixpoint remove_G (s : string) : string :=
  match s with
  | String "G" (String "-" s') => remove_G s'
  | String c s' => String c (remove_G s')
  | EmptyString => EmptyString
  end.

Definition in_strs (s : string) (l : list string) : bool :=
  existsb (String.eqb s) l.

(** [s.zfill(2)]: zeros on the left up to two characters, after a sign. *)
Definition zfill2 (s : string) : string :=
  match s with
  | EmptyString => "00"
  | String c EmptyString =>
      if (Ascii.eqb c "+" || Ascii.eqb c "-")%bool then String c "0"
      else String "0" s
  | _ => s
  end.

Definition is_digit (c : ascii) : bool :=
  let n := nat_of_ascii c in (Nat.leb 48 n && Nat.leb n 57)%bool.

(** A suffix that cannot be mistaken for the end of the index before it. *)
Definition nodigit_head (s : string) : bool :=
  match s with
  | String c _ => negb (is_digit c)
  | EmptyString => true
  end.

(** Characters of Python's rendering of a finite number. *)
Definition numeral_char (c : ascii) : bool :=
  (is_digit c || in_strs (String c "") ["."; "e"; "+"; "-"])%bool.

(* ===================================================================== *)
(** ** Python values and library conversions *)
(* ===================================================================== *)

Inductive pyval : Type :=
  | VNone
  | VStr (s : string)
  | VNum (x : pyfloat).

Class PyLib : Type := {
  (** [str(x)] of a finite [int] or [float] *)
  fin_repr : Q -> string;
  (** [float(s)] of a string; [None] is [ValueError] *)
  float_of_string : string -> option pyfloat;
  (** [pandas.to_numeric(s, errors="coerce")] of a string *)
  to_numeric_string : string -> pyfloat
}.

(** What the development assumes of these conversions: a finite number prints
    with digits, a point, a sign or an exponent only; [float] reads a run of
    decimal digits as that integer and rejects the empty string. *)
Class PyLibLaws (L : PyLib) : Prop := {
  fin_repr_numeral : forall q, sforall numeral_char (fin_repr q) = true;
  float_of_string_dec :
    forall n : nat, float_of_string (dec n) = Some (fZ (Z.of_nat n));
  float_of_string_empty : float_of_string "" = None
}.

(* ===================================================================== *)
(** ** Scheme registry *)
(* ===================================================================== *)

Record scheme : Type := {
  theory_passing : Z;
  practical_passing : Z;
  aggregate_passing : Z;
  courses : list string
}.

Definition scheme1 : scheme :=
  {| theory_passing := 36; practical_passing := 40; aggregate_passing := 40;
     courses := ["B.A."; "B.A.-B.Ed.S"; "B.COM"; "B.Ed.(CD)"; "B.ED.(G)";
                 "B.Ed.-M.Ed."; "B.Sc.-B.Ed."; "BPES"; "M.A. ARCHEOLOGY";
                 "M.Ed."] |}.

Definition scheme2 : scheme :=
  {| theory_passing := 36; practical_passing := 36; aggregate_passing := 40;
     courses := ["B.Sc.-AGRICULTURE"; "B.Sc.-BIO/BCZ/SBS/CBZ";
                 "B.Sc.-BIO-TECHNOLOGY"; "B.Sc.-PCM"; "B.Sc.-PMC"; "B.Sc.-PMS";
                 "DIPLOMA IN ARCHEOLOGY"; "M.A. JYOTIRVIGYAN"; "M.A. MUSIC";
                 "M.A. PHYSICAL EDUCATION"; "M.A. PSYCHOLOGY"; "M.A. SOCIOLOGY";
                 "M.A. YOGA"; "M.A.-ECONOMICS"; "M.A.-ENGLISH"; "M.A.-GEOGRAPHY";
                 "M.A.-HINDI"; "M.A.-HISTORY"; "M.A.-POLITICAL SCIENCE";
                 "M.A.-SANSKRIT"; "M.COM. ACCOUNTING";
                 "M.COM.-BUSINESS ADMINISTRATION"; "M.PED.";
                 "M.Sc. BioTechnology"; "M.Sc. BOTANY"; "M.Sc. CHEMISTRY";
                 "M.Sc. ENVIRONMENTAL SCIENCE"; "M.Sc. MATHS"; "M.Sc. PHYSICS";
                 "M.Sc. ZOOLOGY"; "MASTER OF SOCIAL WORK"] |}.

Definition scheme3 : scheme :=
  {| theory_passing := 40; practical_passing := 50; aggregate_passing := 50;
     courses := ["M.Sc. COMPUTER SCIENCE"; "BCA"; "MCA"; "MHRM"; "PGDCA";
                 "B.Sc.-DATA SCIENCE"] |}.

Definition scheme4 : scheme :=
  {| theory_passing := 40; practical_passing := 40; aggregate_passing := 50;
     courses := ["BBA"; "MBA"] |}.

Definition scheme5 : scheme :=
  {| theory_passing := 40; practical_passing := 40; aggregate_passing := 45;
     courses := ["BBA TT"] |}.

Definition scheme6 : scheme :=
  {| theory_passing := 50; practical_passing := 50; aggregate_passing := 50;
     courses := ["BPT"] |}.

Definition scheme7 : scheme :=
  {| theory_passing := 60; practical_passing := 60; aggregate_passing := 60;
     courses := ["M.Sc. Agriculture"] |}.

Definition scheme8 : scheme :=
  {| theory_passing := 40; practical_passing := 40; aggregate_passing := 48;
     courses := ["P.G. DIPLOMA IN CRIMINAL LAWS AND FORENSIC SCIENCE"] |}.

(** The dictionary [SCHEME_CONFIG], in insertion order. *)
Definition SCHEME_CONFIG : list (string * scheme) :=
  [("scheme1", scheme1); ("scheme2", scheme2); ("scheme3", scheme3);
   ("scheme4", scheme4); ("scheme5", scheme5); ("scheme6", scheme6);
   ("scheme7", scheme7); ("scheme8", scheme8)].

(** [None] is the [ValueError] of an unknown course. *)
Definition get_scheme_for_course (course : string) : option (string * scheme) :=
  List.find (fun e => in_strs course (courses (snd e))) SCHEME_CONFIG.

(* ===================================================================== *)
(** ** The row transformer *)
(* ===================================================================== *)

Inductive kind : Type :=
  | theory
  | practical
  | practical_with_max
  | practical_no_grace
  | project
  | due.

Definition kind_eqb (a b : kind) : bool :=
  match a, b with
  | theory, theory | practical, practical
  | practical_with_max, practical_with_max
  | practical_no_grace, practical_no_grace
  | project, project | due, due => true
  | _, _ => false
  end.

(** State of the subject extraction loops.  The list [practical_subjects] of
    the source is only ever appended to and never read, so it is left out. *)
Record xstate : Type := {
  new_row : gmap string pyval;
  subject_counter : nat;
  theory_subjects : list (nat * pyfloat * pyfloat);
  subject_meta : list (nat * kind)
}.

(** State of the grace distribution loop; [given] is a history variable
    recording each [grace_given] next to the subject that received it. *)
Record gstate : Type := {
  g_row : gmap string pyval;
  g_limit : pyfloat;
  given : list (nat * pyfloat)
}.

(** State of the grading loop. *)
Record cstate : Type := {
  c_row : gmap string pyval;
  total_credits : pyfloat;
  total_credit_points : pyfloat
}.

(** f-string keys of the input, e.g. [f"T{i}_MAX"]. *)
Definition fkey (pre : string) (i : nat) (suf : string) : string :=
  pre +:+ dec i +:+ suf.

(** f-string keys of a subject block of the output, [f"SUB{k}<suffix>"]. *)
Definition subkey (k : nat) (suf : string) : string := fkey "SUB" k suf.

Definition blanks : list string := [""; "nan"; "None"].

Section Model.
Context {L : PyLib}.

Definition py_str (v : pyval) : string :=
  match v with
  | VNone => "None"
  | VStr s => s
  | VNum (Fin q) => fin_repr q
  | VNum PInf => "inf"
  | VNum NInf => "-inf"
  | VNum NaN => "nan"
  end.

(** [float(v)]; [None] is [TypeError] or [ValueError]. *)
Definition py_float (v : pyval) : option pyfloat :=
  match v with
  | VNone => None
  | VStr s => float_of_string s
  | VNum x => Some x
  end.

(** [pd.to_numeric(v, errors="coerce")]. *)
Definition to_numeric (v : pyval) : pyfloat :=
  match v with
  | VNone => NaN
  | VStr s => to_numeric_string s
  | VNum x => x
  end.

(** Truth value of [v] in a condition. *)
Definition truthy (v : pyval) : bool :=
  match v with
  | VNone => false
  | VStr s => negb (String.eqb s "")
  | VNum x => negb (fis_zero x)
  end.

(** [pd.notna(v)]. *)
Definition notna (v : pyval) : bool :=
  match v with
  | VNone | VNum NaN => false
  | _ => true
  end.

(** [v in ["", None]] and [v in ["", None, "AB"]]. *)
Definition is_blank (v : pyval) : bool :=
  match v with
  | VNone => true
  | VStr s => String.eqb s ""
  | VNum _ => false
  end.

Definition is_blank_or_AB (v : pyval) : bool :=
  match v with
  | VNone => true
  | VStr s => in_strs s [""; "AB"]
  | VNum _ => false
  end.

(** [str(v).strip() not in ["", "nan", "None"]]. *)
Definition nonblank (v : pyval) : bool :=
  negb (in_strs (strip (py_str v)) blanks).

Definition get (row : gmap string pyval) (k : string) (d : pyval) : pyval :=
  default d (row !! k).

(** [float(v) if v not in ["", None, "AB"] else 0]. *)
Definition marks_or_zero (v : pyval) : option pyfloat :=
  if is_blank_or_AB v then Some (fZ 0) else py_float v.

(** [float(v) if v not in ["", None] else d]. *)
Definition float_or (d : pyfloat) (v : pyval) : option pyfloat :=
  if is_blank v then Some d else py_float v.

Definition compute_grade_and_points
    (percent_marks : pyval) (is_practical : bool) (scheme_config : option scheme)
    : string * Z :=
  let scheme_config := default scheme1 scheme_config in
  if String.eqb (upper (strip (py_str percent_marks))) "AB" then ("AB", 0%Z)
  else
    match py_float percent_marks with
    | None => ("", 0%Z)
    | Some percent =>
        let min_passing :=
          if is_practical then practical_passing scheme_config
          else theory_passing scheme_config in
        if fge percent (fZ 91) then ("O", 10%Z)
        else if fge percent (fZ 81) then ("A+", 9%Z)
        else if fge percent (fZ 71) then ("A", 8%Z)
        else if fge percent (fZ 61) then ("B+", 7%Z)
        else if fge percent (fZ 51) then ("B", 6%Z)
        else if fge percent (fZ 41) then ("C+", 5%Z)
        else if fge percent (fZ min_passing) then ("C", 4%Z)
        else ("F", 0%Z)
    end.

(** [format_dob]; a row holds no [datetime] object, so the [strftime]
    branch has no counterpart. *)
Definition format_dob (dob : pyval) : string :=
  if negb (truthy dob) || String.eqb (strip (py_str dob)) "" then ""
  else
    match dob with
    | VStr s =>
        if has_char "/" s then
          match split_on "/" s with
          | [p0; p1; p2] =>
              if Nat.eqb (String.length p0) 4 then
                zfill2 p2 +:+ "/" +:+ zfill2 p1 +:+ "/" +:+ p0
              else if Nat.eqb (String.length p2) 4 then
                zfill2 p0 +:+ "/" +:+ zfill2 p1 +:+ "/" +:+ p2
              else s
          | _ => s
          end
        else if has_char "-" s then
          match split_on "-" s with
          | [p0; p1; p2] =>
              if Nat.eqb (String.length p0) 4 then
                zfill2 p2 +:+ "/" +:+ zfill2 p1 +:+ "/" +:+ p0
              else s
          | _ => s
          end
        else s
    | _ => py_str dob
    end.

(** A run of assignments [new_row[k] = v], in source order. *)
Definition assign (kvs : list (string * pyval)) (m : gmap string pyval)
    : gmap string pyval :=
  fold_left (fun m kv => <[fst kv := snd kv]> m) kvs m.

(** Assignments to the fields [f"SUB{k}<suffix>"] of one subject block. *)
Definition assign_sub (k : nat) (svs : list (string * pyval))
    (m : gmap string pyval) : gmap string pyval :=
  assign (map (fun sv => (subkey k (fst sv), snd sv)) svs) m.

Definition blank : pyval := VStr "".

(** Registers the subject [sub_idx] of the given kind and advances the
    counter. *)
Definition push_subject (k : kind) (row' : gmap string pyval)
    (ths : list (nat * pyfloat * pyfloat)) (st : xstate) : xstate :=
  {| new_row := row';
     subject_counter := S (subject_counter st);
     theory_subjects := ths;
     subject_meta := subject_meta st ++ [(subject_counter st, k)] |}.

(** Percent of a total over a maximum: [(t / m) * 100 if m > 0 else d]. *)
Definition percent_of (t m d : pyfloat) : pyfloat :=
  if fgt m (fZ 0) then fmul (fdiv t m) (fZ 100) else d.

(** Body of the first loop up to the theory subject (source lines 250-302). *)
Definition theory_subject (row : gmap string pyval) (i : nat) (st : xstate)
    : xstate :=
  let sub_detail := strip (py_str (get row (fkey "SUB" i "") blank)) in
  let sub_code := strip (py_str (get row (fkey "COD" i "") blank)) in
  let sub_idx := subject_counter st in
  let th_marks := get row (fkey "EA" i "") blank in
  let ce_marks := get row (fkey "IA" i "") blank in
  let total_max_marks := get row (fkey "T" i "_MAX") blank in
  let use_total_max := truthy total_max_marks && nonblank total_max_marks in
  let calculated_total :=
    if use_total_max then to_numeric (get row (fkey "T" i "") blank)
    else
      match marks_or_zero th_marks, marks_or_zero ce_marks with
      | Some th_val, Some ce_val => fadd th_val ce_val
      | _, _ => to_numeric (get row (fkey "T" i "") blank)
      end in
  let max_marks_for_calculation :=
    if use_total_max then default (fZ 100) (py_float total_max_marks)
    else fZ 100 in
  let marks_block :=
    if use_total_max then
      [("_TH_MAX", blank); ("_CE_MAX", blank);
       ("_TH_MRKS", if is_blank th_marks then blank else th_marks);
       ("_CE_MRKS", if is_blank ce_marks then blank else ce_marks)]
    else
      [("_TH_MAX", VNum (fZ 70)); ("_CE_MAX", VNum (fZ 30));
       ("_TH_MRKS", th_marks); ("_CE_MRKS", ce_marks)] in
  let row' :=
    assign_sub sub_idx
      (marks_block ++
       [("NM", VStr sub_detail);
        ("", VStr sub_code);
        ("_PR_MAX", if use_total_max then total_max_marks else blank);
        ("_PR_MRKS", if use_total_max then VNum calculated_total else blank);
        ("_TOT", VNum calculated_total);
        ("_PERCENT",
         VNum (percent_of calculated_total max_marks_for_calculation (fZ 0)));
        ("_GRADE", blank);
        ("_GRADE_POINTS", blank);
        ("_CREDIT", get row (fkey "CH" sub_idx "") blank);
        ("_CREDIT_POINTS", blank);
        ("_TOTAL_MAX", if use_total_max then total_max_marks else blank)])
      (new_row st) in
  push_subject theory row'
    (theory_subjects st ++
     [(sub_idx, calculated_total, max_marks_for_calculation)])
    st.

(** The [PRSUB] practical that may follow a theory subject (lines 304-361).
    Both [pd.to_numeric(..., errors="coerce")] and the numpy division return
    a value on every input, so the [except] branches cannot be entered. *)
Definition legacy_practical (row : gmap string pyval) (i : nat) (st : xstate)
    : xstate :=
  let prsub := get row (fkey "PRSUB" i "") blank in
  if notna prsub && negb (String.eqb (strip (py_str prsub)) "") then
    let sub_idx := subject_counter st in
    let pract_tot := strip (py_str (get row (fkey "P" i "") blank)) in
    let percent_field (converted_marks : pyfloat) :=
      if notna (VNum converted_marks) then VNum (py_round2 converted_marks)
      else blank in
    let marks_block :=
      if has_char "/" pract_tot then
        let parts := split_on "/" pract_tot in
        let pract_marks := to_numeric_string (strip (part 0 parts)) in
        let pract_max := to_numeric_string (strip (part 1 parts)) in
        let converted_marks := fmul (fdiv pract_marks pract_max) (fZ 100) in
        [("_PR_MRKS", VStr (strip (part 0 parts)));
         ("_PR_MAX", VStr (strip (part 1 parts)));
         ("_TOT", VNum pract_marks);
         ("_PERCENT", percent_field converted_marks)]
      else
        let pract_marks := to_numeric_string pract_tot in
        let converted_marks := fmul (fdiv pract_marks (fZ 50)) (fZ 100) in
        [("_PR_MRKS", VStr pract_tot);
         ("_PR_MAX", VNum (fZ 50));
         ("_TOT", VNum pract_marks);
         ("_PERCENT", percent_field converted_marks)] in
    let row' :=
      assign_sub sub_idx
        ([("NM", VStr (strip (py_str prsub)));
          ("", VStr (strip (py_str (get row (fkey "PR" i "") blank))))] ++
         marks_block ++
         [("_TH_MAX", blank); ("_CE_MAX", blank);
          ("_TH_MRKS", blank); ("_CE_MRKS", blank);
          ("_GRADE", blank); ("_GRADE_POINTS", blank);
          ("_CREDIT", get row (fkey "CH" sub_idx "") blank);
          ("_CREDIT_POINTS", blank)])
        (new_row st) in
    push_subject practical row' (theory_subjects st) st
  else st.

Definition theory_step (row : gmap string pyval) (st : xstate) (i : nat)
    : xstate :=
  let sub_name := strip (py_str (get row (fkey "TIT" i "") blank)) in
  let sub_detail := strip (py_str (get row (fkey "SUB" i "") blank)) in
  if String.eqb sub_name "" && String.eqb sub_detail "" then st
  else legacy_practical row i (theory_subject row i st).

(** [float(p_max) if p_max not in ["", None] else 200], falling back on the
    sum of the two partial maxima and then on 200 (lines 401-409). *)
Definition practical_total_max (p_max eap_max iap_max : pyval) : pyfloat :=
  match float_or (fZ 200) p_max with
  | Some total_max => total_max
  | None =>
      match float_or (fZ 0) eap_max, float_or (fZ 0) iap_max with
      | Some eap_max_val, Some iap_max_val =>
          if fgt (fadd eap_max_val iap_max_val) (fZ 0)
          then fadd eap_max_val iap_max_val else fZ 200
      | _, _ => fZ 200
      end
  end.

(** Body of the [CODP] loop (lines 365-484). *)
Definition practical_step (row : gmap string pyval) (st : xstate) (i : nat)
    : xstate :=
  let sub_code_p := strip (py_str (get row (fkey "CODP" i "") blank)) in
  let sub_detail_p := strip (py_str (get row (fkey "SUBP" i "") blank)) in
  if String.eqb sub_code_p "" && String.eqb sub_detail_p "" then st
  else
    let sub_idx := subject_counter st in
    let eap_marks := get row (fkey "EAP" i "") blank in
    let eap_max := get row (fkey "EAP" i "_MAX") blank in
    let iap_marks := get row (fkey "IAP" i "") blank in
    let iap_max := get row (fkey "IAP" i "_MAX") blank in
    let p_total := get row (fkey "P" i "") blank in
    let p_max := get row (fkey "P" i "_MAX") blank in
    let has_separate_max := nonblank eap_max || nonblank iap_max || nonblank p_max in
    if has_separate_max then
      let attempt : option (pyfloat * pyfloat * pyfloat) :=
        match marks_or_zero eap_marks, marks_or_zero iap_marks with
        | Some eap_val, Some iap_val =>
            let total :=
              if truthy p_total && nonblank p_total then py_float p_total
              else Some (fadd eap_val iap_val) in
            match total with
            | Some calculated_total_p =>
                let total_max := practical_total_max p_max eap_max iap_max in
                Some (calculated_total_p, total_max,
                      percent_of calculated_total_p total_max calculated_total_p)
            | None => None
            end
        | _, _ => None
        end in
      let result :=
        match attempt with
        | Some r => r
        | None =>
            let calculated_total_p :=
              if truthy p_total then to_numeric p_total else fZ 0 in
            (calculated_total_p, fZ 200, calculated_total_p)
        end in
      let calculated_total_p := fst (fst result) in
      let total_max := snd (fst result) in
      let percent_marks := snd result in
      let row' :=
        assign_sub sub_idx
          [("NM", VStr sub_detail_p);
           ("", VStr sub_code_p);
           ("_TH_MAX", if nonblank eap_max then eap_max else blank);
           ("_CE_MAX", if nonblank iap_max then iap_max else blank);
           ("_TH_MRKS",
            if in_strs (strip (py_str eap_marks)) [""; "None"] then blank
            else eap_marks);
           ("_CE_MRKS",
            if in_strs (strip (py_str iap_marks)) [""; "None"] then blank
            else iap_marks);
           ("_PR_MAX", if nonblank p_max then p_max else VNum total_max);
           ("_PR_MRKS", VNum calculated_total_p);
           ("_TOT", VNum calculated_total_p);
           ("_PERCENT", VNum percent_marks);
           ("_GRADE", blank);
           ("_GRADE_POINTS", blank);
           ("_CREDIT",
            match row !! fkey "CH" (i + 2) "" with
            | Some v => v
            | None => get row (fkey "CHP" i "") blank
            end);
           ("_CREDIT_POINTS", blank);
           ("_TOTAL_MAX", VNum total_max)]
          (new_row st) in
      push_subject practical_with_max row' (theory_subjects st) st
    else
      let th_marks_p := get row (fkey "EAP" i "") blank in
      let ce_marks_p := get row (fkey "IAP" i "") blank in
      let total_p := get row (fkey "TP" i "") blank in
      let calculated_total_p :=
        match marks_or_zero th_marks_p, marks_or_zero ce_marks_p with
        | Some th_val_p, Some ce_val_p => fadd th_val_p ce_val_p
        | _, _ => to_numeric total_p
        end in
      let row' :=
        assign_sub sub_idx
          [("NM", VStr sub_detail_p);
           ("", VStr sub_code_p);
           ("_TH_MAX", VNum (fZ 70));
           ("_CE_MAX", VNum (fZ 30));
           ("_TH_MRKS", th_marks_p);
           ("_CE_MRKS", ce_marks_p);
           ("_PR_MAX", blank);
           ("_PR_MRKS", blank);
           ("_TOT", VNum calculated_total_p);
           ("_PERCENT", VNum calculated_total_p);
           ("_GRADE", blank);
           ("_GRADE_POINTS", blank);
           ("_CREDIT", get row (fkey "CHP" i "") blank);
           ("_CREDIT_POINTS", blank);
           ("_TOTAL_MAX", blank)]
          (new_row st) in
      push_subject practical_no_grace row' (theory_subjects st) st.

(** Body of the project loop (lines 487-568). *)
Definition project_step (row : gmap string pyval) (st : xstate) (i : nat)
    : xstate :=
  let proj_code := strip (py_str (get row (fkey "CODPROJ" i "") blank)) in
  let proj_name := strip (py_str (get row (fkey "SUBPROJ" i "") blank)) in
  let internal_marks := get row (fkey "IPROJ" i "") blank in
  let external_marks := get row (fkey "EPROJ" i "") blank in
  let total_proj_marks := get row (fkey "PROJ" i "") blank in
  let proj_max_marks :=
    match row !! fkey "PROJMAX" i "" with
    | Some v => v
    | None => get row (fkey "PROJMAX " i "") blank
    end in
  let project_credit := get row (fkey "CHPROJ" i "") blank in
  if negb (negb (String.eqb proj_code "") || negb (String.eqb proj_name "")
           || negb (String.eqb (strip (py_str internal_marks)) "")
           || negb (String.eqb (strip (py_str external_marks)) ""))
  then st
  else
    let sub_idx := subject_counter st in
    let has_total := truthy total_proj_marks && nonblank total_proj_marks in
    let attempt : option pyfloat :=
      match marks_or_zero internal_marks, marks_or_zero external_marks with
      | Some int_val, Some ext_val =>
          if has_total then py_float total_proj_marks
          else Some (fadd int_val ext_val)
      | _, _ => None
      end in
    let calculated_total_proj :=
      match attempt with
      | Some t => t
      | None =>
          if has_total then default (fZ 0) (py_float total_proj_marks)
          else fZ 0
      end in
    let proj_max := default (fZ 200) (float_or (fZ 200) proj_max_marks) in
    let percent_marks :=
      percent_of calculated_total_proj proj_max calculated_total_proj in
    let row' :=
      assign_sub sub_idx
        [("NM", VStr (if String.eqb proj_name "" then "PROJECT" else proj_name));
         ("", VStr (if String.eqb proj_code "" then fkey "PROJ" i ""
                    else proj_code));
         ("_TH_MAX", blank);
         ("_CE_MAX", VStr "150");
         ("_TH_MRKS", blank);
         ("_CE_MRKS",
          if in_strs (strip (py_str external_marks)) [""; "None"] then blank
          else external_marks);
         ("_PR_MAX", VStr "50");
         ("_PR_MRKS",
          if in_strs (strip (py_str internal_marks)) [""; "None"] then blank
          else internal_marks);
         ("_TOT", VNum calculated_total_proj);
         ("_PERCENT", VNum percent_marks);
         ("_GRADE", blank);
         ("_GRADE_POINTS", blank);
         ("_CREDIT", project_credit);
         ("_CREDIT_POINTS", blank);
         ("_TOTAL_MAX", VNum proj_max)]
        (new_row st) in
    push_subject project row' (theory_subjects st) st.

(** Body of the due-paper loop (lines 571-583). *)
Definition due_step (row : gmap string pyval) (st : xstate) (i : nat) : xstate :=
  let due_paper := get row (fkey "DP" i "") VNone in
  if notna due_paper
     && negb (in_strs (lower (strip (py_str due_paper))) [""; "nan"; "none"])
  then
    let sub_idx := subject_counter st in
    let due_total := to_numeric (get row (fkey "DPM" i "") blank) in
    let due_field := if notna (VNum due_total) then VNum due_total else blank in
    let row' :=
      <["REMARKS" := get row (fkey "DPR" i "") blank]>
        (assign_sub sub_idx
           [("NM", VStr "DUE OF PREVIOUS SEM");
            ("", VStr (strip (py_str due_paper)));
            ("_CREDIT", get row (fkey "DCR" i "") blank);
            ("_TOT", due_field);
            ("_PERCENT", due_field)]
           (new_row st)) in
    push_subject due row' (theory_subjects st) st
  else st.

(** The direct mappings at the head of [transform_row] (lines 203-241). *)
Definition direct_mappings (row : gmap string pyval) : gmap string pyval :=
  let copy (k src : string) := (k, get row src blank) in
  let grand_tot := strip (py_str (get row "GTOT" blank)) in
  let abc := get row "ABCID" blank in
  assign
    ([copy "ORG_NAME" "ORG_NAME";
      copy "ACADEMIC_COURSE_ID" "ACADEMIC_COURSE_ID";
      copy "COURSE_NAME" "COURSE_NAME";
      copy "ADMISSION_YEAR" "ADMISSION_YEAR";
      copy "SESSION" "SESSION";
      copy "AADHAAR_NAME" "AADHAAR_NAME";
      ("DOB", VStr (format_dob (get row "DOB" blank)));
      copy "MRKS_REC_STATUS" "MRKS_REC_STATUS";
      copy "STREAM" "STREAM";
      copy "RROLL" "RNO";
      copy "REGN_NO" "ENO";
      copy "CNAME" "NAME";
      copy "FNAME" "FNAME";
      copy "MNAME" "MNAME";
      copy "GENDER" "SEX";
      copy "CASTE" "CAST";
      copy "RESULT" "RESULT"] ++
     (if has_char "/" grand_tot then
        let parts := split_on "/" grand_tot in
        [("GRAND_TOT_MRKS", VStr (strip (part 0 parts)));
         ("GRAND_TOT_MAX", VStr (strip (part 1 parts)))]
      else
        [("GRAND_TOT_MRKS", VStr grand_tot);
         copy "GRAND_TOT_MAX" "TTOT"]) ++
     [copy "GRAND_TOT_MAX" "GTOT_MAX";
      copy "TOT_MRKS" "GTOT";
      copy "PERCENT" "PER";
      ("ABC_ACCOUNT_ID",
       if truthy abc then abc else get row "ABC_ACCOUNT_ID" blank);
      copy "YEAR" "YEAR";
      copy "MONTH" "MONTH";
      copy "SEM" "SEM";
      copy "EXAM_TYPE" "CAT"])
    ∅.

(** [range(1, 20)]. *)
Definition indices : list nat := seq 1 19.

(** The four subject loops (lines 243-583). *)
Definition extract (row : gmap string pyval) : xstate :=
  let st0 := {| new_row := direct_mappings row; subject_counter := 1;
                theory_subjects := []; subject_meta := [] |} in
  let st1 := fold_left (theory_step row) indices st0 in
  let st2 := fold_left (practical_step row) indices st1 in
  let st3 := fold_left (project_step row) indices st2 in
  fold_left (due_step row) indices st3.

(** *** Grace marks (lines 585-657) *)

Definition total_theory_max (ths : list (nat * pyfloat * pyfloat)) : pyfloat :=
  fsum (map snd ths).

Definition grace_limit (ths : list (nat * pyfloat * pyfloat)) : pyfloat :=
  py_min (fmul (total_theory_max ths) (Fin (1 # 100))) (fZ 6).

(** The theory subjects below the theory passing percent.  The totals stored
    in [theory_subjects] are floats already, so [float(tot_marks)] cannot
    raise; every entry has the type tag ["theory"], which is left out. *)
Definition failed_subjects (cfg : scheme) (ths : list (nat * pyfloat * pyfloat))
    : list (nat * pyfloat * pyfloat) :=
  List.filter
    (fun t => flt (percent_of (snd (fst t)) (snd t) (fZ 0))
                  (fZ (theory_passing cfg)))
    ths.

(** [max(0, (min_percent * max_marks) - marks)]. *)
Definition needed_marks (cfg : scheme) (marks max_marks : pyfloat) : pyfloat :=
  let min_percent := fdiv (fZ (theory_passing cfg)) (fZ 100) in
  py_max (fZ 0) (fsub (fmul min_percent max_marks) marks).

Definition shortfall (cfg : scheme) (failed : list (nat * pyfloat * pyfloat))
    : pyfloat :=
  fold_left (fun acc t => fadd acc (needed_marks cfg (snd (fst t)) (snd t)))
            failed (fZ 0).

(** [subject_meta.get(idx)]. *)
Definition meta_get (meta : list (nat * kind)) (idx : nat) : option kind :=
  snd <$> List.find (fun e => Nat.eqb (fst e) idx) meta.

Definition init_grace (meta : list (nat * kind)) (m : gmap string pyval)
    : gmap string pyval :=
  fold_left
    (fun m e => if kind_eqb (snd e) theory
                then <[subkey (fst e) "_GRACE" := VStr "G-0"]> m else m)
    meta m.

(** The aggregate gate (lines 615-641).  The division raises [TypeError] when
    [GTOT] is not a number; every exception ends in [allow_grace = True]. *)
Definition allow_grace (cfg : scheme) (row : gmap string pyval) : bool :=
  match py_float (get row "GTOT_MAX" (VNum (fZ 0))) with
  | Some grand_total_maximum =>
      if fgt grand_total_maximum (fZ 0) then
        match get row "GTOT" blank with
        | VNum grand_total_marks =>
            let percent :=
              fmul (fdiv grand_total_marks grand_total_maximum) (fZ 100) in
            fge percent (fZ (aggregate_passing cfg))
        | _ => true
        end
      else true
  | None => true
  end.

Definition is_practical_kind (k : option kind) : bool :=
  match k with
  | Some (practical_no_grace | practical | practical_with_max | project) => true
  | _ => false
  end.

Definition grace_note (n : Z) : pyval := VStr ("G-" +:+ z_str n).

Definition distribute_step (cfg : scheme) (meta : list (nat * kind))
    (gs : gstate) (t : nat * pyfloat * pyfloat) : gstate :=
  let idx := fst (fst t) in
  if is_practical_kind (meta_get meta idx) then gs
  else
    let needed := needed_marks cfg (snd (fst t)) (snd t) in
    if fgt needed (fZ 0) && fgt (g_limit gs) (fZ 0) then
      let grace_given := py_min needed (g_limit gs) in
      {| g_row := <[subkey idx "_GRACE" := grace_note (py_int_round grace_given)]>
                    (g_row gs);
         g_limit := fsub (g_limit gs) grace_given;
         given := given gs ++ [(idx, grace_given)] |}
    else gs.

(** Lines 585-657: the state after the distribution of grace. *)
Definition grace_phase (cfg : scheme) (row : gmap string pyval) (st : xstate)
    : gstate :=
  let limit := grace_limit (theory_subjects st) in
  let failed := failed_subjects cfg (theory_subjects st) in
  let gs0 := {| g_row := init_grace (subject_meta st) (new_row st);
                g_limit := limit; given := [] |} in
  if allow_grace cfg row && fle (shortfall cfg failed) limit then
    fold_left (distribute_step cfg (subject_meta st)) failed gs0
  else gs0.

(** *** Grades and points (lines 659-713) *)

(** The number read back from a grace annotation (lines 666-674). *)
Definition grace_value (v : pyval) : pyfloat :=
  match v with
  | VStr s =>
      if starts_with_G s then default (fZ 0) (float_of_string (remove_G s))
      else fZ 0
  | _ => fZ 0
  end.

(** The percent with the grace added (lines 682-691); [None] is the
    exception that the source swallows. *)
Definition percent_with_grace (m : gmap string pyval) (sub_idx : nat)
    (percent_marks : pyval) (grace_val : pyfloat) : option pyval :=
  th_max ← py_float (get m (subkey sub_idx "_TH_MAX") (VNum (fZ 100)));
  ce_max ← py_float (get m (subkey sub_idx "_CE_MAX") (VNum (fZ 0)));
  let total_max := if fgt ce_max (fZ 0) then fadd th_max ce_max else fZ 100 in
  ratio ← py_div grace_val total_max;
  p ← py_float percent_marks;
  Some (VNum (fadd p (fmul ratio (fZ 100)))).

(** The value handed to [compute_grade_and_points] for one subject. *)
Definition graded_percent (m : gmap string pyval) (sub_idx : nat) (k : kind)
    : pyval :=
  let percent_marks := get m (subkey sub_idx "_PERCENT") blank in
  let grace_val := grace_value (get m (subkey sub_idx "_GRACE") blank) in
  if kind_eqb k theory && fgt grace_val (fZ 0) then
    default percent_marks (percent_with_grace m sub_idx percent_marks grace_val)
  else percent_marks.

Definition is_practical_for_grading (k : kind) : bool :=
  match k with
  | practical | practical_with_max | project => true
  | _ => false
  end.

Definition grade_step (cfg : scheme) (cs : cstate) (e : nat * kind) : cstate :=
  let sub_idx := fst e in
  let m := c_row cs in
  let grace_val := grace_value (get m (subkey sub_idx "_GRACE") blank) in
  let percent_marks := graded_percent m sub_idx (snd e) in
  let m1 :=
    <[subkey sub_idx "_GRACE" :=
        if fgt grace_val (fZ 0) then grace_note (py_int grace_val) else blank]> m in
  let '(grade, gp) :=
    compute_grade_and_points percent_marks (is_practical_for_grading (snd e))
                             (Some cfg) in
  let credit :=
    default (fZ 0) (py_float (get m1 (subkey sub_idx "_CREDIT") (VNum (fZ 0)))) in
  let credit_points := fmul (fZ gp) credit in
  {| c_row :=
       assign_sub sub_idx
         [("_GRADE", VStr grade);
          ("_GRADE_POINTS", VNum (fZ gp));
          ("_CREDIT_POINTS", VNum credit_points)] m1;
     total_credits := fadd (total_credits cs) credit;
     total_credit_points := fadd (total_credit_points cs) credit_points |}.

Definition grade_all (cfg : scheme) (meta : list (nat * kind))
    (m : gmap string pyval) : cstate :=
  fold_left (grade_step cfg) meta
    {| c_row := m; total_credits := fZ 0; total_credit_points := fZ 0 |}.

(** *** SGPA and result (lines 715-741) *)

Definition finish (cfg : scheme) (cs : cstate) : gmap string pyval :=
  if fgt (total_credits cs) (fZ 0) then
    let sgpa := fdiv (total_credit_points cs) (total_credits cs) in
    let m :=
      assign [("TOT_CREDIT", VNum (total_credits cs));
              ("TOT_CREDIT_POINTS", VNum (total_credit_points cs));
              ("SGPA", VNum (py_round2 sgpa))] (c_row cs) in
    match py_float (get m "GRAND_TOT_MRKS" (VNum (fZ 0))),
          py_float (get m "GRAND_TOT_MAX" (VNum (fZ 0))) with
    | Some grand_tot_marks, Some grand_tot_max =>
        if fgt grand_tot_max (fZ 0) then
          let percent := fmul (fdiv grand_tot_marks grand_tot_max) (fZ 100) in
          if fge percent (fZ (aggregate_passing cfg)) && fge sgpa (fZ 4)
          then <["RESULT" := VStr "PASS"]> m
          else <["RESULT" := VStr "FAIL"]> m
        else m
    | _, _ => m
    end
  else
    assign [("TOT_CREDIT", VNum (fZ 0));
            ("TOT_CREDIT_POINTS", VNum (fZ 0));
            ("SGPA", VNum (fZ 0))] (c_row cs).

Definition transform_row (row : gmap string pyval) (cfg : scheme)
    : gmap string pyval :=
  let st := extract row in
  let gs := grace_phase cfg row st in
  finish cfg (grade_all cfg (subject_meta st) (g_row gs)).

End Model.

(* ===================================================================== *)
(** ** The specification's wording *)
(* ===================================================================== *)

Section SpecWords.
Context {L : PyLib}.

(** The grade table of the specification, read top to bottom. *)
Definition spec_grade_table (percent : pyfloat) (passing_threshold : Z)
    : string * Z :=
  if fge percent (fZ 91) then ("O", 10%Z)
  else if fge percent (fZ 81) then ("A+", 9%Z)
  else if fge percent (fZ 71) then ("A", 8%Z)
  else if fge percent (fZ 61) then ("B+", 7%Z)
  else if fge percent (fZ 51) then ("B", 6%Z)
  else if fge percent (fZ 41) then ("C+", 5%Z)
  else if fge percent (fZ passing_threshold) then ("C", 4%Z)
  else ("F", 0%Z).

(** The table with its two special cases: the absent marker, and a value
    that is not a number. *)
Definition spec_grade (v : pyval) (passing_threshold : Z) : string * Z :=
  if String.eqb (upper (strip (py_str v))) "AB" then ("AB", 0%Z)
  else
    match py_float v with
    | Some percent => spec_grade_table percent passing_threshold
    | None => ("", 0%Z)
    end.

(** The threshold by kind as the specification states it. *)
Definition stated_threshold (cfg : scheme) (k : kind) : Z :=
  match k with
  | practical | practical_with_max | practical_no_grace | project =>
      practical_passing cfg
  | theory | due => theory_passing cfg
  end.

(** The threshold by kind that the grading loop passes on. *)
Definition graded_threshold (cfg : scheme) (k : kind) : Z :=
  match k with
  | practical | practical_with_max | project => practical_passing cfg
  | theory | due | practical_no_grace => theory_passing cfg
  end.



End SpecWords.

(** Equality of numbers up to the representation of a rational. *)
Definition feq (a b : pyfloat) : Prop :=
  match a, b with
  | Fin x, Fin y => (x == y)%Q
  | PInf, PInf | NInf, NInf | NaN, NaN => True
  | _, _ => False
  end.

(* ===================================================================== *)
(** ** Invariants and readings of the output *)
(* ===================================================================== *)

Section Notions.
Context {L : PyLib}.

(** Keys outside the subject blocks. *)
Definition plain_key (key : string) : Prop :=
  match key with
  | String "S" (String "U" (String "B" _)) => False
  | _ => True
  end.

(** The binding of [s] left by a run of assignments, last one first. *)
Fixpoint alookup (s : string) (svs : list (string * pyval)) (d : option pyval)
    : option pyval :=
  match svs with
  | [] => d
  | sv :: r => alookup s r (if String.eqb s (fst sv) then Some (snd sv) else d)
  end.

Definition ok_suffix (s : string) : bool :=
  (nodigit_head s && negb (String.eqb s "_GRACE"))%bool.

Definition remarks (rem : option pyval) (m : gmap string pyval)
    : gmap string pyval :=
  match rem with
  | Some v => <["REMARKS" := v]> m
  | None => m
  end.

(** What one detected subject does to the state: a block of fields under
    the next free index, possibly the record-level remark, one more entry of
    [subject_meta], and for a theory subject one more of [theory_subjects]. *)
(** The fields of a theory block that the later phases rely on: the percent
    of the total over the maximum, and either the two empty maxima of an
    override or the default maxima 70 and 30 with the maximum 100. *)
Definition theory_fields (read : string -> option pyval) (t m : pyfloat) : Prop :=
  read "_PERCENT" = Some (VNum (percent_of t m (fZ 0)))
  /\ (read "_TH_MAX" = Some blank /\ read "_CE_MAX" = Some blank
      \/ read "_TH_MAX" = Some (VNum (fZ 70))
         /\ read "_CE_MAX" = Some (VNum (fZ 30)) /\ m = fZ 100).

Inductive push_ok (st : xstate) : xstate -> Prop :=
  | push_ok_intro (k : kind) (svs : list (string * pyval)) (rem : option pyval)
      (ths' : list (nat * pyfloat * pyfloat)) :
      forallb ok_suffix (map fst svs) = true ->
      (k <> theory /\ ths' = theory_subjects st
       \/ k = theory /\ exists t m,
            ths' = (theory_subjects st ++ [(subject_counter st, t, m)])%list
            /\ theory_fields (fun s => alookup s svs None) t m) ->
      push_ok st
        (push_subject k
           (remarks rem (assign_sub (subject_counter st) svs (new_row st)))
           ths' st).

Record wf_state (st : xstate) : Prop := {
  wf_counter : 1 <= subject_counter st;
  wf_meta : map fst (subject_meta st) = seq 1 (subject_counter st - 1);
  wf_theory :
    forall t, In t (theory_subjects st) ->
              In (fst (fst t), theory) (subject_meta st);
  wf_theory_only :
    forall idx, In (idx, theory) (subject_meta st) ->
                exists t, In t (theory_subjects st) /\ fst (fst t) = idx;
  wf_theory_nodup : NoDup (map (fun t => fst (fst t)) (theory_subjects st));
  wf_blocks :
    forall t, In t (theory_subjects st) ->
              theory_fields (fun s => new_row st !! subkey (fst (fst t)) s)
                            (snd (fst t)) (snd t);
  wf_no_grace : forall k, new_row st !! subkey k "_GRACE" = None
}.

(** Every grace annotation present is [G-n] for a natural number [n]. *)
Definition grace_ok (m : gmap string pyval) : Prop :=
  forall k, m !! subkey k "_GRACE" = None
            \/ exists n, (0 <= n)%Z /\ m !! subkey k "_GRACE" = Some (grace_note n).

(** Sum of the recorded grants. *)
Definition sum_given (l : list (nat * pyfloat)) : Q :=
  fold_right (fun g acc => match snd g with Fin q => q + acc | _ => acc end)%Q
             0%Q l.

Definition positive_grant (g : nat * pyfloat) : Prop :=
  exists q, snd g = Fin q /\ (0 < q)%Q.

(** The running limit against the limit [L0] the distribution started from:
    what has been given and what is left add up to [L0]. *)
Definition dist_inv (L0 : pyfloat) (gs : gstate) : Prop :=
  Forall positive_grant (given gs)
  /\ (given gs = [] /\ g_limit gs = L0
      \/ exists l0 l, L0 = Fin l0 /\ g_limit gs = Fin l /\ (0 <= l)%Q
                      /\ (sum_given (given gs) + l == l0)%Q).

Definition not_grace_key (key : string) : Prop :=
  forall j, key <> subkey j "_GRACE".

(** The suffixes the grading loop assigns. *)
Definition graded_suffixes : list string :=
  ["_GRACE"; "_GRADE"; "_GRADE_POINTS"; "_CREDIT_POINTS"].

Definition credit_of (m : gmap string pyval) (k : nat) : pyfloat :=
  default (fZ 0) (py_float (get m (subkey k "_CREDIT") (VNum (fZ 0)))).

(** Two maps that agree on the block of subject [k]. *)
Definition block_eq (k : nat) (m m' : gmap string pyval) : Prop :=
  forall s, nodigit_head s = true -> m' !! subkey k s = m !! subkey k s.

(** The four fields written for subject [k] by its own iteration. *)
Record graded_at (cfg : scheme) (m out : gmap string pyval) (k : nat) (c : kind)
    : Prop := {
  ga_grace :
    out !! subkey k "_GRACE"
    = Some (let gv := grace_value (get m (subkey k "_GRACE") blank) in
            if fgt gv (fZ 0) then grace_note (py_int gv) else blank);
  ga_grade :
    out !! subkey k "_GRADE"
    = Some (VStr (fst (compute_grade_and_points
                         (graded_percent m k c) (is_practical_for_grading c)
                         (Some cfg))));
  ga_points :
    out !! subkey k "_GRADE_POINTS"
    = Some (VNum (fZ (snd (compute_grade_and_points
                             (graded_percent m k c) (is_practical_for_grading c)
                             (Some cfg)))));
  ga_credit_points :
    out !! subkey k "_CREDIT_POINTS"
    = Some (VNum (fmul (fZ (snd (compute_grade_and_points
                                   (graded_percent m k c)
                                   (is_practical_for_grading c) (Some cfg))))
                       (credit_of m k)))
}.

(** The record-level fields left by the last part of [transform_row]. *)
Definition result_field (cfg : scheme) (cs : cstate) : option pyval :=
  if fgt (total_credits cs) (fZ 0) then
    match py_float (get (c_row cs) "GRAND_TOT_MRKS" (VNum (fZ 0))),
          py_float (get (c_row cs) "GRAND_TOT_MAX" (VNum (fZ 0))) with
    | Some gm, Some gx =>
        if fgt gx (fZ 0) then
          Some (VStr (if fge (fmul (fdiv gm gx) (fZ 100))
                             (fZ (aggregate_passing cfg))
                         && fge (fdiv (total_credit_points cs) (total_credits cs))
                                (fZ 4)
                      then "PASS" else "FAIL"))
        else c_row cs !! "RESULT"
    | _, _ => c_row cs !! "RESULT"
    end
  else c_row cs !! "RESULT".




End Notions.

(* ===================================================================== *)
(** ** Further readings of the record and of its subject blocks *)
(* ===================================================================== *)

(** The columns that [transform_row] copies under a new or the same name:
    output column first, input column second (lines 206-241). *)
Definition copied_columns : list (string * string) :=
  [("ORG_NAME", "ORG_NAME"); ("ACADEMIC_COURSE_ID", "ACADEMIC_COURSE_ID");
   ("COURSE_NAME", "COURSE_NAME"); ("ADMISSION_YEAR", "ADMISSION_YEAR");
   ("SESSION", "SESSION"); ("AADHAAR_NAME", "AADHAAR_NAME");
   ("MRKS_REC_STATUS", "MRKS_REC_STATUS"); ("STREAM", "STREAM");
   ("RROLL", "RNO"); ("REGN_NO", "ENO"); ("CNAME", "NAME");
   ("FNAME", "FNAME"); ("MNAME", "MNAME"); ("GENDER", "SEX");
   ("CASTE", "CAST"); ("GRAND_TOT_MAX", "GTOT_MAX"); ("TOT_MRKS", "GTOT");
   ("PERCENT", "PER"); ("YEAR", "YEAR"); ("MONTH", "MONTH"); ("SEM", "SEM");
   ("EXAM_TYPE", "CAT")].

(** The record-level fields that the last part of [transform_row] writes. *)
Definition result_keys : list string :=
  ["TOT_CREDIT"; "TOT_CREDIT_POINTS"; "SGPA"; "RESULT"].

(** [sep.join(parts)]. *)
Fixpoint sjoin (sep : ascii) (parts : list string) : string :=
  match parts with
  | [] => ""
  | [p] => p
  | p :: r => p +:+ String sep (sjoin sep r)
  end.

Section BlockNotions.
Context {L : PyLib}.

(** The marks columns of a subject block. *)
Definition marks_suffixes : list string :=
  ["_TH_MAX"; "_CE_MAX"; "_TH_MRKS"; "_CE_MRKS"; "_PR_MAX"; "_PR_MRKS";
   "_TOTAL_MAX"].

(** The fields that are fixed by the kind of a subject: a practical without
    maximum columns has the maxima 70 and 30 and its total as percent; a
    practical with maximum columns repeats its total as practical marks and
    has a numeric total maximum; a project has the maxima 150 and 50
    whatever its own maximum is; a due paper has a fixed name and no marks
    column at all. *)
Definition kind_fields (c : kind) (read : string -> option pyval) : Prop :=
  match c with
  | theory => True
  | practical =>
      read "_TH_MAX" = Some blank /\ read "_CE_MAX" = Some blank
      /\ read "_TOTAL_MAX" = None
  | practical_with_max =>
      read "_PR_MRKS" = read "_TOT"
      /\ exists x, read "_TOTAL_MAX" = Some (VNum x)
  | practical_no_grace =>
      read "_TH_MAX" = Some (VNum (fZ 70)) /\ read "_CE_MAX" = Some (VNum (fZ 30))
      /\ read "_PERCENT" = read "_TOT"
  | project =>
      read "_TH_MAX" = Some blank /\ read "_CE_MAX" = Some (VStr "150")
      /\ read "_PR_MAX" = Some (VStr "50")
      /\ exists x, read "_TOTAL_MAX" = Some (VNum x)
  | due =>
      read "NM" = Some (VStr "DUE OF PREVIOUS SEM")
      /\ forall s, In s marks_suffixes -> read s = None
  end.

(** What the block of a subject of kind [c] under the index [k] holds when
    the subject loops have written it: a name and a code, a total, a credit
    and a percent; the percent is a number, or empty for a practical of the
    old format or a due paper whose marks are not numeric; the credit of a
    theory subject and of the practical that follows it is the input column
    [CH] of the subject's own index [k]. *)
Definition block_fields (row : gmap string pyval) (c : kind) (k : nat)
    (read : string -> option pyval) : Prop :=
  (exists nm code, read "NM" = Some (VStr nm) /\ read "" = Some (VStr code))
  /\ is_Some (read "_TOT") /\ is_Some (read "_CREDIT")
  /\ ((exists p, read "_PERCENT" = Some (VNum p))
      \/ (c = practical \/ c = due) /\ read "_PERCENT" = Some blank)
  /\ (c = theory \/ c = practical ->
      read "_CREDIT" = Some (get row (fkey "CH" k "") blank))
  /\ kind_fields c read.

Inductive block_push (row : gmap string pyval) (st : xstate) : xstate -> Prop :=
  | block_push_intro (c : kind) (svs : list (string * pyval))
      (rem : option pyval) (ths' : list (nat * pyfloat * pyfloat)) :
      forallb ok_suffix (map fst svs) = true ->
      block_fields row c (subject_counter st) (fun s => alookup s svs None) ->
      block_push row st
        (push_subject c
           (remarks rem (assign_sub (subject_counter st) svs (new_row st)))
           ths' st).

(** The subject blocks present are those of the subjects registered, each
    with its fields. *)
Record blocks_ok (row : gmap string pyval) (st : xstate) : Prop := {
  bo_counter : 1 <= subject_counter st;
  bo_index :
    forall k c, In (k, c) (subject_meta st) -> 1 <= k < subject_counter st;
  bo_fields :
    forall k c, In (k, c) (subject_meta st) ->
                block_fields row c k (fun s => new_row st !! subkey k s);
  bo_closed :
    forall k s, k = 0 \/ subject_counter st <= k -> nodigit_head s = true ->
                new_row st !! subkey k s = None
}.

(** The test of the due-paper loop (line 573): the column [DP] of the index
    holds a value that is neither missing nor blank. *)
Definition due_detected (row : gmap string pyval) (i : nat) : bool :=
  let due_paper := get row (fkey "DP" i "") VNone in
  notna due_paper
  && negb (in_strs (lower (strip (py_str due_paper))) [""; "nan"; "none"]).

End BlockNotions.

(** The suffixes every subject block of the output carries. *)
Definition block_suffixes : list string :=
  ["NM"; ""; "_TOT"; "_PERCENT"; "_CREDIT"; "_GRACE"; "_GRADE";
   "_GRADE_POINTS"; "_CREDIT_POINTS"].

(** The letters [compute_grade_and_points] gives to a number. *)
Definition grade_letters : list string :=
  ["O"; "A+"; "A"; "B+"; "B"; "C+"; "C"; "F"].

(* ===================================================================== *)
(** ** The frame transformer and the web service *)
(* ===================================================================== *)

(** [s.replace(old, new)] for a pattern of one character. *)
Fixpoint replace_char (old : ascii) (new : string) (s : string) : string :=
  match s with
  | String c s' =>
      if Ascii.eqb c old then new +:+ replace_char old new s'
      else String c (replace_char old new s')
  | EmptyString => EmptyString
  end.

(** [s.endswith(suffix)]. *)
Definition ends_with (suffix s : string) : bool :=
  String.prefix (srev suffix) (srev s).

(** [sorted(l)] on strings: ascending in the order of the character codes. *)
Fixpoint insert_sorted (s : string) (l : list string) : list string :=
  match l with
  | [] => [s]
  | x :: r => if String.leb s x then s :: l else x :: insert_sorted s r
  end.

Definition sorted (l : list string) : list string :=
  fold_right insert_sorted [] l.

(** The value of one course in the reply of [/courses]. *)
Record course_info : Type := {
  ci_scheme : string;
  ci_theory_passing : Z;
  ci_practical_passing : Z;
  ci_aggregate_passing : Z
}.

Definition info_of (e : string * scheme) : course_info :=
  {| ci_scheme := fst e;
     ci_theory_passing := theory_passing (snd e);
     ci_practical_passing := practical_passing (snd e);
     ci_aggregate_passing := aggregate_passing (snd e) |}.

Record courses_reply : Type := {
  total_courses : nat;
  listed_courses : list string;
  course_scheme_mapping : gmap string course_info
}.

(** [get_courses] of [src/app.py]: the two nested loops over the registry,
    the later entry of a course replacing an earlier one in the mapping. *)
Definition get_courses : courses_reply :=
  let acc :=
    fold_left
      (fun acc e =>
         fold_left
           (fun acc course =>
              ((fst acc ++ [course])%list, <[course := info_of e]> (snd acc)))
           (courses (snd e)) acc)
      SCHEME_CONFIG (([] : list string), (∅ : gmap string course_info)) in
  {| total_courses := length (fst acc);
     listed_courses := sorted (fst acc);
     course_scheme_mapping := snd acc |}.

(** An exception raised while the upload is read: the [HTTPException] of the
    handler itself, or an error of the reading library. *)
Inductive exn : Type :=
  | HTTPException (status_code : nat) (detail : string)
  | LibraryError (message : string).

(** What the handler of [/transform] answers: the file to download with its
    headers, or an [HTTPException] with its status and detail. *)
Inductive response : Type :=
  | Download (body : string) (headers : list (string * string))
  | Failure (status_code : nat) (detail : string).

Record UploadFile (content : Type) : Type := {
  filename : option string;
  file : content
}.
Arguments filename {content} _.
Arguments file {content} _.

Definition safe_course_name (course : string) : string :=
  replace_char "/" "-" (replace_char "." "" (replace_char " " "_" course)).

Section Service.
Context {L : PyLib}.

(** [transform_dataframe] (lines 744-762).  A frame is given by the records
    that [row.to_dict()] yields for its rows, in order, and the result by the
    records handed to [pd.DataFrame]; [None] is the [ValueError] of
    [get_scheme_for_course].  The messages printed are left out. *)
Definition transform_dataframe (df : list (gmap string pyval)) (course : string)
    : option (list (gmap string pyval)) :=
  match get_scheme_for_course course with
  | Some (scheme_name, scheme_config) =>
      Some (map (fun row => transform_row row scheme_config) df)
  | None => None
  end.

(** The frame library, as far as the handler uses it: the three readers, the
    test [df.empty], the rows of a frame, the CSV text of the records, and
    the text [str(e)] of an exception. *)
Context {content frame : Type}.
Variable read_csv : content -> exn + frame.
Variable read_excel_openpyxl : content -> exn + frame.
Variable read_excel_xlrd : content -> exn + frame.
Variable frame_empty : frame -> bool.
Variable frame_rows : frame -> list (gmap string pyval).
Variable to_csv : list (gmap string pyval) -> string.
Variable exn_str : exn -> string.

(** The body of the [try] block that reads the upload. *)
Definition read_upload (name : string) (f : content) : exn + frame :=
  if ends_with ".csv" name then read_csv f
  else if ends_with ".xlsx" name then read_excel_openpyxl f
  else if ends_with ".xls" name then read_excel_xlrd f
  else inl (HTTPException 400
              "Unsupported file format. Please upload CSV, XLS, or XLSX file").

(** [transform_marks] of [src/app.py]. *)
Definition transform_marks (course : string)
    (upload : option (UploadFile content)) : response :=
  match get_scheme_for_course course with
  | None =>
      Failure 400
        ("Course '" +:+ course +:+ "' not found in any scheme configuration")
  | Some (scheme_name, scheme_config) =>
      match upload with
      | None => Failure 400 "No file uploaded"
      | Some f =>
          match filename f with
          | None | Some EmptyString => Failure 400 "File has no name"
          | Some name =>
              match read_upload name (file f) with
              | inl e => Failure 500 ("Error reading file: " +:+ exn_str e)
              | inr df =>
                  if frame_empty df then Failure 400 "Uploaded file is empty"
                  else
                    match transform_dataframe (frame_rows df) course with
                    | None =>
                        Failure 500
                          ("Error transforming data: Course '" +:+ course
                           +:+ "' not found in any scheme configuration")
                    | Some transformed =>
                        let filename :=
                          "transformed_" +:+ safe_course_name course +:+ "_"
                          +:+ scheme_name +:+ ".csv" in
                        Download (to_csv transformed)
                          [("Content-Disposition",
                            "attachment; filename=" +:+ filename);
                           ("X-Scheme-Used", scheme_name);
                           ("X-Theory-Passing",
                            z_str (theory_passing scheme_config));
                           ("X-Practical-Passing",
                            z_str (practical_passing scheme_config));
                           ("X-Aggregate-Passing",
                            z_str (aggregate_passing scheme_config))]
                    end
              end
          end
      end
  end.

End Service.

(* ===================================================================== *)
(** ** Sample records *)
(* ===================================================================== *)

Definition record (l : list (string * pyval)) : gmap string pyval :=
  list_to_map l.

Definition theory_paper (i ea ia ch : string) : list (string * pyval) :=
  [("TIT" +:+ i, VStr ("PAPER " +:+ i)); ("SUB" +:+ i, VStr ("SUBJECT " +:+ i));
   ("COD" +:+ i, VStr ("C" +:+ i)); ("EA" +:+ i, VStr ea);
   ("IA" +:+ i, VStr ia); ("CH" +:+ i, VStr ch)].

(** A practical in the [CODP] columns without any maximum column: 38 marks. *)
Definition row_plain_practical : gmap string pyval :=
  record [("CODP1", VStr "P101"); ("SUBP1", VStr "CHEMISTRY LAB");
          ("EAP1", VStr "28"); ("IAP1", VStr "10"); ("CHP1", VStr "2")].

(** Five theory papers of 100 marks, three of them at 34.5. *)
Definition row_half_marks : gmap string pyval :=
  record (theory_paper "1" "24.5" "10" "4" ++ theory_paper "2" "24.5" "10" "4"
          ++ theory_paper "3" "24.5" "10" "4" ++ theory_paper "4" "40" "20" "4"
          ++ theory_paper "5" "50" "25" "4").


(** One theory paper at 30 of 100: six marks short, with a limit of one. *)
Definition row_six_short : gmap string pyval :=
  record (theory_paper "1" "20" "10" "4").

(** One theory paper one mark short; the grand total is the text
    [200/600], the grand maximum the number 600. *)
Definition row_text_total : gmap string pyval :=
  record (theory_paper "1" "25" "10" "4"
          ++ [("GTOT", VStr "200/600"); ("GTOT_MAX", VNum (fZ 600))]).

(** The same record with the grand total as the number 200. *)
Definition row_number_total : gmap string pyval :=
  record (theory_paper "1" "25" "10" "4"
          ++ [("GTOT", VNum (fZ 200)); ("GTOT_MAX", VNum (fZ 600))]).

(** A passed theory paper; the grand total is the absent marker. *)
Definition row_absent_total : gmap string pyval :=
  record (theory_paper "1" "40" "20" "4"
          ++ [("GTOT", VStr "AB"); ("GTOT_MAX", VNum (fZ 600))]).

(** Two theory papers: grade C with 3 credits, grade C+ with 4 credits. *)
Definition row_sevenths : gmap string pyval :=
  record (theory_paper "1" "28" "10" "3" ++ theory_paper "2" "30" "15" "4").


(** A theory paper (32 + 28) followed by its practical, marked [18/20]. *)
Definition row_legacy_practical : gmap string pyval :=
  record (theory_paper "1" "32" "28" "4"
          ++ [("PRSUB1", VStr "PHYSICS LAB"); ("PR1", VStr "PL1");
              ("P1", VStr "18/20"); ("CH2", VStr "2")]).

(** A theory paper with a total of 71 over an override maximum of 200. *)
Definition row_override : gmap string pyval :=
  record [("TIT1", VStr "PAPER 1"); ("SUB1", VStr "SUBJECT 1");
          ("T1", VStr "71"); ("T1_MAX", VStr "200"); ("CH1", VStr "4")].

(** Theory papers in the input columns 1 and 3 only; the column CH2 belongs
    to no paper of the input. *)
Definition row_gap : gmap string pyval :=
  record (theory_paper "1" "50" "20" "4" ++ theory_paper "3" "40" "20" "3"
          ++ [("CH2", VStr "9")]).

(** A paper whose title is a missing value and whose other columns are
    filled. *)
Definition row_missing_title : gmap string pyval :=
  record [("TIT1", VNum NaN); ("COD1", VStr "C1"); ("EA1", VStr "40");
          ("IA1", VStr "20"); ("CH1", VStr "4")].

(** A theory paper and two due papers with their remarks. *)
Definition row_two_dues : gmap string pyval :=
  record (theory_paper "1" "40" "20" "4"
          ++ [("DP1", VStr "D101"); ("DPM1", VStr "45"); ("DPR1", VStr "FIRST");
              ("DP2", VStr "D102"); ("DPM2", VStr "AB"); ("DPR2", VStr "SECOND")]).

(** A project without a code: 40 internal and 120 external marks. *)
Definition row_project : gmap string pyval :=
  record [("SUBPROJ1", VStr "THESIS"); ("IPROJ1", VStr "40");
          ("EPROJ1", VStr "120"); ("CHPROJ1", VStr "6")].

(* ===================================================================== *)
(** ** A concrete library instance on decimal notation *)
(* ===================================================================== *)

(** Unsigned decimal literal [digits] or [digits.digits]. *)
Definition parse_unsigned (s : string) : option Q :=
  match split_on "." s with
  | [ip] =>
      if String.eqb ip "" then None
      else (fun u => inject_Z (Z.of_nat (Nat.of_uint u)))
             <$> NilEmpty.uint_of_string ip
  | [ip; fp] =>
      if String.eqb ip "" && String.eqb fp "" then None
      else
        match NilEmpty.uint_of_string ip, NilEmpty.uint_of_string fp with
        | Some a, Some b =>
            Some (inject_Z (Z.of_nat (Nat.of_uint a))
                  + inject_Z (Z.of_nat (Nat.of_uint b))
                    / inject_Z (10 ^ Z.of_nat (String.length fp)))%Q
        | _, _ => None
        end
  | _ => None
  end.

Definition dec_float_of_string (s : string) : option pyfloat :=
  match strip s with
  | String c r =>
      if Ascii.eqb c "-" then (fun q => Fin (- q)) <$> parse_unsigned r
      else if Ascii.eqb c "+" then Fin <$> parse_unsigned r
      else Fin <$> parse_unsigned (String c r)
  | EmptyString => None
  end.

Definition dec_to_numeric (s : string) : pyfloat :=
  default NaN (dec_float_of_string s).

Fixpoint frac_digits (n : nat) (x : Q) : string :=
  match n with
  | O => ""
  | S n' =>
      let d := Qfloor (x * 10) in
      dec (Z.to_nat d) +:+ frac_digits n' (x * 10 - inject_Z d)
  end.

(** Integers print as Python prints an [int]; other values with six
    decimals. *)
Definition dec_repr (q : Q) : string :=
  let a := Qabs q in
  let ip := Qfloor a in
  (if Qltb q 0 then "-" else "") +:+ dec (Z.to_nat ip) +:+
  (if Qeq_bool a (inject_Z ip) then ""
   else "." +:+ frac_digits 6 (a - inject_Z ip)).

#[export] Instance dec_lib : PyLib := {|
  fin_repr := dec_repr;
  float_of_string := dec_float_of_string;
  to_numeric_string := dec_to_numeric
|}.

(* ===================================================================== *)
(** ** Facts on numbers *)
(* ===================================================================== *)

Lemma Qltb_lt (x y : Q) : Qltb x y = true <-> (x < y)%Q.
Proof.
  unfold Qltb. rewrite negb_true_iff. split.
  - intros H. apply Qnot_le_lt. intros Hle.
    apply Qle_bool_iff in Hle. congruence.
  - intros H. destruct (Qle_bool y x) eqn:E; [|reflexivity].
    apply Qle_bool_iff in E. apply Qlt_not_le in H. contradiction.
Qed.

Lemma Qltb_ge (x y : Q) : Qltb x y = false <-> (y <= x)%Q.
Proof.
  unfold Qltb. rewrite negb_false_iff. apply Qle_bool_iff.
Qed.

Lemma Qle_bool_gt (x y : Q) : Qle_bool x y = false <-> (y < x)%Q.
Proof.
  rewrite <- Qltb_lt. unfold Qltb. rewrite negb_true_iff. reflexivity.
Qed.

Lemma Qeq_bool_false (x y : Q) : Qeq_bool x y = false <-> ~ (x == y)%Q.
Proof.
  split.
  - intros H E. apply Qeq_bool_iff in E. congruence.
  - intros H. destruct (Qeq_bool x y) eqn:E; [|reflexivity].
    apply Qeq_bool_iff in E. contradiction.
Qed.




(** Turns the boolean comparisons of a goal and its context into
    propositions on rationals. *)
Ltac qbool :=
  repeat match goal with
  | H : Qltb _ _ = true |- _ => apply Qltb_lt in H
  | H : Qltb _ _ = false |- _ => apply Qltb_ge in H
  | H : Qle_bool _ _ = true |- _ => apply Qle_bool_iff in H
  | H : Qle_bool _ _ = false |- _ => apply Qle_bool_gt in H
  | H : Qeq_bool _ _ = true |- _ => apply Qeq_bool_iff in H
  | H : Qeq_bool _ _ = false |- _ => apply Qeq_bool_false in H
  | |- Qltb _ _ = true => apply Qltb_lt
  | |- Qltb _ _ = false => apply Qltb_ge
  | |- Qle_bool _ _ = true => apply Qle_bool_iff
  | |- Qle_bool _ _ = false => apply Qle_bool_gt
  | |- Qeq_bool _ _ = true => apply Qeq_bool_iff
  | |- Qeq_bool _ _ = false => apply Qeq_bool_false
  end.

Lemma round_half_even_bounds (q : Q) :
  (inject_Z (round_half_even q) - (1 # 2) <= q
   /\ q <= inject_Z (round_half_even q) + (1 # 2))%Q.
Proof.
  unfold round_half_even.
  pose proof (Qfloor_le q) as Hlo. pose proof (Qlt_floor q) as Hhi.
  rewrite inject_Z_plus in Hhi. change (inject_Z 1) with 1%Q in Hhi.
  destruct (Qltb (q - inject_Z (Qfloor q)) (1 # 2)) eqn:E1.
  { qbool. split; lra. }
  destruct (Qltb (1 # 2) (q - inject_Z (Qfloor q))) eqn:E2.
  { qbool. rewrite inject_Z_plus. change (inject_Z 1) with 1%Q. split; lra. }
  qbool. destruct (Z.even (Qfloor q)).
  - split; lra.
  - rewrite inject_Z_plus. change (inject_Z 1) with 1%Q. split; lra.
Qed.

Lemma round_half_even_Z (z : Z) : round_half_even (inject_Z z) = z.
Proof.
  unfold round_half_even. rewrite Qfloor_Z.
  replace (Qltb (inject_Z z - inject_Z z) (1 # 2)) with true; [reflexivity|].
  symmetry. qbool. lra.
Qed.


(* ===================================================================== *)
(** ** Facts on strings and keys *)
(* ===================================================================== *)

Lemma append_cons (c : ascii) (a b : string) :
  String c a +:+ b = String c (a +:+ b).
Proof. reflexivity. Qed.

Lemma append_nil (b : string) : "" +:+ b = b.
Proof. reflexivity. Qed.

Lemma append_cancel_l (p a b : string) : p +:+ a = p +:+ b -> a = b.
Proof.
  induction p as [|c p IH]; [auto|].
  rewrite !append_cons. intros H. injection H. exact IH.
Qed.

Lemma sforall_app (p : ascii -> bool) (a b : string) :
  sforall p (a +:+ b) = (sforall p a && sforall p b)%bool.
Proof.
  induction a as [|c a IH]; [reflexivity|].
  rewrite append_cons. simpl. rewrite IH. apply andb_assoc.
Qed.

Lemma sforall_impl (p q : ascii -> bool) (s : string) :
  (forall c, p c = true -> q c = true) ->
  sforall p s = true -> sforall q s = true.
Proof.
  intros Hpq. induction s as [|c s IH]; [reflexivity|].
  simpl. intros H. apply andb_true_iff in H. destruct H as [Hc Hs].
  rewrite (Hpq _ Hc), (IH Hs). reflexivity.
Qed.

Lemma uint_digits (d : Decimal.uint) :
  sforall is_digit (NilEmpty.string_of_uint d) = true.
Proof. induction d; simpl; auto. Qed.

Lemma dec_digits (n : nat) : sforall is_digit (dec n) = true.
Proof. apply uint_digits. Qed.

Lemma dec_inj (n n' : nat) : dec n = dec n' -> n = n'.
Proof.
  unfold dec. intros H. apply Unsigned.to_uint_inj.
  assert (E : Some (Nat.to_uint n) = Some (Nat.to_uint n')).
  { rewrite <- !NilEmpty.usu. rewrite H. reflexivity. }
  congruence.
Qed.

Lemma dec_nonempty (n : nat) : dec n <> "".
Proof.
  unfold dec. intros H.
  assert (E : Nat.to_uint n = Decimal.Nil).
  { assert (E' : Some (Nat.to_uint n) = Some Decimal.Nil).
    { rewrite <- NilEmpty.usu. rewrite H. reflexivity. }
    congruence. }
  pose proof (Unsigned.of_to n) as Hn. rewrite E in Hn. simpl in Hn.
  subst n. discriminate E.
Qed.

(** A run of digits followed by a suffix that starts with no digit splits
    in one way only. *)
Lemma digits_split (d d' s s' : string) :
  sforall is_digit d = true -> sforall is_digit d' = true ->
  nodigit_head s = true -> nodigit_head s' = true ->
  d +:+ s = d' +:+ s' -> d = d' /\ s = s'.
Proof.
  revert d'. induction d as [|c d IH]; intros [|c' d'] Hd Hd' Hs Hs' E.
  - split; [reflexivity|exact E].
  - exfalso. rewrite append_nil, append_cons in E. subst s.
    simpl in Hd', Hs. apply andb_true_iff in Hd'. destruct Hd' as [Hc _].
    rewrite Hc in Hs. discriminate.
  - exfalso. rewrite append_nil, append_cons in E. subst s'.
    simpl in Hd, Hs'. apply andb_true_iff in Hd. destruct Hd as [Hc _].
    rewrite Hc in Hs'. discriminate.
  - rewrite !append_cons in E. injection E as Ec Er. subst c'.
    simpl in Hd, Hd'.
    apply andb_true_iff in Hd. apply andb_true_iff in Hd'.
    destruct (IH d' (proj2 Hd) (proj2 Hd') Hs Hs' Er) as [-> ->].
    split; reflexivity.
Qed.

Lemma fkey_inj (pre : string) (k k' : nat) (s s' : string) :
  nodigit_head s = true -> nodigit_head s' = true ->
  fkey pre k s = fkey pre k' s' -> k = k' /\ s = s'.
Proof.
  intros Hs Hs' E. unfold fkey in E. apply append_cancel_l in E.
  destruct (digits_split _ _ _ _ (dec_digits k) (dec_digits k') Hs Hs' E)
    as [Ed Es].
  split; [apply dec_inj; exact Ed|exact Es].
Qed.

Lemma subkey_inj (k k' : nat) (s s' : string) :
  nodigit_head s = true -> nodigit_head s' = true ->
  subkey k s = subkey k' s' -> k = k' /\ s = s'.
Proof. apply fkey_inj. Qed.

Lemma subkey_head (k : nat) (s : string) :
  subkey k s = String "S" (String "U" (String "B" (dec k +:+ s))).
Proof. reflexivity. Qed.

Lemma plain_key_ne (key : string) (k : nat) (s : string) :
  plain_key key -> subkey k s <> key.
Proof.
  intros Hp E. rewrite subkey_head in E. subst key. exact Hp.
Qed.

(** *** Reversal and stripping *)

Lemma srev_acc_twice (s a b : string) :
  srev_acc (srev_acc s a) b = srev_acc a (s +:+ b).
Proof.
  revert a b. induction s as [|c s IH]; intros a b; [reflexivity|].
  simpl. rewrite IH. reflexivity.
Qed.

Lemma append_empty_r (s : string) : s +:+ "" = s.
Proof.
  induction s as [|c s IH]; [reflexivity|].
  rewrite append_cons, IH. reflexivity.
Qed.

Lemma srev_involutive (s : string) : srev (srev s) = s.
Proof.
  unfold srev. rewrite srev_acc_twice. simpl. apply append_empty_r.
Qed.

Lemma sforall_srev_acc (p : ascii -> bool) (s a : string) :
  sforall p (srev_acc s a) = (sforall p s && sforall p a)%bool.
Proof.
  revert a. induction s as [|c s IH]; intros a; [reflexivity|].
  simpl. rewrite IH. simpl.
  destruct (p c), (sforall p s), (sforall p a); reflexivity.
Qed.

Lemma sforall_srev (p : ascii -> bool) (s : string) :
  sforall p (srev s) = sforall p s.
Proof.
  unfold srev. rewrite sforall_srev_acc. simpl. apply andb_true_r.
Qed.

Lemma lstrip_id (s : string) :
  sforall (fun c => negb (is_space c)) s = true -> lstrip s = s.
Proof.
  destruct s as [|c s]; [reflexivity|].
  simpl. intros H. apply andb_true_iff in H. destruct H as [Hc _].
  apply negb_true_iff in Hc. rewrite Hc. reflexivity.
Qed.

Lemma strip_id (s : string) :
  sforall (fun c => negb (is_space c)) s = true -> strip s = s.
Proof.
  intros H. unfold strip. rewrite (lstrip_id s H).
  rewrite lstrip_id by (rewrite sforall_srev; exact H).
  apply srev_involutive.
Qed.

Lemma lstrip_sforall (p : ascii -> bool) (s : string) :
  sforall p s = true -> sforall p (lstrip s) = true.
Proof.
  induction s as [|c s IH]; [auto|].
  simpl. intros H. destruct (is_space c).
  - apply IH. apply andb_true_iff in H. tauto.
  - exact H.
Qed.

Lemma strip_sforall (p : ascii -> bool) (s : string) :
  sforall p s = true -> sforall p (strip s) = true.
Proof.
  intros H. unfold strip. rewrite sforall_srev.
  apply lstrip_sforall. rewrite sforall_srev.
  apply lstrip_sforall. exact H.
Qed.

Lemma is_digit_numeral (c : ascii) : is_digit c = true -> numeral_char c = true.
Proof. unfold numeral_char. intros ->. reflexivity. Qed.

Lemma is_digit_nospace (c : ascii) : is_digit c = true -> negb (is_space c) = true.
Proof.
  unfold is_digit, is_space. intros H.
  apply andb_true_iff in H. destruct H as [H1 H2].
  apply Nat.leb_le in H1. apply Nat.leb_le in H2.
  apply negb_true_iff.
  repeat (apply orb_false_iff; split).
  - apply Nat.eqb_neq. lia.
  - apply andb_false_iff. right. apply Nat.leb_gt. lia.
  - apply andb_false_iff. right. apply Nat.leb_gt. lia.
Qed.

(** No numeral reads as the absent marker. *)
Lemma numeral_not_AB (s : string) :
  sforall numeral_char s = true ->
  String.eqb (upper (strip s)) "AB" = false.
Proof.
  intros H. apply (strip_sforall numeral_char) in H.
  destruct (strip s) as [|c t]; [reflexivity|].
  simpl in H. apply andb_true_iff in H. destruct H as [Hc _].
  apply String.eqb_neq. intros E. unfold upper in E. simpl in E.
  injection E as Ec _.
  destruct c as [[] [] [] [] [] [] [] []]; try discriminate Ec;
    vm_compute in Hc; discriminate Hc.
Qed.

(** *** The decimal instance *)

Lemma split_on_absent (sep : ascii) (s : string) :
  sforall (fun c => negb (Ascii.eqb sep c)) s = true -> split_on sep s = [s].
Proof.
  induction s as [|c s IH]; [reflexivity|].
  simpl. intros H. apply andb_true_iff in H. destruct H as [Hc Hs].
  apply negb_true_iff in Hc. rewrite Hc, (IH Hs). reflexivity.
Qed.

Lemma is_digit_not_char (sep c : ascii) :
  is_digit sep = false -> is_digit c = true -> negb (Ascii.eqb sep c) = true.
Proof.
  intros Hsep Hc. apply negb_true_iff. apply Ascii.eqb_neq.
  intros ->. congruence.
Qed.

Lemma dec_float_of_string_dec (n : nat) :
  dec_float_of_string (dec n) = Some (fZ (Z.of_nat n)).
Proof.
  unfold dec_float_of_string.
  rewrite strip_id
    by (apply (sforall_impl is_digit); [apply is_digit_nospace|apply dec_digits]).
  pose proof (dec_digits n) as Hd. pose proof (dec_nonempty n) as Hne.
  destruct (dec n) as [|c r] eqn:E; [congruence|].
  assert (Hc : is_digit c = true).
  { simpl in Hd. apply andb_true_iff in Hd. tauto. }
  rewrite (proj2 (Ascii.eqb_neq c "-")) by (intros ->; discriminate Hc).
  rewrite (proj2 (Ascii.eqb_neq c "+")) by (intros ->; discriminate Hc).
  unfold parse_unsigned. rewrite split_on_absent.
  2:{ apply (sforall_impl is_digit); [|exact Hd].
      intros c'. apply is_digit_not_char. reflexivity. }
  simpl String.eqb. rewrite <- E. unfold dec. rewrite NilEmpty.usu.
  simpl. rewrite Unsigned.of_to. reflexivity.
Qed.

Lemma frac_digits_numeral (n : nat) (x : Q) :
  sforall numeral_char (frac_digits n x) = true.
Proof.
  revert x. induction n as [|n IH]; intros x; [reflexivity|].
  simpl. rewrite sforall_app, IH, andb_true_r.
  apply (sforall_impl is_digit); [apply is_digit_numeral|apply dec_digits].
Qed.

Lemma dec_repr_numeral (q : Q) : sforall numeral_char (dec_repr q) = true.
Proof.
  unfold dec_repr. rewrite !sforall_app.
  repeat (apply andb_true_iff; split).
  - destruct (Qltb q 0); reflexivity.
  - apply (sforall_impl is_digit); [apply is_digit_numeral|apply dec_digits].
  - destruct (Qeq_bool _ _); [reflexivity|].
    rewrite sforall_app. apply frac_digits_numeral.
Qed.

#[export] Instance dec_lib_laws : PyLibLaws dec_lib.
Proof.
  constructor.
  - exact dec_repr_numeral.
  - exact dec_float_of_string_dec.
  - reflexivity.
Qed.

(* ===================================================================== *)
(** ** Reading the output map *)
(* ===================================================================== *)

Lemma lookup_assign_sub (k j : nat) (s : string) (svs : list (string * pyval))
    (m : gmap string pyval) :
  nodigit_head s = true -> forallb nodigit_head (map fst svs) = true ->
  assign_sub k svs m !! subkey j s
  = if Nat.eqb j k then alookup s svs (m !! subkey j s) else m !! subkey j s.
Proof.
  intros Hs. revert m. induction svs as [|[s' v] r IH]; intros m Hall.
  - simpl. destruct (Nat.eqb j k); reflexivity.
  - simpl in Hall. apply andb_true_iff in Hall. destruct Hall as [Hs' Hr].
    unfold assign_sub, assign in *. simpl. rewrite (IH _ Hr). simpl.
    destruct (Nat.eqb j k) eqn:Ejk.
    + apply Nat.eqb_eq in Ejk. subst j.
      destruct (String.eqb s s') eqn:Es.
      * apply String.eqb_eq in Es. subst s'. rewrite lookup_insert_eq.
        reflexivity.
      * apply String.eqb_neq in Es. rewrite lookup_insert_ne; [reflexivity|].
        intros E. apply subkey_inj in E; [|assumption..].
        destruct E as [_ E]. congruence.
    + apply Nat.eqb_neq in Ejk. rewrite lookup_insert_ne; [reflexivity|].
      intros E. apply subkey_inj in E; [|assumption..].
      destruct E as [E _]. congruence.
Qed.

Lemma lookup_assign_sub_plain (k : nat) (key : string)
    (svs : list (string * pyval)) (m : gmap string pyval) :
  plain_key key -> assign_sub k svs m !! key = m !! key.
Proof.
  intros Hp. revert m. induction svs as [|[s' v] r IH]; intros m; [reflexivity|].
  unfold assign_sub, assign in *. simpl. rewrite IH.
  apply lookup_insert_ne. apply plain_key_ne. exact Hp.
Qed.

(** Assignments whose suffixes differ from [s] leave [SUB{j}<s>] alone. *)
Lemma lookup_assign_sub_other (k j : nat) (s : string)
    (svs : list (string * pyval)) (m : gmap string pyval) :
  nodigit_head s = true -> forallb nodigit_head (map fst svs) = true ->
  existsb (String.eqb s) (map fst svs) = false ->
  assign_sub k svs m !! subkey j s = m !! subkey j s.
Proof.
  intros Hs Hall Hnot. rewrite lookup_assign_sub by assumption.
  destruct (Nat.eqb j k); [|reflexivity].
  generalize (m !! subkey j s). revert Hnot. clear.
  induction svs as [|[s' v] r IH]; intros Hnot d; [reflexivity|].
  simpl in *. apply orb_false_iff in Hnot. destruct Hnot as [E Hr].
  rewrite E. apply IH. exact Hr.
Qed.

(* ===================================================================== *)
(** ** Invariants of the subject loops *)
(* ===================================================================== *)

Lemma ok_suffix_nodigit (l : list string) :
  forallb ok_suffix l = true -> forallb nodigit_head l = true.
Proof.
  induction l as [|s l IH]; [auto|]. simpl. intros H.
  apply andb_true_iff in H. destruct H as [Hs Hl].
  unfold ok_suffix in Hs. apply andb_true_iff in Hs.
  rewrite (proj1 Hs), (IH Hl). reflexivity.
Qed.

Lemma ok_suffix_not_grace (l : list string) :
  forallb ok_suffix l = true -> existsb (String.eqb "_GRACE") l = false.
Proof.
  induction l as [|s l IH]; [auto|]. intros H.
  change (ok_suffix s && forallb ok_suffix l = true) in H.
  change (String.eqb "_GRACE" s || existsb (String.eqb "_GRACE") l = false).
  apply andb_true_iff in H. destruct H as [Hs Hl].
  unfold ok_suffix in Hs. apply andb_true_iff in Hs. destruct Hs as [_ Hs].
  apply negb_true_iff in Hs. rewrite String.eqb_sym, Hs. exact (IH Hl).
Qed.

Lemma lookup_remarks_ne (rem : option pyval) (m : gmap string pyval)
    (key : string) :
  key <> "REMARKS" -> remarks rem m !! key = m !! key.
Proof.
  intros Hne. destruct rem; [|reflexivity]. simpl.
  apply lookup_insert_ne. congruence.
Qed.

Lemma subkey_not_remarks (k : nat) (s : string) : subkey k s <> "REMARKS".
Proof. rewrite subkey_head. discriminate. Qed.

Section ModelFacts.
Context {L : PyLib}.

Lemma alookup_default (s : string) (svs : list (string * pyval))
    (d : option pyval) :
  alookup s svs d
  = match alookup s svs None with Some v => Some v | None => d end.
Proof.
  revert d. induction svs as [|sv r IH]; intros d; [reflexivity|].
  simpl. rewrite IH. rewrite (IH (if String.eqb s (fst sv) then _ else None)).
  destruct (alookup s r None); [reflexivity|].
  destruct (String.eqb s (fst sv)); reflexivity.
Qed.

Lemma alookup_found (s : string) (svs : list (string * pyval))
    (d : option pyval) (v : pyval) :
  alookup s svs None = Some v -> alookup s svs d = Some v.
Proof. intros H. rewrite alookup_default, H. reflexivity. Qed.

Lemma theory_index_bound (st : xstate) :
  wf_state st ->
  forall t, In t (theory_subjects st) -> fst (fst t) < subject_counter st.
Proof.
  intros Hwf t Hin. pose proof (wf_theory st Hwf t Hin) as H.
  apply (in_map fst) in H. rewrite (wf_meta st Hwf) in H. cbn [fst] in H.
  apply in_seq in H. pose proof (wf_counter st Hwf). lia.
Qed.

Lemma push_ok_wf (st st' : xstate) : wf_state st -> push_ok st st' -> wf_state st'.
Proof.
  intros Hwf Hpush. pose proof (theory_index_bound st Hwf) as Hbound.
  destruct Hwf as [Hc Hm Ht Hto Hnd Hb Hg].
  destruct Hpush as [k svs rem ths' Hok Hths].
  assert (Hdig : forallb nodigit_head (map fst svs) = true)
    by (apply ok_suffix_nodigit; exact Hok).
  assert (Hold : forall j s, j <> subject_counter st -> nodigit_head s = true ->
            remarks rem (assign_sub (subject_counter st) svs (new_row st))
              !! subkey j s = new_row st !! subkey j s).
  { intros j s Hj Hs. rewrite lookup_remarks_ne by apply subkey_not_remarks.
    rewrite lookup_assign_sub by assumption.
    rewrite (proj2 (Nat.eqb_neq j _) Hj). reflexivity. }
  assert (Hnew : forall s v, nodigit_head s = true ->
            alookup s svs None = Some v ->
            remarks rem (assign_sub (subject_counter st) svs (new_row st))
              !! subkey (subject_counter st) s = Some v).
  { intros s v Hs Hv. rewrite lookup_remarks_ne by apply subkey_not_remarks.
    rewrite lookup_assign_sub by assumption. rewrite Nat.eqb_refl.
    apply alookup_found. exact Hv. }
  constructor; simpl.
  - lia.
  - rewrite map_app, Hm. simpl.
    replace (subject_counter st - 0) with (S (subject_counter st - 1)) by lia.
    rewrite seq_S. f_equal. f_equal. lia.
  - intros t Hin. apply in_or_app.
    destruct Hths as [[_ ->]|[-> (t0 & m0 & -> & _)]].
    + left. apply Ht. exact Hin.
    + apply in_app_or in Hin. destruct Hin as [Hin|[<-|[]]].
      * left. apply Ht. exact Hin.
      * right. left. reflexivity.
  - intros idx Hin. apply in_app_or in Hin.
    destruct Hths as [[Hk ->]|[-> (t0 & m0 & -> & _)]].
    + destruct Hin as [Hin|[E|[]]]; [apply Hto; exact Hin|].
      injection E as _ E. congruence.
    + destruct Hin as [Hin|[E|[]]].
      * destruct (Hto _ Hin) as (t & Hint & Et).
        exists t. split; [apply in_or_app; left; exact Hint|exact Et].
      * injection E as E. subst idx.
        exists (subject_counter st, t0, m0).
        split; [apply in_or_app; right; left; reflexivity|reflexivity].
  - destruct Hths as [[_ ->]|[-> (t0 & m0 & -> & _)]]; [exact Hnd|].
    rewrite map_app. apply NoDup_app. split; [exact Hnd|].
    split; [|apply NoDup_singleton].
    intros x Hx Hx'. apply list_elem_of_In in Hx.
    apply in_map_iff in Hx. destruct Hx as (t & <- & Hin).
    apply list_elem_of_singleton in Hx'. cbn [fst] in Hx'.
    specialize (Hbound t Hin). lia.
  - assert (Hkeep : forall t, In t (theory_subjects st) ->
              theory_fields
                (fun s => remarks rem (assign_sub (subject_counter st) svs
                                                  (new_row st))
                            !! subkey (fst (fst t)) s)
                (snd (fst t)) (snd t)).
    { intros t Hin. specialize (Hbound t Hin).
      destruct (Hb t Hin) as [Hp Hmax]. unfold theory_fields.
      rewrite !Hold by (try reflexivity; lia). split; assumption. }
    intros t Hin.
    destruct Hths as [[_ ->]|[-> (t0 & m0 & -> & Hp & Hmax)]];
      [apply Hkeep; exact Hin|].
    apply in_app_or in Hin. destruct Hin as [Hin|[<-|[]]];
      [apply Hkeep; exact Hin|].
    cbn [fst snd]. split; [apply Hnew; [reflexivity|exact Hp]|].
    destruct Hmax as [[H1 H2]|(H1 & H2 & H3)].
    + left. split; apply Hnew; auto.
    + right. split; [apply Hnew; auto|]. split; [apply Hnew; auto|exact H3].
  - intros j. rewrite lookup_remarks_ne by apply subkey_not_remarks.
    rewrite lookup_assign_sub_other; [apply Hg|reflexivity|exact Hdig|].
    apply ok_suffix_not_grace. exact Hok.
Qed.

Lemma push_ok_plain (st st' : xstate) (key : string) :
  push_ok st st' -> plain_key key -> key <> "REMARKS" ->
  new_row st' !! key = new_row st !! key.
Proof.
  intros [k svs rem ths' Hok Hths] Hp Hne. simpl.
  rewrite lookup_remarks_ne by exact Hne.
  apply lookup_assign_sub_plain. exact Hp.
Qed.

Lemma rtc_push_ok_wf (st st' : xstate) :
  wf_state st -> rtc push_ok st st' -> wf_state st'.
Proof.
  intros Hwf H. induction H as [|x y z Hxy _ IH]; [exact Hwf|].
  apply IH. apply (push_ok_wf x); assumption.
Qed.

Lemma rtc_push_ok_plain (st st' : xstate) (key : string) :
  rtc push_ok st st' -> plain_key key -> key <> "REMARKS" ->
  new_row st' !! key = new_row st !! key.
Proof.
  intros H Hp Hne. induction H as [|x y z Hxy _ IH]; [reflexivity|].
  rewrite IH. apply push_ok_plain; assumption.
Qed.

Lemma push_block (st : xstate) (k : kind) (svs : list (string * pyval)) :
  k <> theory -> forallb ok_suffix (map fst svs) = true ->
  rtc push_ok st
    (push_subject k (assign_sub (subject_counter st) svs (new_row st))
                  (theory_subjects st) st).
Proof.
  intros Hk Hok. apply rtc_once.
  exact (push_ok_intro st k svs None _ Hok (or_introl (conj Hk eq_refl))).
Qed.

Lemma theory_subject_push (row : gmap string pyval) (i : nat) (st : xstate) :
  push_ok st (theory_subject row i st).
Proof.
  unfold theory_subject.
  refine (push_ok_intro st theory _ None _ _ _).
  - destruct (truthy _ && nonblank _); reflexivity.
  - right. split; [reflexivity|]. eexists _, _. split; [reflexivity|].
    unfold theory_fields.
    destruct (truthy _ && nonblank _);
      (split; [reflexivity|]); [left|right]; repeat split; reflexivity.
Qed.

Lemma legacy_practical_push (row : gmap string pyval) (i : nat) (st : xstate) :
  rtc push_ok st (legacy_practical row i st).
Proof.
  unfold legacy_practical.
  destruct (notna _ && negb _); [|apply rtc_refl].
  apply push_block; [discriminate|].
  destruct (has_char _ _); reflexivity.
Qed.

Lemma theory_step_push (row : gmap string pyval) (st : xstate) (i : nat) :
  rtc push_ok st (theory_step row st i).
Proof.
  unfold theory_step.
  destruct (String.eqb _ _ && String.eqb _ _); [apply rtc_refl|].
  eapply rtc_l; [apply theory_subject_push|apply legacy_practical_push].
Qed.

Lemma practical_step_push (row : gmap string pyval) (st : xstate) (i : nat) :
  rtc push_ok st (practical_step row st i).
Proof.
  unfold practical_step.
  destruct (String.eqb _ _ && String.eqb _ _); [apply rtc_refl|].
  destruct (nonblank _ || nonblank _ || nonblank _);
    (apply push_block; [discriminate|reflexivity]).
Qed.

Lemma project_step_push (row : gmap string pyval) (st : xstate) (i : nat) :
  rtc push_ok st (project_step row st i).
Proof.
  unfold project_step.
  destruct (negb _); [apply rtc_refl|].
  apply push_block; [discriminate|reflexivity].
Qed.

Lemma due_step_push (row : gmap string pyval) (st : xstate) (i : nat) :
  rtc push_ok st (due_step row st i).
Proof.
  unfold due_step.
  destruct (notna _ && negb _); [|apply rtc_refl].
  apply rtc_once.
  match goal with
  | |- push_ok _ (push_subject _ (<[_ := ?v]> (assign_sub _ ?svs _)) _ _) =>
      refine (push_ok_intro st due svs (Some v) _ eq_refl (or_introl _))
  end.
  split; [discriminate|reflexivity].
Qed.

Lemma fold_push (step : xstate -> nat -> xstate) (l : list nat) (st : xstate) :
  (forall st i, rtc push_ok st (step st i)) ->
  rtc push_ok st (fold_left step l st).
Proof.
  intros Hstep. revert st. induction l as [|i l IH]; intros st; [apply rtc_refl|].
  simpl. eapply rtc_trans; [apply Hstep|apply IH].
Qed.

Lemma extract_push (row : gmap string pyval) :
  rtc push_ok
    {| new_row := direct_mappings row; subject_counter := 1;
       theory_subjects := []; subject_meta := [] |}
    (extract row).
Proof.
  unfold extract.
  eapply rtc_trans; [apply fold_push, theory_step_push|].
  eapply rtc_trans; [apply fold_push, practical_step_push|].
  eapply rtc_trans; [apply fold_push, project_step_push|].
  apply fold_push, due_step_push.
Qed.

End ModelFacts.

(* ===================================================================== *)
(** ** The grace phase *)
(* ===================================================================== *)

Lemma sum_given_app (l : list (nat * pyfloat)) (idx : nat) (q : Q) :
  (sum_given (l ++ [(idx, Fin q)]) == sum_given l + q)%Q.
Proof.
  induction l as [|[i g] l IH]; simpl.
  - lra.
  - destruct g; simpl; rewrite ?IH; lra.
Qed.

Lemma subkey_grace_inj (j k : nat) :
  subkey j "_GRACE" = subkey k "_GRACE" -> j = k.
Proof. intros E. apply subkey_inj in E; [tauto|reflexivity..]. Qed.

Section GraceFacts.
Context {L : PyLib}.

Lemma init_grace_other (meta : list (nat * kind)) (m : gmap string pyval)
    (key : string) :
  not_grace_key key -> init_grace meta m !! key = m !! key.
Proof.
  intros Hk. unfold init_grace. revert m.
  induction meta as [|[j c] meta IH]; intros m; [reflexivity|].
  simpl. rewrite IH. destruct (kind_eqb c theory); [|reflexivity].
  apply lookup_insert_ne. intros E. exact (Hk j (eq_sym E)).
Qed.

Lemma init_grace_absent (meta : list (nat * kind)) (m : gmap string pyval)
    (k : nat) :
  ~ In (k, theory) meta ->
  init_grace meta m !! subkey k "_GRACE" = m !! subkey k "_GRACE".
Proof.
  unfold init_grace. revert m.
  induction meta as [|[j c] meta IH]; intros m Hk; [reflexivity|].
  simpl. rewrite IH by (intros H; apply Hk; right; exact H).
  destruct c; simpl; try reflexivity.
  apply lookup_insert_ne. intros E. apply subkey_grace_inj in E.
  apply Hk. left. congruence.
Qed.

Lemma init_grace_values (meta : list (nat * kind)) (m : gmap string pyval)
    (k : nat) :
  init_grace meta m !! subkey k "_GRACE" = m !! subkey k "_GRACE"
  \/ init_grace meta m !! subkey k "_GRACE" = Some (VStr "G-0").
Proof.
  unfold init_grace. revert m.
  induction meta as [|[j c] meta IH]; intros m; [left; reflexivity|].
  simpl. destruct (IH (if kind_eqb c theory
                       then <[subkey j "_GRACE" := VStr "G-0"]> m else m))
    as [E|E]; [|right; exact E].
  rewrite E. destruct (kind_eqb c theory); [|left; reflexivity].
  destruct (Nat.eq_dec j k) as [->|Hne].
  - right. apply lookup_insert_eq.
  - left. apply lookup_insert_ne. intros E'. apply subkey_grace_inj in E'.
    contradiction.
Qed.

Lemma init_grace_present (meta : list (nat * kind)) (m : gmap string pyval)
    (k : nat) :
  In (k, theory) meta ->
  init_grace meta m !! subkey k "_GRACE" = Some (VStr "G-0").
Proof.
  unfold init_grace. revert m.
  induction meta as [|[j c] meta IH]; intros m Hin; [destruct Hin|].
  simpl. destruct Hin as [E|Hin]; [|apply IH; exact Hin].
  injection E as -> ->. simpl.
  match goal with
  | |- fold_left ?f meta ?m0 !! _ = _ =>
      destruct (init_grace_values meta m0 k) as [E|E]
  end.
  - unfold init_grace in E. rewrite E. apply lookup_insert_eq.
  - exact E.
Qed.

(** A grant is positive, finite and within the limit it is taken from. *)
Lemma grant_bounds (needed : pyfloat) (l : Q) :
  fgt needed (fZ 0) = true -> (0 < l)%Q ->
  exists g, py_min needed (Fin l) = Fin g /\ (0 < g)%Q /\ (g <= l)%Q.
Proof.
  intros Hn Hl. unfold py_min.
  destruct needed as [n| | |]; simpl in *; try discriminate.
  - qbool. unfold inject_Z in Hn.
    destruct (Qltb l n) eqn:E; qbool.
    + exists l. split; [reflexivity|]. split; lra.
    + exists n. split; [reflexivity|]. split; lra.
  - exists l. split; [reflexivity|]. split; lra.
Qed.

Lemma fgt_zero_Fin (x : pyfloat) :
  x <> PInf -> fgt x (fZ 0) = true -> exists l, x = Fin l /\ (0 < l)%Q.
Proof.
  intros Hx H. destruct x as [l| | |]; simpl in H; try discriminate.
  - exists l. split; [reflexivity|]. qbool. exact H.
  - congruence.
Qed.

Lemma round_nonneg (g : Q) : (0 < g)%Q -> (0 <= py_int_round (Fin g))%Z.
Proof.
  intros Hg. simpl.
  pose proof (round_half_even_bounds g) as [_ Hhi].
  destruct (Z_lt_le_dec (round_half_even g) 0) as [Hneg|]; [|assumption].
  exfalso.
  assert (H : (inject_Z (round_half_even g) <= inject_Z (-1))%Q).
  { rewrite <- Zle_Qle. lia. }
  change (inject_Z (-1)) with (-1)%Q in H. lra.
Qed.

Lemma distribute_step_inv (cfg : scheme) (meta : list (nat * kind))
    (L0 : pyfloat) (gs : gstate) (t : nat * pyfloat * pyfloat) :
  L0 <> PInf -> dist_inv L0 gs -> grace_ok (g_row gs) ->
  dist_inv L0 (distribute_step cfg meta gs t)
  /\ grace_ok (g_row (distribute_step cfg meta gs t)).
Proof.
  intros HL0 [Hpos Hlim] Hok. unfold distribute_step.
  destruct (is_practical_kind _); [split; [split|]; assumption|].
  destruct (fgt (needed_marks cfg t.1.2 t.2) (fZ 0) && fgt (g_limit gs) (fZ 0))
    eqn:Hc; [|split; [split|]; assumption].
  apply andb_true_iff in Hc. destruct Hc as [Hn Hg].
  assert (Hfin : exists l0 l, L0 = Fin l0 /\ g_limit gs = Fin l /\ (0 < l)%Q
                 /\ (sum_given (given gs) + l == l0)%Q).
  { destruct Hlim as [[Hnil Heq]|(l0 & l & -> & El & Hl & Hs)].
    - rewrite Heq in Hg. destruct (fgt_zero_Fin _ HL0 Hg) as (l & -> & Hl).
      exists l, l. rewrite Heq, Hnil. simpl.
      split; [reflexivity|]. split; [reflexivity|]. split; [exact Hl|lra].
    - exists l0, l. rewrite El in Hg. simpl in Hg. qbool.
      unfold inject_Z in Hg. tauto. }
  destruct Hfin as (l0 & l & -> & El & Hl & Hs).
  rewrite El. destruct (grant_bounds _ l Hn Hl) as (g & Eg & Hg0 & Hgl).
  rewrite Eg. simpl. split; [split|]; simpl.
  - apply Forall_app. split; [exact Hpos|].
    constructor; [|constructor]. exists g. split; [reflexivity|exact Hg0].
  - right. exists l0, (l + - g)%Q.
    split; [reflexivity|]. split; [reflexivity|]. split; [lra|].
    rewrite sum_given_app. lra.
  - intros k. destruct (Nat.eq_dec t.1.1 k) as [->|Hne].
    + right. exists (round_half_even g).
      split; [apply (round_nonneg g Hg0)|apply lookup_insert_eq].
    + rewrite lookup_insert_ne; [apply Hok|].
      intros E. apply subkey_grace_inj in E. contradiction.
Qed.

Lemma distribute_inv (cfg : scheme) (meta : list (nat * kind)) (L0 : pyfloat)
    (failed : list (nat * pyfloat * pyfloat)) (gs : gstate) :
  L0 <> PInf -> dist_inv L0 gs -> grace_ok (g_row gs) ->
  dist_inv L0 (fold_left (distribute_step cfg meta) failed gs)
  /\ grace_ok (g_row (fold_left (distribute_step cfg meta) failed gs)).
Proof.
  intros HL0. revert gs.
  induction failed as [|t failed IH]; intros gs Hinv Hok; [split; assumption|].
  simpl. destruct (distribute_step_inv cfg meta L0 gs t HL0 Hinv Hok).
  apply IH; assumption.
Qed.

Lemma distribute_other (cfg : scheme) (meta : list (nat * kind))
    (failed : list (nat * pyfloat * pyfloat)) (gs : gstate) (key : string) :
  (forall t, In t failed -> key <> subkey t.1.1 "_GRACE") ->
  g_row (fold_left (distribute_step cfg meta) failed gs) !! key
  = g_row gs !! key.
Proof.
  revert gs. induction failed as [|t failed IH]; intros gs Hk; [reflexivity|].
  simpl. rewrite IH by (intros t' Hin; apply Hk; right; exact Hin).
  unfold distribute_step.
  destruct (is_practical_kind _); [reflexivity|].
  destruct (fgt _ _ && fgt _ _); [|reflexivity].
  simpl. apply lookup_insert_ne. intros E. apply (Hk t); [left; reflexivity|].
  symmetry. exact E.
Qed.

Lemma grace_limit_not_inf (ths : list (nat * pyfloat * pyfloat)) :
  grace_limit ths <> PInf.
Proof.
  unfold grace_limit, py_min.
  destruct (fmul (total_theory_max ths) (Fin (1 # 100))) as [x| | |];
    simpl; try destruct (Qltb _ _); unfold fZ; discriminate.
Qed.

Lemma failed_subjects_incl (cfg : scheme) (ths : list (nat * pyfloat * pyfloat))
    (t : nat * pyfloat * pyfloat) :
  In t (failed_subjects cfg ths) -> In t ths.
Proof. unfold failed_subjects. intros H. apply filter_In in H. tauto. Qed.

Lemma no_grace_ok (m : gmap string pyval) :
  (forall k, m !! subkey k "_GRACE" = None) -> grace_ok m.
Proof. intros H k. left. apply H. Qed.

Lemma init_grace_ok (meta : list (nat * kind)) (m : gmap string pyval) :
  (forall k, m !! subkey k "_GRACE" = None) -> grace_ok (init_grace meta m).
Proof.
  intros H k. destruct (init_grace_values meta m k) as [E|E].
  - left. rewrite E. apply H.
  - right. exists 0%Z. split; [lia|exact E].
Qed.

(** The state at the start of the distribution satisfies the invariants. *)
Lemma grace_phase_inv (cfg : scheme) (row : gmap string pyval) (st : xstate) :
  wf_state st ->
  dist_inv (grace_limit (theory_subjects st)) (grace_phase cfg row st)
  /\ grace_ok (g_row (grace_phase cfg row st)).
Proof.
  intros Hwf. unfold grace_phase.
  assert (H0 : dist_inv (grace_limit (theory_subjects st))
                 {| g_row := init_grace (subject_meta st) (new_row st);
                    g_limit := grace_limit (theory_subjects st);
                    given := [] |}).
  { split; [constructor|left; split; reflexivity]. }
  assert (H1 : grace_ok (init_grace (subject_meta st) (new_row st))).
  { apply init_grace_ok. apply (wf_no_grace st Hwf). }
  destruct (allow_grace cfg row && fle _ _); [|split; assumption].
  apply distribute_inv; [apply grace_limit_not_inf|assumption..].
Qed.

Lemma grace_phase_other (cfg : scheme) (row : gmap string pyval) (st : xstate)
    (key : string) :
  not_grace_key key -> g_row (grace_phase cfg row st) !! key = new_row st !! key.
Proof.
  intros Hk. unfold grace_phase.
  destruct (allow_grace cfg row && fle _ _).
  - rewrite distribute_other by (intros t _; apply Hk).
    simpl. apply init_grace_other. exact Hk.
  - simpl. apply init_grace_other. exact Hk.
Qed.

Lemma NoDup_meta (st : xstate) : wf_state st -> NoDup (map fst (subject_meta st)).
Proof. intros Hwf. rewrite (wf_meta st Hwf). apply NoDup_seq. Qed.

(** An index carries one kind only. *)
Lemma meta_kind_unique (meta : list (nat * kind)) (k : nat) (c c' : kind) :
  NoDup (map fst meta) -> In (k, c) meta -> In (k, c') meta -> c = c'.
Proof.
  induction meta as [|[j d] meta IH]; intros Hnd Hc Hc'; [destruct Hc|].
  simpl in Hnd. apply NoDup_cons in Hnd. destruct Hnd as [Hj Hnd].
  rewrite list_elem_of_In in Hj.
  destruct Hc as [Ec|Hc], Hc' as [Ec'|Hc'].
  - congruence.
  - exfalso. apply Hj. injection Ec as -> _.
    apply (in_map fst) in Hc'. exact Hc'.
  - exfalso. apply Hj. injection Ec' as -> _.
    apply (in_map fst) in Hc. exact Hc.
  - apply IH; assumption.
Qed.

(** A subject that is not a theory subject has no grace annotation when the
    grading loop starts. *)
Lemma grace_phase_nontheory (cfg : scheme) (row : gmap string pyval)
    (st : xstate) (k : nat) (c : kind) :
  wf_state st -> In (k, c) (subject_meta st) -> c <> theory ->
  g_row (grace_phase cfg row st) !! subkey k "_GRACE" = None.
Proof.
  intros Hwf Hin Hc.
  assert (Hnot : ~ In (k, theory) (subject_meta st)).
  { intros Hth. apply Hc.
    apply (meta_kind_unique _ k c theory (NoDup_meta st Hwf) Hin Hth). }
  assert (Hinit : init_grace (subject_meta st) (new_row st) !! subkey k "_GRACE"
                  = None).
  { rewrite init_grace_absent by exact Hnot. apply (wf_no_grace st Hwf). }
  unfold grace_phase. destruct (allow_grace cfg row && fle _ _); [|exact Hinit].
  rewrite distribute_other; [exact Hinit|].
  intros t Ht E. apply subkey_grace_inj in E. apply Hnot. rewrite E.
  apply (wf_theory st Hwf). apply (failed_subjects_incl cfg). exact Ht.
Qed.

(** With the gate closed nothing is given and every annotation is [G-0]. *)
Lemma grace_phase_closed (cfg : scheme) (row : gmap string pyval) (st : xstate) :
  wf_state st ->
  allow_grace cfg row
  && fle (shortfall cfg (failed_subjects cfg (theory_subjects st)))
         (grace_limit (theory_subjects st)) = false ->
  given (grace_phase cfg row st) = []
  /\ forall k, g_row (grace_phase cfg row st) !! subkey k "_GRACE" = None
               \/ g_row (grace_phase cfg row st) !! subkey k "_GRACE"
                  = Some (VStr "G-0").
Proof.
  intros Hwf Hc. unfold grace_phase. rewrite Hc. simpl.
  split; [reflexivity|]. intros k.
  destruct (init_grace_values (subject_meta st) (new_row st) k) as [E|E].
  - left. rewrite E. apply (wf_no_grace st Hwf).
  - right. exact E.
Qed.





End GraceFacts.

(* ===================================================================== *)
(** ** The grading loop *)
(* ===================================================================== *)

Lemma remove_G_digit (c : ascii) (s : string) :
  is_digit c = true -> remove_G (String c s) = String c (remove_G s).
Proof.
  intros Hc.
  destruct c as [[] [] [] [] [] [] [] []];
    try (vm_compute in Hc; discriminate Hc); reflexivity.
Qed.

Lemma remove_G_digits (s : string) :
  sforall is_digit s = true -> remove_G s = s.
Proof.
  induction s as [|c s IH]; [reflexivity|].
  intros H. simpl in H. apply andb_true_iff in H. destruct H as [Hc Hs].
  rewrite remove_G_digit by exact Hc. rewrite (IH Hs). reflexivity.
Qed.

Lemma z_str_nonneg (n : Z) : (0 <= n)%Z -> z_str n = dec (Z.to_nat n).
Proof.
  intros Hn. unfold z_str.
  destruct (n <? 0)%Z eqn:E; [|reflexivity]. apply Z.ltb_lt in E. lia.
Qed.


Lemma fgt_fZ (a b : Z) : fgt (fZ a) (fZ b) = (b <? a)%Z.
Proof.
  unfold fgt, flt, fZ. destruct (b <? a)%Z eqn:E.
  - apply Z.ltb_lt in E. qbool. rewrite <- Zlt_Qlt. exact E.
  - apply Z.ltb_ge in E. qbool. rewrite <- Zle_Qle. exact E.
Qed.

Section GradingFacts.
Context {L : PyLib} {HL : PyLibLaws L}.

Lemma grace_value_note (n : Z) :
  (0 <= n)%Z -> grace_value (grace_note n) = fZ n.
Proof.
  intros Hn. unfold grace_value, grace_note.
  change (starts_with_G ("G-" +:+ z_str n)) with true. cbv iota.
  change (remove_G ("G-" +:+ z_str n)) with (remove_G (z_str n)).
  rewrite z_str_nonneg by exact Hn.
  rewrite remove_G_digits by apply dec_digits.
  rewrite float_of_string_dec. simpl. rewrite Z2Nat.id by exact Hn.
  reflexivity.
Qed.

Lemma grace_value_blank : grace_value blank = fZ 0.
Proof. reflexivity. Qed.


Lemma compute_grade_points_range (v : pyval) (b : bool) (cfg : option scheme) :
  (0 <= snd (compute_grade_and_points v b cfg) <= 10)%Z.
Proof.
  unfold compute_grade_and_points.
  destruct (String.eqb _ _); [simpl; lia|].
  destruct (py_float v); [|simpl; lia].
  repeat (match goal with |- context [if ?c then _ else _] => destruct c end;
          [simpl; lia|]).
  simpl; lia.
Qed.

Lemma grade_step_other (cfg : scheme) (cs : cstate) (e : nat * kind)
    (key : string) :
  (forall s, In s graded_suffixes -> key <> subkey (fst e) s) ->
  c_row (grade_step cfg cs e) !! key = c_row cs !! key.
Proof.
  intros Hk. unfold grade_step.
  destruct (compute_grade_and_points _ _ _) as [grade gp]. simpl.
  unfold assign_sub, assign. simpl.
  rewrite !lookup_insert_ne; [reflexivity|..];
    intros E; symmetry in E; revert E; apply Hk; simpl; tauto.
Qed.

Lemma grade_fold_other (cfg : scheme) (meta : list (nat * kind)) (cs : cstate)
    (key : string) :
  (forall e s, In e meta -> In s graded_suffixes -> key <> subkey (fst e) s) ->
  c_row (fold_left (grade_step cfg) meta cs) !! key = c_row cs !! key.
Proof.
  revert cs. induction meta as [|e meta IH]; intros cs Hk; [reflexivity|].
  simpl. rewrite IH by (intros e' s Hin; apply Hk; right; exact Hin).
  apply grade_step_other. intros s. apply Hk. left. reflexivity.
Qed.

Lemma graded_suffix_nodigit (s : string) :
  In s graded_suffixes -> nodigit_head s = true.
Proof.
  simpl. intros [<-|[<-|[<-|[<-|[]]]]]; reflexivity.
Qed.

(** Fields of a block that the grading loop only reads. *)
Lemma grade_fold_kept (cfg : scheme) (meta : list (nat * kind)) (cs : cstate)
    (k : nat) (s : string) :
  nodigit_head s = true -> ~ In s graded_suffixes ->
  c_row (fold_left (grade_step cfg) meta cs) !! subkey k s
  = c_row cs !! subkey k s.
Proof.
  intros Hs Hnot. apply grade_fold_other. intros e s' _ Hs' E.
  apply subkey_inj in E; [|exact Hs|apply graded_suffix_nodigit; exact Hs'].
  destruct E as [_ ->]. contradiction.
Qed.

Lemma grade_fold_plain (cfg : scheme) (meta : list (nat * kind)) (cs : cstate)
    (key : string) :
  plain_key key ->
  c_row (fold_left (grade_step cfg) meta cs) !! key = c_row cs !! key.
Proof.
  intros Hp. apply grade_fold_other. intros e s _ _ E.
  exact (plain_key_ne key _ _ Hp (eq_sym E)).
Qed.

(** Blocks of other subjects are left alone. *)
Lemma grade_fold_block (cfg : scheme) (meta : list (nat * kind)) (cs : cstate)
    (k : nat) (s : string) :
  nodigit_head s = true -> ~ In k (map fst meta) ->
  c_row (fold_left (grade_step cfg) meta cs) !! subkey k s
  = c_row cs !! subkey k s.
Proof.
  intros Hs Hnot. apply grade_fold_other. intros e s' He Hs' E.
  apply subkey_inj in E; [|exact Hs|apply graded_suffix_nodigit; exact Hs'].
  destruct E as [-> _]. apply Hnot. apply in_map. exact He.
Qed.

Lemma graded_percent_block (k : nat) (c : kind) (m m' : gmap string pyval) :
  block_eq k m m' -> graded_percent m' k c = graded_percent m k c.
Proof.
  intros H. unfold graded_percent, percent_with_grace, get.
  rewrite !H by reflexivity. reflexivity.
Qed.

Lemma credit_of_block (k : nat) (m m' : gmap string pyval) :
  block_eq k m m' -> credit_of m' k = credit_of m k.
Proof.
  intros H. unfold credit_of, get. rewrite H by reflexivity. reflexivity.
Qed.

Lemma grade_step_block_eq (cfg : scheme) (cs : cstate) (e : nat * kind)
    (k : nat) :
  fst e <> k -> block_eq k (c_row cs) (c_row (grade_step cfg cs e)).
Proof.
  intros Hne s Hs. apply grade_step_other. intros s' Hs' E.
  apply subkey_inj in E; [|exact Hs|apply graded_suffix_nodigit; exact Hs'].
  destruct E as [E _]. congruence.
Qed.

Lemma credit_after_grace (m : gmap string pyval) (k : nat) (v : pyval) :
  default (fZ 0)
    (py_float (get (<[subkey k "_GRACE" := v]> m) (subkey k "_CREDIT")
                   (VNum (fZ 0))))
  = credit_of m k.
Proof.
  unfold credit_of, get. rewrite lookup_insert_ne; [reflexivity|].
  intros E. apply subkey_inj in E; [|reflexivity..].
  destruct E as [_ E]. discriminate E.
Qed.

Lemma grade_step_at (cfg : scheme) (cs : cstate) (k : nat) (c : kind) :
  graded_at cfg (c_row cs) (c_row (grade_step cfg cs (k, c))) k c.
Proof.
  unfold grade_step. cbn [fst snd].
  destruct (compute_grade_and_points _ _ _) as [grade gp] eqn:E.
  cbn [c_row fst snd]. rewrite credit_after_grace.
  constructor; rewrite ?E; rewrite lookup_assign_sub by reflexivity;
    rewrite Nat.eqb_refl; simpl.
  - apply lookup_insert_eq.
  - reflexivity.
  - reflexivity.
  - reflexivity.
Qed.

Lemma graded_at_block (cfg : scheme) (m m' out out' : gmap string pyval)
    (k : nat) (c : kind) :
  block_eq k m' m -> block_eq k out out' ->
  graded_at cfg m out k c -> graded_at cfg m' out' k c.
Proof.
  intros Hm Hout [H1 H2 H3 H4].
  pose proof (graded_percent_block k c m' m Hm) as Ep.
  pose proof (credit_of_block k m' m Hm) as Ec.
  assert (Eg : get m (subkey k "_GRACE") blank = get m' (subkey k "_GRACE") blank).
  { unfold get. rewrite (Hm "_GRACE") by reflexivity. reflexivity. }
  constructor; rewrite Hout by reflexivity.
  - rewrite H1, Eg. reflexivity.
  - rewrite H2, Ep. reflexivity.
  - rewrite H3, Ep. reflexivity.
  - rewrite H4, Ep, Ec. reflexivity.
Qed.

Lemma block_eq_refl (k : nat) (m : gmap string pyval) : block_eq k m m.
Proof. intros s _. reflexivity. Qed.

(** Every subject of [subject_meta] ends with the fields of its own
    iteration, computed from the map the loop started with. *)
Lemma grade_fold_at (cfg : scheme) (meta : list (nat * kind)) (cs : cstate)
    (k : nat) (c : kind) :
  NoDup (map fst meta) -> In (k, c) meta ->
  graded_at cfg (c_row cs) (c_row (fold_left (grade_step cfg) meta cs)) k c.
Proof.
  revert cs. induction meta as [|[j d] meta IH]; intros cs Hnd Hin;
    [destruct Hin|].
  simpl in Hnd. apply NoDup_cons in Hnd. destruct Hnd as [Hj Hnd].
  rewrite list_elem_of_In in Hj. simpl.
  destruct Hin as [E|Hin].
  - injection E as -> ->.
    apply (graded_at_block cfg (c_row cs) (c_row cs)
             (c_row (grade_step cfg cs (k, c)))).
    + apply block_eq_refl.
    + intros s Hs. apply grade_fold_block; assumption.
    + apply grade_step_at.
  - assert (Hne : j <> k).
    { intros ->. apply Hj. apply (in_map fst) in Hin. exact Hin. }
    apply (graded_at_block cfg (c_row (grade_step cfg cs (j, d))) (c_row cs)
             (c_row (fold_left (grade_step cfg) meta (grade_step cfg cs (j, d))))).
    + apply (grade_step_block_eq cfg cs (j, d) k Hne).
    + apply block_eq_refl.
    + apply IH; assumption.
Qed.

End GradingFacts.

(* ===================================================================== *)
(** ** Totals, SGPA and result *)
(* ===================================================================== *)

Section ResultFacts.
Context {L : PyLib}.

Lemma lookup_assign_plain (kvs : list (string * pyval)) (m : gmap string pyval)
    (k : nat) (s : string) :
  Forall (fun kv => plain_key (fst kv)) kvs ->
  assign kvs m !! subkey k s = m !! subkey k s.
Proof.
  intros H. revert m. unfold assign.
  induction H as [|kv kvs Hkv _ IH]; intros m; [reflexivity|].
  simpl. rewrite IH. apply lookup_insert_ne.
  intros E. exact (plain_key_ne _ k s Hkv (eq_sym E)).
Qed.

Lemma direct_mappings_sub (row : gmap string pyval) (k : nat) (s : string) :
  direct_mappings row !! subkey k s = None.
Proof.
  unfold direct_mappings. rewrite lookup_assign_plain; [apply lookup_empty|].
  destruct (has_char _ _); repeat constructor.
Qed.

Lemma extract_wf (row : gmap string pyval) : wf_state (extract row).
Proof.
  eapply rtc_push_ok_wf; [|apply extract_push].
  constructor; simpl.
  - lia.
  - reflexivity.
  - intros t [].
  - intros idx [].
  - apply NoDup_nil_2.
  - intros t [].
  - intros k. apply direct_mappings_sub.
Qed.

Lemma finish_sub (cfg : scheme) (cs : cstate) (k : nat) (s : string) :
  finish cfg cs !! subkey k s = c_row cs !! subkey k s.
Proof.
  assert (Hne : forall key v (m : gmap string pyval),
            plain_key key -> <[key := v]> m !! subkey k s = m !! subkey k s).
  { intros key v m Hp. apply lookup_insert_ne.
    intros E. exact (plain_key_ne _ k s Hp (eq_sym E)). }
  unfold finish, assign.
  destruct (fgt (total_credits cs) (fZ 0)); cbn [fold_left fst snd].
  - destruct (py_float _) as [gm|]; [destruct (py_float _) as [gx|]|].
    + destruct (fgt gx (fZ 0)); [destruct (_ && _)|];
        rewrite !Hne by exact I; reflexivity.
    + rewrite !Hne by exact I. reflexivity.
    + rewrite !Hne by exact I. reflexivity.
  - rewrite !Hne by exact I. reflexivity.
Qed.

Lemma finish_fields (cfg : scheme) (cs : cstate) :
  finish cfg cs !! "RESULT" = result_field cfg cs
  /\ finish cfg cs !! "GRAND_TOT_MRKS" = c_row cs !! "GRAND_TOT_MRKS"
  /\ finish cfg cs !! "GRAND_TOT_MAX" = c_row cs !! "GRAND_TOT_MAX"
  /\ finish cfg cs !! "TOT_CREDIT"
     = Some (VNum (if fgt (total_credits cs) (fZ 0) then total_credits cs
                   else fZ 0))
  /\ finish cfg cs !! "TOT_CREDIT_POINTS"
     = Some (VNum (if fgt (total_credits cs) (fZ 0) then total_credit_points cs
                   else fZ 0))
  /\ finish cfg cs !! "SGPA"
     = Some (VNum (if fgt (total_credits cs) (fZ 0)
                   then py_round2 (fdiv (total_credit_points cs) (total_credits cs))
                   else fZ 0)).
Proof.
  unfold finish, result_field, assign, get.
  destruct (fgt (total_credits cs) (fZ 0)); cbn [fold_left fst snd].
  - rewrite !lookup_insert_ne by discriminate.
    destruct (py_float _) as [gm|]; [destruct (py_float _) as [gx|]|].
    + destruct (fgt gx (fZ 0)); [destruct (_ && _)|];
        repeat split;
        repeat first [rewrite lookup_insert_eq
                     |rewrite lookup_insert_ne by discriminate]; reflexivity.
    + repeat split;
        repeat first [rewrite lookup_insert_eq
                     |rewrite lookup_insert_ne by discriminate]; reflexivity.
    + repeat split;
        repeat first [rewrite lookup_insert_eq
                     |rewrite lookup_insert_ne by discriminate]; reflexivity.
  - repeat split;
      repeat first [rewrite lookup_insert_eq
                   |rewrite lookup_insert_ne by discriminate]; reflexivity.
Qed.




End ResultFacts.

(* ===================================================================== *)
(** ** Grades *)
(* ===================================================================== *)

Section GradeClaims.
Context {L : PyLib} {HL : PyLibLaws L}.

Lemma number_not_AB (x : pyfloat) :
  String.eqb (upper (strip (py_str (VNum x)))) "AB" = false.
Proof.
  destruct x as [q| | |]; try reflexivity.
  apply numeral_not_AB. apply fin_repr_numeral.
Qed.

(** The code's grade function is the specification's table, with the
    threshold chosen by the flag [is_practical]. *)
Lemma compute_grade_is_table (v : pyval) (is_practical : bool) (cfg : scheme) :
  compute_grade_and_points v is_practical (Some cfg)
  = spec_grade v (if is_practical then practical_passing cfg
                  else theory_passing cfg).
Proof. reflexivity. Qed.

Lemma graded_threshold_flag (cfg : scheme) (c : kind) :
  (if is_practical_for_grading c then practical_passing cfg
   else theory_passing cfg) = graded_threshold cfg c.
Proof. destruct c; reflexivity. Qed.

Lemma fge_feq (a b c : pyfloat) : feq a b -> fge a c = fge b c.
Proof.
  destruct a as [x| | |], b as [y| | |]; simpl; try tauto.
  intros E. destruct c; simpl; try reflexivity. rewrite E. reflexivity.
Qed.

Lemma compute_grade_feq (a b : pyfloat) (is_practical : bool)
    (cfg : option scheme) :
  feq a b ->
  compute_grade_and_points (VNum a) is_practical cfg
  = compute_grade_and_points (VNum b) is_practical cfg.
Proof.
  intros E. unfold compute_grade_and_points.
  rewrite !number_not_AB. cbn [py_float]. cbv zeta.
  rewrite !(fge_feq a b _ E). reflexivity.
Qed.

(** The grading loop, read on the output record. *)
Lemma transform_row_graded (row : gmap string pyval) (cfg : scheme)
    (k : nat) (c : kind) :
  In (k, c) (subject_meta (extract row)) ->
  graded_at cfg (g_row (grace_phase cfg row (extract row)))
            (transform_row row cfg) k c.
Proof.
  intros Hin. unfold transform_row, grade_all.
  pose proof (grade_fold_at cfg (subject_meta (extract row))
                {| c_row := g_row (grace_phase cfg row (extract row));
                   total_credits := fZ 0; total_credit_points := fZ 0 |}
                k c (NoDup_meta _ (extract_wf row)) Hin) as [H1 H2 H3 H4].
  constructor; rewrite finish_sub; assumption.
Qed.

(** C1 (as amended): for every subject of a record and every scheme, the
    grade and the grade points are those of the eight-band table at the
    subject's percent with any grace added, with the absent marker giving
    AB and 0 points and any other value that is not a number giving the empty
    grade and 0 points; the passing threshold of the table is the scheme's
    practical passing value for the kinds practical, practical_with_max and
    project, and its theory passing value for the kinds theory, due and
    practical_no_grace. *)
Theorem grade_follows_table (row : gmap string pyval) (cfg : scheme)
    (k : nat) (c : kind) :
  In (k, c) (subject_meta (extract row)) ->
  let percent :=
    graded_percent (g_row (grace_phase cfg row (extract row))) k c in
  let r := spec_grade percent (graded_threshold cfg c) in
  transform_row row cfg !! subkey k "_GRADE" = Some (VStr (fst r))
  /\ transform_row row cfg !! subkey k "_GRADE_POINTS" = Some (VNum (fZ (snd r))).
Proof.
  intros Hin percent r.
  destruct (transform_row_graded row cfg k c Hin) as [_ H2 H3 _].
  rewrite compute_grade_is_table, graded_threshold_flag in H2, H3.
  split; assumption.
Qed.


End GradeClaims.

(** C1, counterexample: a practical without maximum columns at 38 percent
    under scheme 1 (theory 36, practical 40) is graded C with 4 points, where
    the practical threshold of the statement gives F with 0 points. *)
Lemma grade_threshold_counterexample :
  In (1, practical_no_grace) (subject_meta (extract row_plain_practical))
  /\ graded_percent
       (g_row (grace_phase scheme1 row_plain_practical
                           (extract row_plain_practical)))
       1 practical_no_grace = VNum (Fin 38)
  /\ transform_row row_plain_practical scheme1 !! "SUB1_GRADE" = Some (VStr "C")
  /\ transform_row row_plain_practical scheme1 !! "SUB1_GRADE_POINTS"
     = Some (VNum (fZ 4))
  /\ spec_grade (VNum (Fin 38)) (stated_threshold scheme1 practical_no_grace)
     = ("F", 0%Z).
Proof.
  split; [vm_compute; left; reflexivity|].
  repeat split; vm_compute; reflexivity.
Qed.

Lemma grade_follows_table_witness :
  In (1, practical_no_grace) (subject_meta (extract row_plain_practical))
  /\ transform_row row_plain_practical scheme1 !! subkey 1 "_GRADE"
     = Some (VStr "C")
  /\ transform_row row_plain_practical scheme1 !! subkey 1 "_GRADE_POINTS"
     = Some (VNum (fZ 4)).
Proof.
  assert (H : In (1, practical_no_grace)
                 (subject_meta (extract row_plain_practical)))
    by (vm_compute; left; reflexivity).
  split; [exact H|].
  destruct (grade_follows_table row_plain_practical scheme1 1
              practical_no_grace H) as [E1 E2].
  rewrite E1, E2. split; vm_compute; reflexivity.
Defined.



(* ===================================================================== *)
(** ** Grace annotations *)
(* ===================================================================== *)

Lemma fgt_not_fle (a b : pyfloat) : fgt a b = true -> fle a b = false.
Proof.
  destruct a as [x| | |], b as [y| | |]; simpl; try discriminate;
    try reflexivity.
  intros H. qbool. exact H.
Qed.

Lemma fadd_feq_r (p a b : pyfloat) : feq a b -> feq (fadd p a) (fadd p b).
Proof.
  destruct a as [x| | |], b as [y| | |], p as [z| | |]; simpl; try tauto.
  intros E. rewrite E. reflexivity.
Qed.

Lemma grace_percent_of_hundred (n : Z) :
  feq (fmul (fdiv (fZ n) (fadd (fZ 70) (fZ 30))) (fZ 100)) (fZ n).
Proof.
  unfold fZ. cbv [fadd fdiv].
  change (Qeq_bool (inject_Z 70 + inject_Z 30) 0) with false.
  cbv [fmul feq].
  change (inject_Z 70) with 70%Q. change (inject_Z 30) with 30%Q.
  change (inject_Z 100) with 100%Q.
  field.
Qed.

Section GraceClaims.
Context {L : PyLib} {HL : PyLibLaws L}.

(** With an empty TH_MAX the grace is not added to the percent. *)
Lemma graded_percent_override (m : gmap string pyval) (k : nat) (n : Z) :
  grace_value (get m (subkey k "_GRACE") blank) = fZ n ->
  m !! subkey k "_TH_MAX" = Some blank ->
  graded_percent m k theory = get m (subkey k "_PERCENT") blank.
Proof.
  intros En Hth. unfold graded_percent. rewrite En.
  change (kind_eqb theory theory) with true. rewrite fgt_fZ. cbn [andb].
  destruct (0 <? n)%Z; [|reflexivity].
  unfold percent_with_grace, get. rewrite Hth.
  cbn [default from_option id py_float blank].
  rewrite float_of_string_empty. reflexivity.
Qed.

(** With the maxima 70 and 30 the grace is added to the percent. *)
Lemma graded_percent_default (m : gmap string pyval) (k : nat) (n : Z)
    (p : pyfloat) (is_practical : bool) (cfg : option scheme) :
  grace_value (get m (subkey k "_GRACE") blank) = fZ n ->
  m !! subkey k "_TH_MAX" = Some (VNum (fZ 70)) ->
  m !! subkey k "_CE_MAX" = Some (VNum (fZ 30)) ->
  m !! subkey k "_PERCENT" = Some (VNum p) ->
  (0 <= n)%Z ->
  compute_grade_and_points (graded_percent m k theory) is_practical cfg
  = compute_grade_and_points (VNum (fadd p (fZ n))) is_practical cfg.
Proof.
  intros En Hth Hce Hp Hn. unfold graded_percent. rewrite En.
  change (kind_eqb theory theory) with true. rewrite fgt_fZ. cbn [andb].
  unfold percent_with_grace, get. rewrite Hth, Hce, Hp.
  cbn [default from_option id py_float mbind option_bind].
  destruct (0 <? n)%Z eqn:E0.
  - change (fgt (fZ 30) (fZ 0)) with true. cbv iota.
    unfold py_div. change (fis_zero (fadd (fZ 70) (fZ 30))) with false.
    cbn [mbind option_bind default from_option id].
    apply compute_grade_feq. apply fadd_feq_r.
    apply grace_percent_of_hundred.
  - apply Z.ltb_ge in E0. assert (n = 0%Z) by lia. subst n.
    apply compute_grade_feq.
    destruct p as [q| | |]; try exact I.
    unfold fZ. cbv [fadd feq]. change (inject_Z 0) with 0%Q. lra.
Qed.

(** Fields of a subject block that only the subject loops write. *)
Lemma transform_row_kept (row : gmap string pyval) (cfg : scheme) (k : nat)
    (s : string) :
  nodigit_head s = true -> ~ In s graded_suffixes ->
  transform_row row cfg !! subkey k s = new_row (extract row) !! subkey k s.
Proof.
  intros Hs Hnot. unfold transform_row, grade_all.
  rewrite finish_sub, grade_fold_kept by assumption. simpl.
  apply grace_phase_other. intros j E.
  apply subkey_inj in E; [|exact Hs|reflexivity].
  destruct E as [_ ->]. apply Hnot. left. reflexivity.
Qed.

(** What the grading loop reads from the annotation of a subject. *)
Lemma grace_read (row : gmap string pyval) (cfg : scheme) (k : nat) :
  exists n, (0 <= n)%Z
    /\ grace_value (get (g_row (grace_phase cfg row (extract row)))
                        (subkey k "_GRACE") blank) = fZ n.
Proof.
  destruct (grace_phase_inv cfg row (extract row) (extract_wf row)) as [_ Hok].
  unfold get. destruct (Hok k) as [E|(n & Hn & E)]; rewrite E; simpl default.
  - exists 0%Z. split; [lia|reflexivity].
  - exists n. split; [exact Hn|apply grace_value_note; exact Hn].
Qed.

(** C5: a subject of any kind but theory has an empty grace annotation in
    the output, whatever its marks. *)
Theorem grace_only_for_theory (row : gmap string pyval) (cfg : scheme)
    (k : nat) (c : kind) :
  In (k, c) (subject_meta (extract row)) -> c <> theory ->
  transform_row row cfg !! subkey k "_GRACE" = Some blank.
Proof.
  intros Hin Hc.
  destruct (transform_row_graded row cfg k c Hin) as [H1 _ _ _].
  rewrite H1. unfold get.
  rewrite (grace_phase_nontheory cfg row _ k c (extract_wf row) Hin Hc).
  reflexivity.
Qed.

(** With the distribution skipped, nothing is given and every subject of
    the record ends with an empty annotation. *)
Lemma skipped_distribution_blank (row : gmap string pyval) (cfg : scheme) :
  let st := extract row in
  allow_grace cfg row
  && fle (shortfall cfg (failed_subjects cfg (theory_subjects st)))
         (grace_limit (theory_subjects st)) = false ->
  given (grace_phase cfg row st) = []
  /\ forall k c, In (k, c) (subject_meta st) ->
                 transform_row row cfg !! subkey k "_GRACE" = Some blank.
Proof.
  intros st Hc.
  destruct (grace_phase_closed cfg row st (extract_wf row) Hc) as [Hnone Hall].
  split; [exact Hnone|]. intros k c Hin.
  destruct (transform_row_graded row cfg k c Hin) as [H1 _ _ _].
  rewrite H1. unfold get. fold st.
  destruct (Hall k) as [E|E]; rewrite E; cbn [default from_option id].
  - reflexivity.
  - change (VStr "G-0") with (grace_note 0).
    rewrite grace_value_note by lia. reflexivity.
Qed.

(** C3: when the total shortfall of the failing theory subjects exceeds the
    grace limit, nothing is distributed and every subject of the record has
    an empty grace annotation. *)
Theorem no_partial_grace (row : gmap string pyval) (cfg : scheme) :
  let st := extract row in
  fgt (shortfall cfg (failed_subjects cfg (theory_subjects st)))
      (grace_limit (theory_subjects st)) = true ->
  given (grace_phase cfg row st) = []
  /\ forall k c, In (k, c) (subject_meta st) ->
                 transform_row row cfg !! subkey k "_GRACE" = Some blank.
Proof.
  intros st Hgt. apply skipped_distribution_blank.
  fold st. rewrite (fgt_not_fle _ _ Hgt). apply andb_false_r.
Qed.



(** The block of a theory subject, read in the output. *)
Lemma theory_block_output (row : gmap string pyval) (cfg : scheme) (k : nat) :
  In (k, theory) (subject_meta (extract row)) ->
  exists t m,
    In (k, t, m) (theory_subjects (extract row))
    /\ theory_fields (fun s => transform_row row cfg !! subkey k s) t m.
Proof.
  intros Hin. pose proof (extract_wf row) as Hwf.
  destruct (wf_theory_only _ Hwf k Hin) as ([[k' t] m] & Ht & Ek).
  cbn [fst] in Ek. subst k'.
  exists t, m. split; [exact Ht|].
  pose proof (wf_blocks _ Hwf _ Ht) as Hb. cbn [fst snd] in Hb.
  unfold theory_fields in *.
  rewrite !transform_row_kept
    by (try reflexivity; simpl; intuition discriminate).
  exact Hb.
Qed.


End GraceClaims.

(* ===================================================================== *)
(** ** SGPA and result *)
(* ===================================================================== *)

Section ResultClaims.
Context {L : PyLib}.

Lemma direct_mappings_result (row : gmap string pyval) :
  direct_mappings row !! "RESULT" = Some (get row "RESULT" blank).
Proof.
  unfold direct_mappings, assign. cbv beta zeta.
  destruct (has_char _ _); cbn [app fold_left fst snd];
    rewrite !lookup_insert_ne by discriminate; apply lookup_insert_eq.
Qed.

(** The field RESULT as the grading loop leaves it: the copy of the input. *)
Lemma result_before_finish (row : gmap string pyval) (cfg : scheme) :
  c_row (grade_all cfg (subject_meta (extract row))
                   (g_row (grace_phase cfg row (extract row)))) !! "RESULT"
  = Some (get row "RESULT" blank).
Proof.
  unfold grade_all. rewrite grade_fold_plain by exact I. cbn [c_row].
  rewrite grace_phase_other
    by (intros j E; rewrite subkey_head in E; discriminate E).
  rewrite (rtc_push_ok_plain _ _ "RESULT" (extract_push row) I)
    by discriminate.
  apply direct_mappings_result.
Qed.

Lemma finish_credit_fields (cfg : scheme) (cs : cstate) (tc tcp : pyfloat) :
  finish cfg cs !! "TOT_CREDIT" = Some (VNum tc) ->
  finish cfg cs !! "TOT_CREDIT_POINTS" = Some (VNum tcp) ->
  fgt tc (fZ 0) = true ->
  fgt (total_credits cs) (fZ 0) = true
  /\ tc = total_credits cs /\ tcp = total_credit_points cs.
Proof.
  destruct (finish_fields cfg cs) as (_ & _ & _ & E1 & E2 & _).
  rewrite E1, E2. destruct (fgt (total_credits cs) (fZ 0)).
  - intros [= <-] [= <-] _. auto.
  - intros [= <-] _ H. discriminate H.
Qed.

Lemma finish_result_rule (cfg : scheme) (cs : cstate)
    (tc tcp gmax gmarks : pyfloat) :
  finish cfg cs !! "TOT_CREDIT" = Some (VNum tc) ->
  finish cfg cs !! "TOT_CREDIT_POINTS" = Some (VNum tcp) ->
  fgt tc (fZ 0) = true ->
  py_float (get (finish cfg cs) "GRAND_TOT_MAX" (VNum (fZ 0))) = Some gmax ->
  fgt gmax (fZ 0) = true ->
  py_float (get (finish cfg cs) "GRAND_TOT_MRKS" (VNum (fZ 0))) = Some gmarks ->
  finish cfg cs !! "RESULT"
  = Some (VStr (if fge (fmul (fdiv gmarks gmax) (fZ 100))
                       (fZ (aggregate_passing cfg))
                   && fge (fdiv tcp tc) (fZ 4)
                then "PASS" else "FAIL")).
Proof.
  intros Hc Hp Hpos Hmax Hgt Hmrks.
  destruct (finish_credit_fields cfg cs tc tcp Hc Hp Hpos) as (Ht & -> & ->).
  destruct (finish_fields cfg cs) as (Er & Em & Ex & _).
  unfold get in Hmax, Hmrks. rewrite Ex in Hmax. rewrite Em in Hmrks.
  rewrite Er. unfold result_field, get.
  rewrite Ht, Hmrks, Hmax, Hgt. reflexivity.
Qed.

Lemma finish_result_kept (cfg : scheme) (cs : cstate) :
  finish cfg cs !! "TOT_CREDIT" = Some (VNum (fZ 0))
  \/ py_float (get (finish cfg cs) "GRAND_TOT_MRKS" (VNum (fZ 0))) = None
  \/ py_float (get (finish cfg cs) "GRAND_TOT_MAX" (VNum (fZ 0))) = None
  \/ (exists gmax,
        py_float (get (finish cfg cs) "GRAND_TOT_MAX" (VNum (fZ 0))) = Some gmax
        /\ fgt gmax (fZ 0) = false) ->
  finish cfg cs !! "RESULT" = c_row cs !! "RESULT".
Proof.
  destruct (finish_fields cfg cs) as (Er & Em & Ex & Ec & _).
  unfold get. rewrite Er, Em, Ex, Ec. unfold result_field, get.
  destruct (fgt (total_credits cs) (fZ 0)) eqn:Ht; [|reflexivity].
  intros [H|[H|[H|(gmax & H & Hg)]]].
  - injection H as H. rewrite H in Ht. discriminate Ht.
  - rewrite H. reflexivity.
  - destruct (py_float (default _ (c_row cs !! "GRAND_TOT_MRKS")));
      [rewrite H|]; reflexivity.
  - destruct (py_float (default _ (c_row cs !! "GRAND_TOT_MRKS")));
      [rewrite H, Hg|]; reflexivity.
Qed.

(** C6 (as amended): when the total credit is above zero, the output field
    GRAND_TOT_MAX converts to a number above zero and the output field
    GRAND_TOT_MRKS converts to a number, RESULT is PASS if the aggregate
    percent is at least the aggregate passing percent and the quotient of
    credit points by credits is at least 4, and FAIL otherwise.  When the
    total credit is zero, or one of the two grand-total fields does not
    convert, or the maximum is not above zero, RESULT stays the copy of the
    input field. *)
Theorem result_rule (row : gmap string pyval) (cfg : scheme) :
  let out := transform_row row cfg in
  let grand_max := py_float (get out "GRAND_TOT_MAX" (VNum (fZ 0))) in
  let grand_marks := py_float (get out "GRAND_TOT_MRKS" (VNum (fZ 0))) in
  (forall tc tcp gmax gmarks,
     out !! "TOT_CREDIT" = Some (VNum tc) ->
     out !! "TOT_CREDIT_POINTS" = Some (VNum tcp) ->
     fgt tc (fZ 0) = true ->
     grand_max = Some gmax -> fgt gmax (fZ 0) = true ->
     grand_marks = Some gmarks ->
     out !! "RESULT"
     = Some (VStr (if fge (fmul (fdiv gmarks gmax) (fZ 100))
                          (fZ (aggregate_passing cfg))
                      && fge (fdiv tcp tc) (fZ 4)
                   then "PASS" else "FAIL")))
  /\ (out !! "TOT_CREDIT" = Some (VNum (fZ 0))
      \/ grand_marks = None \/ grand_max = None
      \/ (exists gmax, grand_max = Some gmax /\ fgt gmax (fZ 0) = false) ->
      out !! "RESULT" = Some (get row "RESULT" blank)).
Proof.
  cbv zeta. unfold transform_row.
  set (cs := grade_all cfg (subject_meta (extract row))
               (g_row (grace_phase cfg row (extract row)))).
  split.
  - intros tc tcp gmax gmarks. exact (finish_result_rule cfg cs tc tcp gmax gmarks).
  - intros H. rewrite (finish_result_kept cfg cs H).
    exact (result_before_finish row cfg).
Qed.



End ResultClaims.

(* ===================================================================== *)
(** ** The practical that follows a theory subject *)
(* ===================================================================== *)

Section PracticalClaims.
Context {L : PyLib} {HL : PyLibLaws L}.




End PracticalClaims.

(* ===================================================================== *)
(** ** The sample records, evaluated *)
(* ===================================================================== *)


(** The record of the scenario, through the whole transformation: the theory
    paper at 60 gets B with 6 points, its practical [18/20] gets A+ with 9. *)
Example legacy_practical_row :
  let out := transform_row row_legacy_practical scheme1 in
  subject_meta (extract row_legacy_practical) = [(1, theory); (2, practical)]
  /\ out !! "SUB1_GRADE" = Some (VStr "B")
  /\ out !! "SUB1_GRADE_POINTS" = Some (VNum (fZ 6))
  /\ out !! "SUB2_PR_MRKS" = Some (VStr "18")
  /\ out !! "SUB2_PR_MAX" = Some (VStr "20")
  /\ out !! "SUB2_GRADE" = Some (VStr "A+")
  /\ out !! "SUB2_GRADE_POINTS" = Some (VNum (fZ 9)).
Proof. vm_compute. repeat split; reflexivity. Qed.

Lemma grace_only_for_theory_witness :
  In (1, practical_no_grace) (subject_meta (extract row_plain_practical))
  /\ transform_row row_plain_practical scheme3 !! subkey 1 "_GRADE"
     = Some (VStr "F")
  /\ transform_row row_plain_practical scheme3 !! subkey 1 "_GRACE"
     = Some blank.
Proof.
  assert (H : In (1, practical_no_grace)
                 (subject_meta (extract row_plain_practical)))
    by (vm_compute; left; reflexivity).
  split; [exact H|]. split; [vm_compute; reflexivity|].
  apply (grace_only_for_theory row_plain_practical scheme3 1
           practical_no_grace H).
  discriminate.
Defined.

Lemma no_partial_grace_witness :
  fgt (shortfall scheme1
         (failed_subjects scheme1 (theory_subjects (extract row_six_short))))
      (grace_limit (theory_subjects (extract row_six_short))) = true
  /\ given (grace_phase scheme1 row_six_short (extract row_six_short)) = []
  /\ transform_row row_six_short scheme1 !! subkey 1 "_GRACE" = Some blank.
Proof.
  assert (H : fgt (shortfall scheme1
                     (failed_subjects scheme1
                        (theory_subjects (extract row_six_short))))
                  (grace_limit (theory_subjects (extract row_six_short)))
              = true)
    by (vm_compute; reflexivity).
  split; [exact H|].
  destruct (no_partial_grace row_six_short scheme1 H) as [Hg Hall].
  split; [exact Hg|]. apply (Hall 1 theory). vm_compute. left. reflexivity.
Defined.





(** C6, counterexample: the grand total is the absent marker, the grand
    maximum is 600 and the total credit is 4; RESULT is neither PASS nor
    FAIL but the empty copy of the input. *)
Lemma result_counterexample :
  let out := transform_row row_absent_total scheme1 in
  out !! "TOT_CREDIT" = Some (VNum (fZ 4))
  /\ fgt (fZ 4) (fZ 0) = true
  /\ py_float (get out "GRAND_TOT_MAX" (VNum (fZ 0))) = Some (fZ 600)
  /\ fgt (fZ 600) (fZ 0) = true
  /\ out !! "GRAND_TOT_MRKS" = Some (VStr "AB")
  /\ out !! "RESULT" = Some blank.
Proof. vm_compute. repeat split; reflexivity. Qed.

Lemma result_rule_witness :
  transform_row row_number_total scheme1 !! "RESULT" = Some (VStr "FAIL").
Proof.
  destruct (result_rule row_number_total scheme1) as [H _].
  rewrite (H (fZ 4) (fZ 0) (fZ 600) (Fin 200)); vm_compute; reflexivity.
Defined.




(** The record with an override maximum of 200 and a total of 71: one mark
    of grace is recorded, the percent stays 35.5 and the grade stays F. *)
Example override_row :
  let out := transform_row row_override scheme1 in
  out !! "SUB1_TH_MAX" = Some blank
  /\ out !! "SUB1_GRACE" = Some (VStr "G-1")
  /\ out !! "SUB1_PERCENT" = Some (VNum (Fin (71 / 200 * 100)))
  /\ out !! "SUB1_GRADE" = Some (VStr "F")
  /\ out !! "SUB1_GRADE_POINTS" = Some (VNum (fZ 0)).
Proof. vm_compute. repeat split; reflexivity. Qed.

(** The same shortfall of one mark on a paper with the default maxima: the
    grace is added and the grade is C. *)
Example default_maximum_row :
  let out := transform_row row_text_total scheme1 in
  out !! "SUB1_TH_MAX" = Some (VNum (fZ 70))
  /\ out !! "SUB1_GRACE" = Some (VStr "G-1")
  /\ out !! "SUB1_GRADE" = Some (VStr "C")
  /\ out !! "SUB1_GRADE_POINTS" = Some (VNum (fZ 4)).
Proof. vm_compute. repeat split; reflexivity. Qed.

(* ===================================================================== *)
(** ** The scheme registry *)
(* ===================================================================== *)

Lemma in_strs_In (s : string) (l : list string) : in_strs s l = true <-> In s l.
Proof.
  unfold in_strs. rewrite existsb_exists. split.
  - intros (x & Hx & E). apply String.eqb_eq in E. subst. exact Hx.
  - intros H. exists s. split; [exact H|apply String.eqb_refl].
Qed.

Lemma scheme_lookup_sound (course name : string) (cfg : scheme) :
  get_scheme_for_course course = Some (name, cfg) ->
  In (name, cfg) SCHEME_CONFIG /\ In course (courses cfg).
Proof.
  intros H. unfold get_scheme_for_course in H. apply find_some in H.
  destruct H as [Hin Hc]. split; [exact Hin|]. apply in_strs_In. exact Hc.
Qed.

(** No course is listed twice, so the first scheme found is the only one. *)
Lemma scheme_lookup_found (course name : string) (cfg : scheme) :
  In (name, cfg) SCHEME_CONFIG -> In course (courses cfg) ->
  get_scheme_for_course course = Some (name, cfg).
Proof.
  intros Hin Hc. simpl in Hin.
  repeat (destruct Hin as [E|Hin];
          [injection E as <- <-; simpl in Hc;
           repeat (destruct Hc as [<-|Hc]; [vm_compute; reflexivity|]);
           destruct Hc|]).
  destruct Hin.
Qed.

Lemma scheme_lookup_none (course : string) :
  get_scheme_for_course course = None ->
  forall n c, In (n, c) SCHEME_CONFIG -> ~ In course (courses c).
Proof.
  intros H n c Hin Hc. unfold get_scheme_for_course in H.
  pose proof (find_none _ _ H (n, c) Hin) as Hf. cbn [snd] in Hf.
  apply in_strs_In in Hc. congruence.
Qed.

Lemma scheme_lookup_missing (course : string) :
  (forall n c, In (n, c) SCHEME_CONFIG -> ~ In course (courses c)) ->
  get_scheme_for_course course = None.
Proof.
  intros H. unfold get_scheme_for_course.
  destruct (List.find _ _) as [[n c]|] eqn:E; [|reflexivity].
  apply find_some in E. destruct E as [Hin Hc]. cbn [snd] in Hc.
  apply in_strs_In in Hc. destruct (H n c Hin Hc).
Qed.

(** X1: [get_scheme_for_course] returns the one registry entry that lists the
    course, and raises exactly when no entry lists it: the course lists are
    disjoint, so the order of the registry does not matter. *)
Theorem scheme_lookup_exact (course : string) :
  (forall name cfg,
      get_scheme_for_course course = Some (name, cfg)
      <-> In (name, cfg) SCHEME_CONFIG /\ In course (courses cfg))
  /\ (get_scheme_for_course course = None
      <-> forall n c, In (n, c) SCHEME_CONFIG -> ~ In course (courses c)).
Proof.
  split.
  - intros name cfg. split; [apply scheme_lookup_sound|].
    intros [Hin Hc]. apply scheme_lookup_found; assumption.
  - split; [apply scheme_lookup_none|apply scheme_lookup_missing].
Qed.

(* ===================================================================== *)
(** ** Dates of birth *)
(* ===================================================================== *)

Lemma has_char_app (c : ascii) (s t : string) :
  has_char c (s +:+ t) = (has_char c s || has_char c t)%bool.
Proof.
  induction s as [|d s IH]; [reflexivity|].
  simpl. rewrite IH. apply orb_assoc.
Qed.

Lemma split_on_nonempty (sep : ascii) (s : string) : split_on sep s <> [].
Proof.
  destruct s as [|d s]; simpl; [discriminate|].
  destruct (Ascii.eqb sep d); [discriminate|].
  destruct (split_on sep s); discriminate.
Qed.

Lemma split_on_no_sep (sep : ascii) (s : string) :
  has_char sep s = false -> split_on sep s = [s].
Proof.
  induction s as [|d s IH]; [reflexivity|].
  simpl. intros H. apply orb_false_iff in H. destruct H as [Hd Hs].
  rewrite Hd, (IH Hs). reflexivity.
Qed.

Lemma split_on_field (sep : ascii) (a b : string) :
  has_char sep a = false ->
  split_on sep (a +:+ String sep b) = a :: split_on sep b.
Proof.
  induction a as [|d a IH]; intros H.
  - simpl. rewrite Ascii.eqb_refl. reflexivity.
  - simpl in H. apply orb_false_iff in H. destruct H as [Hd Ha].
    rewrite append_cons. simpl. rewrite Hd, (IH Ha). reflexivity.
Qed.

Lemma split_on_three (sep : ascii) (a b c : string) :
  has_char sep a = false -> has_char sep b = false -> has_char sep c = false ->
  split_on sep (a +:+ String sep (b +:+ String sep c)) = [a; b; c].
Proof.
  intros Ha Hb Hc.
  rewrite split_on_field, split_on_field, split_on_no_sep by assumption.
  reflexivity.
Qed.

Lemma split_on_sjoin (sep : ascii) (s : string) :
  sjoin sep (split_on sep s) = s
  /\ Forall (fun p => has_char sep p = false) (split_on sep s).
Proof.
  induction s as [|d s [IHj IHf]]; [split; [reflexivity|repeat constructor]|].
  simpl. destruct (Ascii.eqb sep d) eqn:E.
  - apply Ascii.eqb_eq in E. subst d. split.
    + pose proof (split_on_nonempty sep s) as Hne.
      destruct (split_on sep s) as [|p ps]; [contradiction|].
      change (sjoin sep ("" :: p :: ps))
        with ("" +:+ String sep (sjoin sep (p :: ps))).
      rewrite IHj. reflexivity.
    + constructor; [reflexivity|exact IHf].
  - pose proof (split_on_nonempty sep s) as Hne.
    destruct (split_on sep s) as [|p ps]; [contradiction|].
    apply Forall_cons in IHf. destruct IHf as [Hp Hps]. split.
    + destruct ps as [|p' ps].
      * simpl in *. congruence.
      * change (sjoin sep (String d p :: p' :: ps))
          with (String d (p +:+ String sep (sjoin sep (p' :: ps)))).
        f_equal. exact IHj.
    + constructor; [|exact Hps]. simpl. rewrite E, Hp. reflexivity.
Qed.

Lemma has_char_sep (sep : ascii) (a b : string) :
  has_char sep (a +:+ String sep b) = true.
Proof.
  rewrite has_char_app. simpl. rewrite Ascii.eqb_refl.
  apply orb_true_iff. right. reflexivity.
Qed.

(** *** Blank strings *)

Lemma lstrip_empty (s : string) : lstrip s = "" -> sforall is_space s = true.
Proof.
  induction s as [|c s IH]; [reflexivity|].
  simpl. destruct (is_space c); [exact IH|discriminate].
Qed.

Lemma srev_empty (s : string) : srev s = "" -> s = "".
Proof. intros H. rewrite <- (srev_involutive s), H. reflexivity. Qed.

Lemma sforall_lstrip_back (s : string) :
  sforall is_space (lstrip s) = true -> sforall is_space s = true.
Proof.
  induction s as [|c s IH]; [reflexivity|].
  simpl. destruct (is_space c) eqn:E; [exact IH|].
  simpl. rewrite E. discriminate.
Qed.

Lemma strip_empty (s : string) : strip s = "" -> sforall is_space s = true.
Proof.
  unfold strip. intros H. apply srev_empty, lstrip_empty in H.
  rewrite sforall_srev in H. apply sforall_lstrip_back. exact H.
Qed.

Lemma sforall_has_char (p : ascii -> bool) (c : ascii) (s : string) :
  sforall p s = true -> has_char c s = true -> p c = true.
Proof.
  induction s as [|d s IH]; [discriminate|].
  simpl. intros H Hc. apply andb_true_iff in H. destruct H as [Hd Hs].
  apply orb_true_iff in Hc. destruct Hc as [Hc|Hc]; [|apply IH; assumption].
  apply Ascii.eqb_eq in Hc. subst d. exact Hd.
Qed.

Lemma strip_nonblank (c : ascii) (s : string) :
  has_char c s = true -> is_space c = false -> String.eqb (strip s) "" = false.
Proof.
  intros Hc Hs. apply String.eqb_neq. intros E. apply strip_empty in E.
  rewrite (sforall_has_char _ c s E Hc) in Hs. discriminate.
Qed.

Lemma has_char_nonempty (c : ascii) (s : string) :
  has_char c s = true -> String.eqb s "" = false.
Proof. destruct s; [discriminate|reflexivity]. Qed.

(** *** Zero filling *)

Lemma zfill2_has_char (c : ascii) (p : string) :
  c <> "0"%char -> has_char c (zfill2 p) = has_char c p.
Proof.
  intros Hc. assert (E0 : Ascii.eqb c "0" = false) by (apply Ascii.eqb_neq; exact Hc).
  destruct p as [|d [|e p]]; try reflexivity.
  - simpl. rewrite E0. reflexivity.
  - unfold zfill2. destruct (Ascii.eqb d "+" || Ascii.eqb d "-")%bool; simpl;
      rewrite E0; destruct (Ascii.eqb c d); reflexivity.
Qed.

Lemma zfill2_length4 (p : string) :
  Nat.eqb (String.length (zfill2 p)) 4 = Nat.eqb (String.length p) 4.
Proof.
  destruct p as [|d [|e p]]; try reflexivity.
  unfold zfill2. destruct (Ascii.eqb d "+" || Ascii.eqb d "-")%bool; reflexivity.
Qed.

Lemma zfill2_idempotent (p : string) : zfill2 (zfill2 p) = zfill2 p.
Proof.
  destruct p as [|d [|e p]]; try reflexivity.
  unfold zfill2. destruct (Ascii.eqb d "+" || Ascii.eqb d "-")%bool; reflexivity.
Qed.

Lemma zfill2_four (p : string) : String.length p = 4 -> zfill2 p = p.
Proof. destruct p as [|d [|e p]]; try discriminate. reflexivity. Qed.

Section DateFacts.
Context {L : PyLib}.

Lemma format_dob_slash (s : string) :
  has_char "/" s = true ->
  format_dob (VStr s)
  = match split_on "/" s with
    | [p0; p1; p2] =>
        if Nat.eqb (String.length p0) 4 then
          zfill2 p2 +:+ "/" +:+ zfill2 p1 +:+ "/" +:+ p0
        else if Nat.eqb (String.length p2) 4 then
          zfill2 p0 +:+ "/" +:+ zfill2 p1 +:+ "/" +:+ p2
        else s
    | _ => s
    end.
Proof.
  intros H. unfold format_dob. cbn [truthy py_str].
  rewrite (has_char_nonempty _ _ H), (strip_nonblank "/" s H eq_refl), H.
  reflexivity.
Qed.

Lemma format_dob_dash (s : string) :
  has_char "/" s = false -> has_char "-" s = true ->
  format_dob (VStr s)
  = match split_on "-" s with
    | [p0; p1; p2] =>
        if Nat.eqb (String.length p0) 4 then
          zfill2 p2 +:+ "/" +:+ zfill2 p1 +:+ "/" +:+ p0
        else s
    | _ => s
    end.
Proof.
  intros H0 H. unfold format_dob. cbn [truthy py_str].
  rewrite (has_char_nonempty _ _ H), (strip_nonblank "-" s H eq_refl), H0, H.
  reflexivity.
Qed.

Lemma format_dob_plain (s : string) :
  has_char "/" s = false -> has_char "-" s = false ->
  format_dob (VStr s) = "" \/ format_dob (VStr s) = s.
Proof.
  intros H0 H1. unfold format_dob. cbn [truthy py_str]. rewrite H0, H1.
  destruct (negb _ || _)%bool; auto.
Qed.

(** The fields of a date written with slashes. *)
Lemma format_dob_slash_fields (a b c : string) :
  has_char "/" a = false -> has_char "/" b = false -> has_char "/" c = false ->
  format_dob (VStr (a +:+ String "/" (b +:+ String "/" c)))
  = if Nat.eqb (String.length a) 4 then
      zfill2 c +:+ String "/" (zfill2 b +:+ String "/" a)
    else if Nat.eqb (String.length c) 4 then
      zfill2 a +:+ String "/" (zfill2 b +:+ String "/" c)
    else a +:+ String "/" (b +:+ String "/" c).
Proof.
  intros Ha Hb Hc. rewrite format_dob_slash by apply has_char_sep.
  rewrite split_on_three by assumption. reflexivity.
Qed.

End DateFacts.

Section DateClaims.
Context {L : PyLib}.

(** X2: a date of three fields: with the year (a field of four characters)
    first it is turned round to day, month, year with slashes, under either
    separator; with the year last it is kept in its order, with the day and
    the month filled to two characters when the separator is the slash, and
    unchanged when it is the dash. *)
Theorem format_dob_fields (sep : ascii) (a b c : string) :
  sep = "/"%char \/ sep = "-"%char ->
  (forall p, In p [a; b; c] ->
             has_char "/" p = false /\ has_char "-" p = false) ->
  format_dob (VStr (a +:+ String sep (b +:+ String sep c)))
  = if Nat.eqb (String.length a) 4 then
      zfill2 c +:+ "/" +:+ zfill2 b +:+ "/" +:+ a
    else if (Ascii.eqb sep "/" && Nat.eqb (String.length c) 4)%bool then
      zfill2 a +:+ "/" +:+ zfill2 b +:+ "/" +:+ c
    else a +:+ String sep (b +:+ String sep c).
Proof.
  intros Hsep Hf.
  destruct (Hf a) as [Ha Ha']; [simpl; tauto|].
  destruct (Hf b) as [Hb Hb']; [simpl; tauto|].
  destruct (Hf c) as [Hc Hc']; [simpl; tauto|].
  destruct Hsep as [->| ->].
  - rewrite format_dob_slash_fields by assumption. reflexivity.
  - rewrite format_dob_dash.
    + rewrite split_on_three by assumption.
      destruct (Nat.eqb (String.length a) 4); reflexivity.
    + rewrite !has_char_app. simpl. rewrite !has_char_app. simpl.
      rewrite Ha, Hb, Hc. reflexivity.
    + apply has_char_sep.
Qed.

Lemma format_dob_turned (x y z : string) :
  has_char "/" x = false -> has_char "/" y = false -> has_char "/" z = false ->
  String.length z = 4 -> String.length x <> 4 ->
  format_dob (VStr (zfill2 x +:+ String "/" (zfill2 y +:+ String "/" z)))
  = zfill2 x +:+ String "/" (zfill2 y +:+ String "/" z).
Proof.
  intros Hx Hy Hz Lz Lx.
  rewrite format_dob_slash_fields
    by (rewrite ?zfill2_has_char by discriminate; assumption).
  rewrite zfill2_length4, (proj2 (Nat.eqb_neq _ _) Lx).
  rewrite (proj2 (Nat.eqb_eq _ _) Lz), !zfill2_idempotent. reflexivity.
Qed.

(** X3: formatting a formatted date changes nothing, unless the first and the
    third field of the date are both four characters long. *)
Theorem format_dob_idempotent (s : string) :
  (forall sep, In sep ["/"; "-"]%char ->
     ~ (String.length (part 0 (split_on sep s)) = 4
        /\ String.length (part 2 (split_on sep s)) = 4)) ->
  format_dob (VStr (format_dob (VStr s))) = format_dob (VStr s).
Proof.
  intros Hnot.
  assert (Hkeep : format_dob (VStr s) = s ->
                  format_dob (VStr (format_dob (VStr s))) = format_dob (VStr s))
    by (intros E; rewrite !E; reflexivity).
  assert (Hturn : forall sep p0 p1 p2,
            In sep ["/"; "-"]%char -> has_char "/" s = Ascii.eqb sep "/" ->
            split_on sep s = [p0; p1; p2] ->
            has_char "/" p0 = false /\ has_char "/" p1 = false
            /\ has_char "/" p2 = false
            /\ ~ (String.length p0 = 4 /\ String.length p2 = 4)).
  { intros sep p0 p1 p2 Hsep Hs E.
    pose proof (Hnot sep Hsep) as Hn. rewrite E in Hn. cbn [part nth] in Hn.
    destruct (split_on_sjoin sep s) as [Ej Hf]. rewrite E in Ej, Hf.
    apply Forall_cons in Hf. destruct Hf as [H0 Hf].
    apply Forall_cons in Hf. destruct Hf as [H1 Hf].
    apply Forall_cons in Hf. destruct Hf as [H2 _].
    destruct Hsep as [<-|[<-|[]]]; [tauto|].
    change (Ascii.eqb "-" "/") with false in Hs.
    rewrite <- Ej in Hs. cbn [sjoin] in Hs.
    rewrite !has_char_app in Hs. simpl in Hs. rewrite !has_char_app in Hs.
    simpl in Hs.
    destruct (has_char "/" p0), (has_char "/" p1), (has_char "/" p2);
      try discriminate Hs. tauto. }
  destruct (has_char "/" s) eqn:Hs.
  - rewrite (format_dob_slash s Hs) in *.
    destruct (split_on "/" s) as [|p0 [|p1 [|p2 [|p3 ps]]]] eqn:E; auto.
    destruct (Hturn "/"%char p0 p1 p2) as (H0 & H1 & H2 & Hn);
      [simpl; tauto|reflexivity|exact E|].
    destruct (Nat.eqb (String.length p0) 4) eqn:L0.
    + apply Nat.eqb_eq in L0.
      apply format_dob_turned; try assumption. tauto.
    + destruct (Nat.eqb (String.length p2) 4) eqn:L2; [|auto].
      apply Nat.eqb_eq in L2. apply Nat.eqb_neq in L0.
      apply format_dob_turned; assumption.
  - destruct (has_char "-" s) eqn:Hd.
    + rewrite (format_dob_dash s Hs Hd) in *.
      destruct (split_on "-" s) as [|p0 [|p1 [|p2 [|p3 ps]]]] eqn:E; auto.
      destruct (Hturn "-"%char p0 p1 p2) as (H0 & H1 & H2 & Hn);
        [simpl; tauto|reflexivity|exact E|].
      destruct (Nat.eqb (String.length p0) 4) eqn:L0; [|auto].
      apply Nat.eqb_eq in L0.
      apply format_dob_turned; try assumption. tauto.
    + destruct (format_dob_plain s Hs Hd) as [E|E]; [|auto].
      rewrite E. reflexivity.
Qed.

End DateClaims.

Lemma format_dob_fields_witness :
  format_dob (VStr ("2001" +:+ String "-" ("7" +:+ String "-" "9")))
  = "09/07/2001".
Proof.
  apply (format_dob_fields "-" "2001" "7" "9"); [right; reflexivity|].
  intros p Hp. simpl in Hp.
  destruct Hp as [<-|[<-|[<-|[]]]]; split; reflexivity.
Defined.

(** The day-first date is filled with zeros when it is written with
    slashes and returned as it is when it is written with dashes. *)
Example day_first_dates :
  format_dob (VStr "9/7/2001") = "09/07/2001"
  /\ format_dob (VStr "9-7-2001") = "9-7-2001"
  /\ format_dob (VStr "2001/07/1999") = "1999/07/2001"
  /\ format_dob (VStr "1999/07/2001") = "2001/07/1999".
Proof. repeat split; vm_compute; reflexivity. Qed.

Lemma format_dob_idempotent_witness :
  format_dob (VStr (format_dob (VStr "2001/7/9"))) = format_dob (VStr "2001/7/9").
Proof.
  apply (format_dob_idempotent "2001/7/9").
  intros sep Hsep [H0 H2]. simpl in Hsep.
  destruct Hsep as [<-|[<-|[]]]; vm_compute in H2; discriminate H2.
Defined.

(* ===================================================================== *)
(** ** Record-level fields *)
(* ===================================================================== *)

Lemma append_assoc (a b c : string) : (a +:+ b) +:+ c = a +:+ (b +:+ c).
Proof.
  induction a as [|d a IH]; [reflexivity|].
  rewrite !append_cons, IH. reflexivity.
Qed.

Lemma srev_acc_app (s acc : string) : srev_acc s acc = srev s +:+ acc.
Proof.
  unfold srev. revert acc. induction s as [|c s IH]; intros acc; [reflexivity|].
  simpl. rewrite IH, (IH (String c "")).
  rewrite append_assoc. reflexivity.
Qed.

Lemma srev_cons (c : ascii) (s : string) : srev (String c s) = srev s +:+ String c "".
Proof. unfold srev at 1. simpl. apply srev_acc_app. Qed.

Lemma lstrip_lstrip (s : string) : lstrip (lstrip s) = lstrip s.
Proof.
  induction s as [|c s IH]; [reflexivity|].
  simpl. destruct (is_space c) eqn:E; [exact IH|].
  simpl. rewrite E. reflexivity.
Qed.

Lemma lstrip_app_keep (a b : string) :
  lstrip a = a -> a <> "" -> lstrip (a +:+ b) = a +:+ b.
Proof.
  destruct a as [|c a]; [contradiction|].
  simpl. destruct (is_space c); [|reflexivity].
  intros H _. exfalso.
  assert (Hlen : forall s, String.length (lstrip s) <= String.length s).
  { induction s as [|d s IHs]; simpl; [lia|].
    destruct (is_space d); simpl; lia. }
  pose proof (Hlen a) as Hl. rewrite H in Hl. simpl in Hl. lia.
Qed.

(** A string that ends well stays so when its head is stripped. *)
Lemma lstrip_keeps_end (s : string) :
  lstrip (srev s) = srev s -> lstrip (srev (lstrip s)) = srev (lstrip s).
Proof.
  induction s as [|c s IH]; [auto|].
  simpl. destruct (is_space c) eqn:E; [|auto].
  intros H. apply IH. rewrite srev_cons in H.
  destruct (srev s) as [|d t] eqn:Es; [reflexivity|].
  simpl in H |- *. destruct (is_space d); [|reflexivity].
  exfalso.
  assert (Hlen : forall s, String.length (lstrip s) <= String.length s).
  { induction s0 as [|e s0 IHs]; simpl; [lia|].
    destruct (is_space e); simpl; lia. }
  pose proof (Hlen (t +:+ String c "")) as Hl. rewrite H in Hl. simpl in Hl. lia.
Qed.

Lemma strip_idempotent (s : string) : strip (strip s) = strip s.
Proof.
  unfold strip.
  set (t := lstrip s). set (u := lstrip (srev t)).
  assert (Hu : lstrip u = u) by apply lstrip_lstrip.
  assert (Hend : lstrip (srev u) = srev u).
  { apply lstrip_keeps_end. rewrite srev_involutive. apply lstrip_lstrip. }
  rewrite Hend, srev_involutive, Hu. reflexivity.
Qed.

Section MappingFacts.
Context {L : PyLib}.

Lemma finish_other (cfg : scheme) (cs : cstate) (key : string) :
  ~ In key result_keys -> finish cfg cs !! key = c_row cs !! key.
Proof.
  intros Hk.
  assert (Hne : forall k v (m : gmap string pyval),
            In k result_keys -> <[k := v]> m !! key = m !! key).
  { intros k v m Hin. apply lookup_insert_ne. intros ->. contradiction. }
  unfold finish, assign.
  destruct (fgt (total_credits cs) (fZ 0)); cbn [fold_left fst snd].
  - destruct (py_float _) as [gm|]; [destruct (py_float _) as [gx|]|].
    + destruct (fgt gx (fZ 0)); [destruct (_ && _)|];
        rewrite !Hne by (simpl; tauto); reflexivity.
    + rewrite !Hne by (simpl; tauto). reflexivity.
    + rewrite !Hne by (simpl; tauto). reflexivity.
  - rewrite !Hne by (simpl; tauto). reflexivity.
Qed.

(** A record-level field that only the direct mappings write. *)
Lemma transform_row_plain (row : gmap string pyval) (cfg : scheme)
    (key : string) :
  plain_key key -> key <> "REMARKS" -> ~ In key result_keys ->
  transform_row row cfg !! key = direct_mappings row !! key.
Proof.
  intros Hp Hr Hk. unfold transform_row, grade_all.
  rewrite finish_other by exact Hk.
  rewrite grade_fold_plain by exact Hp. cbn [c_row].
  rewrite grace_phase_other
    by (intros j E; exact (plain_key_ne key _ _ Hp (eq_sym E))).
  apply (rtc_push_ok_plain _ _ key (extract_push row) Hp Hr).
Qed.

Lemma lookup_assign (kvs : list (string * pyval)) (m : gmap string pyval)
    (key : string) :
  assign kvs m !! key = alookup key kvs (m !! key).
Proof.
  unfold assign. revert m. induction kvs as [|[k v] kvs IH]; intros m;
    [reflexivity|].
  cbn [fold_left alookup fst snd]. rewrite IH.
  destruct (String.eqb key k) eqn:E.
  - apply String.eqb_eq in E. subst k. rewrite lookup_insert_eq. reflexivity.
  - apply String.eqb_neq in E. rewrite lookup_insert_ne by congruence.
    reflexivity.
Qed.

(** Reads one key of the direct mappings: the last assignment to it. *)
Ltac read_mapping :=
  unfold direct_mappings; cbv beta zeta;
  destruct (has_char _ _); rewrite lookup_assign;
  cbv [alookup app fst snd String.eqb Ascii.eqb Bool.eqb]; reflexivity.

Lemma direct_mappings_copied (row : gmap string pyval)
    (out_key in_key : string) :
  In (out_key, in_key) copied_columns ->
  direct_mappings row !! out_key = Some (get row in_key blank).
Proof.
  intros Hin. simpl in Hin.
  repeat (destruct Hin as [E|Hin]; [injection E as <- <-; read_mapping|]).
  destruct Hin.
Qed.

Lemma copied_columns_plain (out_key in_key : string) :
  In (out_key, in_key) copied_columns ->
  plain_key out_key /\ out_key <> "REMARKS" /\ ~ In out_key result_keys.
Proof.
  intros Hin. simpl in Hin.
  repeat (destruct Hin as [E|Hin];
          [injection E as <- <-;
           split; [exact I|split; [discriminate|simpl; intuition discriminate]]|]).
  destruct Hin.
Qed.

(** X4: the identity columns reach the output unchanged under their output
    names; the output maximum GRAND_TOT_MAX is always the input column
    GTOT_MAX, never the part after the slash of GTOT nor the column TTOT. *)
Theorem columns_copied (row : gmap string pyval) (cfg : scheme)
    (out_key in_key : string) :
  In (out_key, in_key) copied_columns ->
  transform_row row cfg !! out_key = Some (get row in_key blank).
Proof.
  intros Hin. destruct (copied_columns_plain _ _ Hin) as (Hp & Hr & Hk).
  rewrite transform_row_plain by assumption.
  apply direct_mappings_copied. exact Hin.
Qed.

(** X5: the three record-level fields that are computed from the input: the
    date of birth goes through [format_dob]; the grand total is the text of
    GTOT before its first slash, stripped; the account id is ABCID unless that
    is empty, zero or missing, and ABC_ACCOUNT_ID then. *)
Theorem derived_columns (row : gmap string pyval) (cfg : scheme) :
  let out := transform_row row cfg in
  out !! "DOB" = Some (VStr (format_dob (get row "DOB" blank)))
  /\ out !! "GRAND_TOT_MRKS"
     = Some (VStr (strip (part 0 (split_on "/"
                                    (strip (py_str (get row "GTOT" blank)))))))
  /\ out !! "ABC_ACCOUNT_ID"
     = Some (if truthy (get row "ABCID" blank) then get row "ABCID" blank
             else get row "ABC_ACCOUNT_ID" blank).
Proof.
  cbv zeta.
  rewrite !transform_row_plain
    by (try exact I; try discriminate; simpl; intuition discriminate).
  split; [read_mapping|]. split; [|read_mapping].
  unfold direct_mappings. cbv beta zeta.
  destruct (has_char _ _) eqn:E; rewrite lookup_assign;
    cbv [alookup app fst snd String.eqb Ascii.eqb Bool.eqb]; [reflexivity|].
  rewrite (split_on_no_sep _ _ E). cbn [part nth].
  rewrite strip_idempotent. reflexivity.
Qed.

End MappingFacts.

Lemma columns_copied_witness :
  transform_row row_text_total scheme1 !! "GRAND_TOT_MAX"
  = Some (get row_text_total "GTOT_MAX" blank).
Proof.
  apply (columns_copied row_text_total scheme1 "GRAND_TOT_MAX" "GTOT_MAX").
  simpl. tauto.
Defined.

(* ===================================================================== *)
(** ** Subject blocks *)
(* ===================================================================== *)

Section BlockFacts.
Context {L : PyLib}.

Lemma block_fields_ext (row : gmap string pyval) (c : kind) (k : nat)
    (read read' : string -> option pyval) :
  (forall s, nodigit_head s = true -> ~ In s graded_suffixes ->
             read' s = read s) ->
  block_fields row c k read -> block_fields row c k read'.
Proof.
  intros E. unfold block_fields.
  intros (Hn & Ht & Hc & Hp & Hcr & Hk).
  rewrite !E by (try reflexivity; simpl; intuition discriminate).
  repeat (split; [assumption|]).
  destruct c; unfold kind_fields in *;
    rewrite ?E by (try reflexivity; simpl; intuition discriminate);
    try assumption.
  destruct Hk as [Hnm Hnone]. split; [exact Hnm|].
  intros s Hs. rewrite E; [apply Hnone; exact Hs|..];
    simpl in Hs; repeat (destruct Hs as [<-|Hs];
                         [try reflexivity; simpl; intuition discriminate|]);
    destruct Hs.
Qed.

Lemma block_push_ok (row : gmap string pyval) (st st' : xstate) :
  blocks_ok row st -> block_push row st st' -> blocks_ok row st'.
Proof.
  intros [Hc Hi Hf Hcl] [c svs rem ths' Hok Hb].
  assert (Hdig : forallb nodigit_head (map fst svs) = true)
    by (apply ok_suffix_nodigit; exact Hok).
  assert (Hold : forall j s, j <> subject_counter st -> nodigit_head s = true ->
            remarks rem (assign_sub (subject_counter st) svs (new_row st))
              !! subkey j s = new_row st !! subkey j s).
  { intros j s Hj Hs. rewrite lookup_remarks_ne by apply subkey_not_remarks.
    rewrite lookup_assign_sub by assumption.
    rewrite (proj2 (Nat.eqb_neq j _) Hj). reflexivity. }
  assert (Hnew : forall s, nodigit_head s = true ->
            remarks rem (assign_sub (subject_counter st) svs (new_row st))
              !! subkey (subject_counter st) s = alookup s svs None).
  { intros s Hs. rewrite lookup_remarks_ne by apply subkey_not_remarks.
    rewrite lookup_assign_sub by assumption. rewrite Nat.eqb_refl.
    rewrite alookup_default, (Hcl _ s (or_intror (le_n _)) Hs).
    destruct (alookup s svs None); reflexivity. }
  constructor; cbn [push_subject subject_counter subject_meta new_row].
  - lia.
  - intros k c' Hin. apply in_app_or in Hin.
    destruct Hin as [Hin|[E|[]]].
    + specialize (Hi k c' Hin). lia.
    + injection E as <- <-. lia.
  - intros k c' Hin. apply in_app_or in Hin.
    destruct Hin as [Hin|[E|[]]].
    + specialize (Hi k c' Hin). specialize (Hf k c' Hin).
      revert Hf. apply block_fields_ext. intros s Hs _.
      apply Hold; [lia|exact Hs].
    + injection E as <- <-. revert Hb. apply block_fields_ext.
      intros s Hs _. apply Hnew. exact Hs.
  - intros k s Hk Hs. rewrite Hold by (try assumption; lia).
    apply Hcl; [lia|exact Hs].
Qed.

Lemma rtc_block_push_ok (row : gmap string pyval) (st st' : xstate) :
  blocks_ok row st -> rtc (block_push row) st st' -> blocks_ok row st'.
Proof.
  intros Hok H. induction H as [|x y z Hxy _ IH]; [exact Hok|].
  apply IH. apply (block_push_ok row x); assumption.
Qed.

Lemma block_push_plain (row : gmap string pyval) (st : xstate) (c : kind)
    (svs : list (string * pyval)) (ths' : list (nat * pyfloat * pyfloat)) :
  forallb ok_suffix (map fst svs) = true ->
  block_fields row c (subject_counter st) (fun s => alookup s svs None) ->
  rtc (block_push row) st
    (push_subject c (assign_sub (subject_counter st) svs (new_row st)) ths' st).
Proof.
  intros Hok Hb. apply rtc_once.
  exact (block_push_intro row st c svs None ths' Hok Hb).
Qed.

Ltac block_shape :=
  unfold block_fields, kind_fields;
  cbn [alookup fst snd String.eqb Ascii.eqb Bool.eqb app];
  repeat split; eauto.

Lemma theory_subject_block (row : gmap string pyval) (i : nat) (st : xstate) :
  rtc (block_push row) st (theory_subject row i st).
Proof.
  unfold theory_subject. apply block_push_plain.
  - destruct (truthy _ && nonblank _); reflexivity.
  - destruct (truthy _ && nonblank _); block_shape.
Qed.

Lemma legacy_practical_block (row : gmap string pyval) (i : nat) (st : xstate) :
  rtc (block_push row) st (legacy_practical row i st).
Proof.
  unfold legacy_practical.
  destruct (notna _ && negb _); [|apply rtc_refl].
  apply block_push_plain.
  - destruct (has_char _ _); reflexivity.
  - destruct (has_char _ _);
      match goal with
      | |- context [notna ?v] => destruct (notna v)
      end; block_shape.
Qed.

Lemma theory_step_block (row : gmap string pyval) (st : xstate) (i : nat) :
  rtc (block_push row) st (theory_step row st i).
Proof.
  unfold theory_step.
  destruct (String.eqb _ _ && String.eqb _ _); [apply rtc_refl|].
  eapply rtc_trans; [apply theory_subject_block|apply legacy_practical_block].
Qed.

Lemma practical_step_block (row : gmap string pyval) (st : xstate) (i : nat) :
  rtc (block_push row) st (practical_step row st i).
Proof.
  unfold practical_step.
  destruct (String.eqb _ _ && String.eqb _ _); [apply rtc_refl|].
  destruct (nonblank _ || nonblank _ || nonblank _);
    (apply block_push_plain; [reflexivity|]);
    block_shape; intros [E|E]; discriminate E.
Qed.

Lemma project_step_block (row : gmap string pyval) (st : xstate) (i : nat) :
  rtc (block_push row) st (project_step row st i).
Proof.
  unfold project_step.
  destruct (negb _); [apply rtc_refl|].
  apply block_push_plain; [reflexivity|].
  block_shape; intros [E|E]; discriminate E.
Qed.

Lemma due_step_block (row : gmap string pyval) (st : xstate) (i : nat) :
  rtc (block_push row) st (due_step row st i).
Proof.
  unfold due_step.
  destruct (notna _ && negb _); [|apply rtc_refl].
  apply rtc_once.
  match goal with
  | |- block_push _ _ (push_subject _ (<[_ := ?v]> (assign_sub _ ?svs _)) _ _) =>
      refine (block_push_intro row st due svs (Some v) _ eq_refl _)
  end.
  match goal with
  | |- context [notna ?v] => destruct (notna v)
  end; block_shape; try (intros [E|E]; discriminate E);
    intros s Hs; simpl in Hs;
    repeat (destruct Hs as [<-|Hs]; [reflexivity|]); destruct Hs.
Qed.

Lemma fold_block (row : gmap string pyval) (step : xstate -> nat -> xstate)
    (l : list nat) (st : xstate) :
  (forall st i, rtc (block_push row) st (step st i)) ->
  rtc (block_push row) st (fold_left step l st).
Proof.
  intros Hstep. revert st. induction l as [|i l IH]; intros st; [apply rtc_refl|].
  simpl. eapply rtc_trans; [apply Hstep|apply IH].
Qed.

Lemma extract_blocks (row : gmap string pyval) : blocks_ok row (extract row).
Proof.
  eapply rtc_block_push_ok.
  2:{ unfold extract.
      eapply rtc_trans; [apply fold_block, theory_step_block|].
      eapply rtc_trans; [apply fold_block, practical_step_block|].
      eapply rtc_trans; [apply fold_block, project_step_block|].
      apply fold_block, due_step_block. }
  constructor; simpl.
  - lia.
  - intros k c [].
  - intros k c [].
  - intros k s _ _. apply direct_mappings_sub.
Qed.

End BlockFacts.

Section CountFacts.
Context {L : PyLib}.

Lemma fold_counter (step : xstate -> nat -> xstate) (n : nat) (l : list nat)
    (st : xstate) :
  (forall st i, subject_counter (step st i) <= subject_counter st + n) ->
  subject_counter (fold_left step l st) <= subject_counter st + n * length l.
Proof.
  intros Hstep. revert st. induction l as [|i l IH]; intros st; simpl; [lia|].
  specialize (IH (step st i)). specialize (Hstep st i). lia.
Qed.

Lemma legacy_practical_counter (row : gmap string pyval) (i : nat) (st : xstate) :
  subject_counter (legacy_practical row i st) <= subject_counter st + 1.
Proof.
  unfold legacy_practical. destruct (notna _ && negb _); simpl; lia.
Qed.

Lemma theory_step_counter (row : gmap string pyval) (st : xstate) (i : nat) :
  subject_counter (theory_step row st i) <= subject_counter st + 2.
Proof.
  unfold theory_step. destruct (String.eqb _ _ && String.eqb _ _); [lia|].
  pose proof (legacy_practical_counter row i (theory_subject row i st)) as H.
  unfold theory_subject in H at 2. simpl in H. lia.
Qed.

Lemma practical_step_counter (row : gmap string pyval) (st : xstate) (i : nat) :
  subject_counter (practical_step row st i) <= subject_counter st + 1.
Proof.
  unfold practical_step. destruct (String.eqb _ _ && String.eqb _ _); [lia|].
  destruct (nonblank _ || nonblank _ || nonblank _); simpl; lia.
Qed.

Lemma project_step_counter (row : gmap string pyval) (st : xstate) (i : nat) :
  subject_counter (project_step row st i) <= subject_counter st + 1.
Proof. unfold project_step. destruct (negb _); simpl; lia. Qed.

Lemma due_step_counter (row : gmap string pyval) (st : xstate) (i : nat) :
  subject_counter (due_step row st i) <= subject_counter st + 1.
Proof. unfold due_step. destruct (notna _ && negb _); simpl; lia. Qed.

Lemma extract_counter (row : gmap string pyval) :
  subject_counter (extract row) <= 96.
Proof.
  unfold extract.
  set (st0 := {| new_row := direct_mappings row; subject_counter := 1;
                 theory_subjects := []; subject_meta := [] |}).
  pose proof (fold_counter (theory_step row) 2 indices st0
                (theory_step_counter row)) as H1.
  set (st1 := fold_left (theory_step row) indices st0) in *.
  pose proof (fold_counter (practical_step row) 1 indices st1
                (practical_step_counter row)) as H2.
  set (st2 := fold_left (practical_step row) indices st1) in *.
  pose proof (fold_counter (project_step row) 1 indices st2
                (project_step_counter row)) as H3.
  set (st3 := fold_left (project_step row) indices st2) in *.
  pose proof (fold_counter (due_step row) 1 indices st3
                (due_step_counter row)) as H4.
  change (length indices) with 19 in *.
  change (subject_counter st0) with 1 in H1. lia.
Qed.

(** X6: the subjects are numbered 1, 2, ..., n without a gap in the order in
    which they are registered, the counter ends at n + 1, and n is at most
    95: two subjects for each of the 19 theory columns and one for each of
    the 19 practical, project and due columns. *)
Theorem subjects_numbered (row : gmap string pyval) :
  let meta := subject_meta (extract row) in
  map fst meta = seq 1 (length meta)
  /\ subject_counter (extract row) = S (length meta)
  /\ length meta <= 95.
Proof.
  cbv zeta. pose proof (extract_wf row) as Hwf.
  pose proof (wf_meta _ Hwf) as Hm. pose proof (wf_counter _ Hwf) as Hc.
  pose proof (extract_counter row) as Hb.
  assert (Hlen : length (subject_meta (extract row))
                 = subject_counter (extract row) - 1).
  { rewrite <- (length_map fst), Hm. apply length_seq. }
  rewrite Hlen. split; [exact Hm|]. split; lia.
Qed.

End CountFacts.

Section DetectionFacts.
Context {L : PyLib}.

(** A later subject leaves the earlier subjects and their blocks alone. *)
Lemma block_push_keeps (row : gmap string pyval) (st st' : xstate)
    (k : nat) (c : kind) (s : string) :
  blocks_ok row st -> block_push row st st' ->
  In (k, c) (subject_meta st) -> nodigit_head s = true ->
  In (k, c) (subject_meta st')
  /\ new_row st' !! subkey k s = new_row st !! subkey k s.
Proof.
  intros Hok [c' svs rem ths' Hsuf _] Hin Hs.
  cbn [push_subject subject_meta new_row]. split.
  - apply in_or_app. left. exact Hin.
  - pose proof (bo_index _ _ Hok k c Hin) as Hk.
    rewrite lookup_remarks_ne by apply subkey_not_remarks.
    rewrite lookup_assign_sub
      by (try assumption; apply ok_suffix_nodigit; exact Hsuf).
    rewrite (proj2 (Nat.eqb_neq k _)) by lia. reflexivity.
Qed.

Lemma rtc_block_push_keeps (row : gmap string pyval) (st st' : xstate)
    (k : nat) (c : kind) (s : string) :
  blocks_ok row st -> rtc (block_push row) st st' ->
  In (k, c) (subject_meta st) -> nodigit_head s = true ->
  In (k, c) (subject_meta st')
  /\ new_row st' !! subkey k s = new_row st !! subkey k s.
Proof.
  intros Hok H Hin Hs. induction H as [x|x y z Hxy _ IH]; [auto|].
  destruct (block_push_keeps row x y k c s Hok Hxy Hin Hs) as [Hin' E].
  destruct (IH (block_push_ok row x y Hok Hxy) Hin') as [Hin'' E'].
  split; [exact Hin''|]. rewrite E', E. reflexivity.
Qed.

(** The name and code that the theory loop writes for the columns [i]. *)
Lemma theory_subject_names (row : gmap string pyval) (i : nat) (st : xstate) :
  blocks_ok row st ->
  In (subject_counter st, theory) (subject_meta (theory_subject row i st))
  /\ new_row (theory_subject row i st) !! subkey (subject_counter st) "NM"
     = Some (VStr (strip (py_str (get row (fkey "SUB" i "") blank))))
  /\ new_row (theory_subject row i st) !! subkey (subject_counter st) ""
     = Some (VStr (strip (py_str (get row (fkey "COD" i "") blank)))).
Proof.
  intros Hok. unfold theory_subject.
  cbn [push_subject subject_meta new_row]. split.
  - apply in_or_app. right. left. reflexivity.
  - split; (rewrite lookup_assign_sub;
            [rewrite Nat.eqb_refl; destruct (truthy _ && nonblank _); reflexivity
            |reflexivity
            |destruct (truthy _ && nonblank _); reflexivity]).
Qed.

Lemma fold_left_split {A B : Type} (f : A -> B -> A) (l1 l2 : list B) (x : B)
    (a : A) :
  fold_left f (l1 ++ x :: l2) a = fold_left f l2 (f (fold_left f l1 a) x).
Proof. rewrite fold_left_app. reflexivity. Qed.

Lemma theory_fold_detected (row : gmap string pyval) (i : nat) (l : list nat)
    (st : xstate) :
  blocks_ok row st -> In i l ->
  String.eqb (strip (py_str (get row (fkey "TIT" i "") blank))) ""
  && String.eqb (strip (py_str (get row (fkey "SUB" i "") blank))) "" = false ->
  exists k,
    In (k, theory) (subject_meta (fold_left (theory_step row) l st))
    /\ new_row (fold_left (theory_step row) l st) !! subkey k "NM"
       = Some (VStr (strip (py_str (get row (fkey "SUB" i "") blank))))
    /\ new_row (fold_left (theory_step row) l st) !! subkey k ""
       = Some (VStr (strip (py_str (get row (fkey "COD" i "") blank)))).
Proof.
  intros Hok Hin Hdet. apply in_split in Hin. destruct Hin as (l1 & l2 & ->).
  rewrite fold_left_split.
  set (st1 := fold_left (theory_step row) l1 st).
  assert (Hok1 : blocks_ok row st1)
    by (apply (rtc_block_push_ok row st); [exact Hok|];
        apply fold_block, theory_step_block).
  destruct (theory_subject_names row i st1 Hok1) as (Hm & Hnm & Hcode).
  assert (Hok2 : blocks_ok row (theory_subject row i st1))
    by (apply (rtc_block_push_ok row st1); [exact Hok1|];
        apply theory_subject_block).
  assert (Hrest : rtc (block_push row) (theory_subject row i st1)
                    (fold_left (theory_step row) l2 (theory_step row st1 i))).
  { unfold theory_step at 2. rewrite Hdet.
    eapply rtc_trans; [apply legacy_practical_block|].
    apply fold_block, theory_step_block. }
  exists (subject_counter st1).
  destruct (rtc_block_push_keeps row _ _ _ theory "NM" Hok2 Hrest Hm eq_refl)
    as [Hin' E1].
  destruct (rtc_block_push_keeps row _ _ _ theory "" Hok2 Hrest Hm eq_refl)
    as [_ E2].
  split; [exact Hin'|]. rewrite E1, E2. split; assumption.
Qed.

Lemma extract_keeps_theory (row : gmap string pyval) (k : nat) (s : string) :
  let st1 :=
    fold_left (theory_step row) indices
      {| new_row := direct_mappings row; subject_counter := 1;
         theory_subjects := []; subject_meta := [] |} in
  In (k, theory) (subject_meta st1) -> nodigit_head s = true ->
  In (k, theory) (subject_meta (extract row))
  /\ new_row (extract row) !! subkey k s = new_row st1 !! subkey k s.
Proof.
  intros st1 Hin Hs. unfold extract. fold st1.
  apply (rtc_block_push_keeps row st1); try assumption.
  - apply (rtc_block_push_ok row
             {| new_row := direct_mappings row; subject_counter := 1;
                theory_subjects := []; subject_meta := [] |}).
    + constructor; simpl; [lia|intros ? ? []|intros ? ? []|].
      intros ? ? _ _. apply direct_mappings_sub.
    + apply fold_block, theory_step_block.
  - eapply rtc_trans; [apply fold_block, practical_step_block|].
    eapply rtc_trans; [apply fold_block, project_step_block|].
    apply fold_block, due_step_block.
Qed.

(** X7: a theory subject is made for every index from 1 to 19 whose column TIT
    or SUB holds any text after stripping, and keeps the name and the code of
    these columns; the text of a missing value is [nan], so that a missing
    name counts as a name. *)
Theorem theory_subject_detected (row : gmap string pyval) (cfg : scheme)
    (i : nat) :
  In i indices ->
  strip (py_str (get row (fkey "TIT" i "") blank)) <> ""
  \/ strip (py_str (get row (fkey "SUB" i "") blank)) <> "" ->
  exists k,
    In (k, theory) (subject_meta (extract row))
    /\ transform_row row cfg !! subkey k "NM"
       = Some (VStr (strip (py_str (get row (fkey "SUB" i "") blank))))
    /\ transform_row row cfg !! subkey k ""
       = Some (VStr (strip (py_str (get row (fkey "COD" i "") blank)))).
Proof.
  intros Hi Hdet.
  assert (Hb : String.eqb (strip (py_str (get row (fkey "TIT" i "") blank))) ""
               && String.eqb (strip (py_str (get row (fkey "SUB" i "") blank))) ""
               = false).
  { apply andb_false_iff.
    destruct Hdet as [H|H]; [left|right]; apply String.eqb_neq; exact H. }
  destruct (theory_fold_detected row i indices
              {| new_row := direct_mappings row; subject_counter := 1;
                 theory_subjects := []; subject_meta := [] |})
    as (k & Hin & Hnm & Hcode); [|exact Hi|exact Hb|].
  { constructor; simpl; [lia|intros ? ? []|intros ? ? []|].
    intros ? ? _ _. apply direct_mappings_sub. }
  exists k.
  destruct (extract_keeps_theory row k "NM" Hin eq_refl) as [Hin' E1].
  destruct (extract_keeps_theory row k "" Hin eq_refl) as [_ E2].
  split; [exact Hin'|].
  rewrite !transform_row_kept
    by (try reflexivity; simpl; intuition discriminate).
  rewrite E1, E2. split; assumption.
Qed.

End DetectionFacts.

Lemma theory_subject_detected_witness :
  exists k,
    In (k, theory) (subject_meta (extract row_missing_title))
    /\ transform_row row_missing_title scheme1 !! subkey k "NM"
       = Some (VStr (strip (py_str (get row_missing_title (fkey "SUB" 1 "")
                                        blank))))
    /\ transform_row row_missing_title scheme1 !! subkey k ""
       = Some (VStr (strip (py_str (get row_missing_title (fkey "COD" 1 "")
                                        blank)))).
Proof.
  apply (theory_subject_detected row_missing_title scheme1 1).
  - vm_compute. tauto.
  - left. vm_compute. discriminate.
Defined.

(** The missing title makes a subject: it has the empty name of the missing
    column SUB1, the code of COD1, and is graded on its 60 marks. *)
Example missing_title_row :
  subject_meta (extract row_missing_title) = [(1, theory)]
  /\ strip (py_str (get row_missing_title "TIT1" blank)) = "nan"
  /\ transform_row row_missing_title scheme1 !! "SUB1NM" = Some (VStr "")
  /\ transform_row row_missing_title scheme1 !! "SUB1" = Some (VStr "C1")
  /\ transform_row row_missing_title scheme1 !! "SUB1_GRADE" = Some (VStr "B").
Proof. repeat split; vm_compute; reflexivity. Qed.

Section PracticalDetection.
Context {L : PyLib}.

Lemma initial_blocks (row : gmap string pyval) :
  blocks_ok row {| new_row := direct_mappings row; subject_counter := 1;
                   theory_subjects := []; subject_meta := [] |}.
Proof.
  constructor; simpl; [lia|intros ? ? []|intros ? ? []|].
  intros ? ? _ _. apply direct_mappings_sub.
Qed.

(** The kind, name and code that the [CODP] loop gives to the columns [i]. *)
Lemma practical_step_names (row : gmap string pyval) (i : nat) (st : xstate) :
  String.eqb (strip (py_str (get row (fkey "CODP" i "") blank))) ""
  && String.eqb (strip (py_str (get row (fkey "SUBP" i "") blank))) "" = false ->
  let c := if nonblank (get row (fkey "EAP" i "_MAX") blank)
              || nonblank (get row (fkey "IAP" i "_MAX") blank)
              || nonblank (get row (fkey "P" i "_MAX") blank)
           then practical_with_max else practical_no_grace in
  In (subject_counter st, c) (subject_meta (practical_step row st i))
  /\ new_row (practical_step row st i) !! subkey (subject_counter st) "NM"
     = Some (VStr (strip (py_str (get row (fkey "SUBP" i "") blank))))
  /\ new_row (practical_step row st i) !! subkey (subject_counter st) ""
     = Some (VStr (strip (py_str (get row (fkey "CODP" i "") blank)))).
Proof.
  intros Hdet. cbv zeta. unfold practical_step. rewrite Hdet.
  destruct (nonblank _ || nonblank _ || nonblank _);
    cbn [push_subject subject_meta new_row];
    (split; [apply in_or_app; right; left; reflexivity|]);
    split; (rewrite lookup_assign_sub by reflexivity);
    rewrite Nat.eqb_refl; reflexivity.
Qed.

Lemma practical_fold_detected (row : gmap string pyval) (i : nat)
    (l : list nat) (st : xstate) :
  blocks_ok row st -> In i l ->
  String.eqb (strip (py_str (get row (fkey "CODP" i "") blank))) ""
  && String.eqb (strip (py_str (get row (fkey "SUBP" i "") blank))) "" = false ->
  let c := if nonblank (get row (fkey "EAP" i "_MAX") blank)
              || nonblank (get row (fkey "IAP" i "_MAX") blank)
              || nonblank (get row (fkey "P" i "_MAX") blank)
           then practical_with_max else practical_no_grace in
  exists k,
    In (k, c) (subject_meta (fold_left (practical_step row) l st))
    /\ new_row (fold_left (practical_step row) l st) !! subkey k "NM"
       = Some (VStr (strip (py_str (get row (fkey "SUBP" i "") blank))))
    /\ new_row (fold_left (practical_step row) l st) !! subkey k ""
       = Some (VStr (strip (py_str (get row (fkey "CODP" i "") blank)))).
Proof.
  intros Hok Hin Hdet c. apply in_split in Hin. destruct Hin as (l1 & l2 & ->).
  rewrite fold_left_split.
  set (st1 := fold_left (practical_step row) l1 st).
  assert (Hok1 : blocks_ok row st1)
    by (apply (rtc_block_push_ok row st); [exact Hok|];
        apply fold_block, practical_step_block).
  destruct (practical_step_names row i st1 Hdet) as (Hm & Hnm & Hcode).
  fold c in Hm.
  assert (Hok2 : blocks_ok row (practical_step row st1 i))
    by (apply (rtc_block_push_ok row st1); [exact Hok1|];
        apply practical_step_block).
  assert (Hrest : rtc (block_push row) (practical_step row st1 i)
                    (fold_left (practical_step row) l2 (practical_step row st1 i)))
    by (apply fold_block, practical_step_block).
  exists (subject_counter st1).
  destruct (rtc_block_push_keeps row _ _ _ c "NM" Hok2 Hrest Hm eq_refl)
    as [Hin' E1].
  destruct (rtc_block_push_keeps row _ _ _ c "" Hok2 Hrest Hm eq_refl)
    as [_ E2].
  split; [exact Hin'|]. rewrite E1, E2. split; assumption.
Qed.

(** X8: a practical subject is made for every index from 1 to 19 whose column
    CODP or SUBP holds any text after stripping; it is of the kind
    practical_with_max when one of the three maximum columns of the index
    holds a value, and of the kind practical_no_grace otherwise, which decides
    the passing threshold it is graded against. *)
Theorem practical_subject_detected (row : gmap string pyval) (cfg : scheme)
    (i : nat) :
  In i indices ->
  strip (py_str (get row (fkey "CODP" i "") blank)) <> ""
  \/ strip (py_str (get row (fkey "SUBP" i "") blank)) <> "" ->
  let c := if nonblank (get row (fkey "EAP" i "_MAX") blank)
              || nonblank (get row (fkey "IAP" i "_MAX") blank)
              || nonblank (get row (fkey "P" i "_MAX") blank)
           then practical_with_max else practical_no_grace in
  exists k,
    In (k, c) (subject_meta (extract row))
    /\ transform_row row cfg !! subkey k "NM"
       = Some (VStr (strip (py_str (get row (fkey "SUBP" i "") blank))))
    /\ transform_row row cfg !! subkey k ""
       = Some (VStr (strip (py_str (get row (fkey "CODP" i "") blank)))).
Proof.
  intros Hi Hdet c.
  assert (Hb : String.eqb (strip (py_str (get row (fkey "CODP" i "") blank))) ""
               && String.eqb (strip (py_str (get row (fkey "SUBP" i "") blank))) ""
               = false).
  { apply andb_false_iff.
    destruct Hdet as [H|H]; [left|right]; apply String.eqb_neq; exact H. }
  set (st1 := fold_left (theory_step row) indices
                {| new_row := direct_mappings row; subject_counter := 1;
                   theory_subjects := []; subject_meta := [] |}).
  assert (Hok1 : blocks_ok row st1)
    by (apply (rtc_block_push_ok row _ _ (initial_blocks row));
        apply fold_block, theory_step_block).
  destruct (practical_fold_detected row i indices st1 Hok1 Hi Hb)
    as (k & Hin & Hnm & Hcode).
  fold c in Hin.
  set (st2 := fold_left (practical_step row) indices st1) in *.
  assert (Hok2 : blocks_ok row st2)
    by (apply (rtc_block_push_ok row st1 _ Hok1);
        apply fold_block, practical_step_block).
  assert (Hrest : rtc (block_push row) st2 (extract row)).
  { unfold extract. fold st1. fold st2.
    eapply rtc_trans; [apply fold_block, project_step_block|].
    apply fold_block, due_step_block. }
  exists k.
  destruct (rtc_block_push_keeps row _ _ k c "NM" Hok2 Hrest Hin eq_refl)
    as [Hin' E1].
  destruct (rtc_block_push_keeps row _ _ k c "" Hok2 Hrest Hin eq_refl)
    as [_ E2].
  split; [exact Hin'|].
  rewrite !transform_row_kept
    by (try reflexivity; simpl; intuition discriminate).
  rewrite E1, E2. split; assumption.
Qed.

End PracticalDetection.

Lemma practical_subject_detected_witness :
  exists k,
    In (k, practical_no_grace) (subject_meta (extract row_plain_practical))
    /\ transform_row row_plain_practical scheme1 !! subkey k "NM"
       = Some (VStr (strip (py_str (get row_plain_practical (fkey "SUBP" 1 "")
                                        blank))))
    /\ transform_row row_plain_practical scheme1 !! subkey k ""
       = Some (VStr (strip (py_str (get row_plain_practical (fkey "CODP" 1 "")
                                        blank)))).
Proof.
  apply (practical_subject_detected row_plain_practical scheme1 1).
  - vm_compute. tauto.
  - left. vm_compute. discriminate.
Defined.

Section LaterDetection.
Context {L : PyLib}.

(** A subject that one pass of a loop registers with some fields is still
    there, with these fields, when the loop ends. *)
Lemma fold_detected (row : gmap string pyval) (step : xstate -> nat -> xstate)
    (i : nat) (l : list nat) (st : xstate) (c : kind)
    (facts : list (string * pyval)) :
  (forall st j, rtc (block_push row) st (step st j)) ->
  (forall st, In (subject_counter st, c) (subject_meta (step st i))
              /\ forall s v, In (s, v) facts ->
                   new_row (step st i) !! subkey (subject_counter st) s = Some v) ->
  (forall s v, In (s, v) facts -> nodigit_head s = true) ->
  blocks_ok row st -> In i l ->
  exists k,
    In (k, c) (subject_meta (fold_left step l st))
    /\ forall s v, In (s, v) facts ->
                   new_row (fold_left step l st) !! subkey k s = Some v.
Proof.
  intros Hstep Hmade Hdig Hok Hin.
  apply in_split in Hin. destruct Hin as (l1 & l2 & ->).
  rewrite fold_left_split.
  set (st1 := fold_left step l1 st).
  assert (Hok1 : blocks_ok row st1)
    by (apply (rtc_block_push_ok row st); [exact Hok|]; apply fold_block, Hstep).
  destruct (Hmade st1) as [Hm Hf].
  assert (Hok2 : blocks_ok row (step st1 i))
    by (apply (rtc_block_push_ok row st1); [exact Hok1|]; apply Hstep).
  assert (Hrest : rtc (block_push row) (step st1 i)
                    (fold_left step l2 (step st1 i)))
    by (apply fold_block, Hstep).
  exists (subject_counter st1). split.
  - apply (rtc_block_push_keeps row _ _ _ c "" Hok2 Hrest Hm eq_refl).
  - intros s v Hsv.
    destruct (rtc_block_push_keeps row _ _ _ c s Hok2 Hrest Hm (Hdig s v Hsv))
      as [_ E].
    rewrite E. apply Hf. exact Hsv.
Qed.

Lemma theory_fold_blocks (row : gmap string pyval) :
  blocks_ok row
    (fold_left (theory_step row) indices
       {| new_row := direct_mappings row; subject_counter := 1;
          theory_subjects := []; subject_meta := [] |}).
Proof.
  apply (rtc_block_push_ok row _ _ (initial_blocks row)).
  apply fold_block, theory_step_block.
Qed.

(** The name and code that the project loop writes for the columns [i]. *)
Lemma project_step_names (row : gmap string pyval) (i : nat) (st : xstate) :
  negb (negb (String.eqb (strip (py_str (get row (fkey "CODPROJ" i "") blank))) "")
        || negb (String.eqb (strip (py_str (get row (fkey "SUBPROJ" i "") blank))) "")
        || negb (String.eqb (strip (py_str (get row (fkey "IPROJ" i "") blank))) "")
        || negb (String.eqb (strip (py_str (get row (fkey "EPROJ" i "") blank))) ""))
  = false ->
  let name := strip (py_str (get row (fkey "SUBPROJ" i "") blank)) in
  let code := strip (py_str (get row (fkey "CODPROJ" i "") blank)) in
  In (subject_counter st, project) (subject_meta (project_step row st i))
  /\ forall s v,
       In (s, v) [("NM", VStr (if String.eqb name "" then "PROJECT" else name));
                  ("", VStr (if String.eqb code "" then fkey "PROJ" i ""
                             else code));
                  ("_CREDIT", get row (fkey "CHPROJ" i "") blank)] ->
       new_row (project_step row st i) !! subkey (subject_counter st) s = Some v.
Proof.
  intros Hdet. cbv zeta. unfold project_step. rewrite Hdet.
  cbn [push_subject subject_meta new_row].
  split; [apply in_or_app; right; left; reflexivity|].
  intros s v Hsv. simpl in Hsv.
  destruct Hsv as [E|[E|[E|[]]]]; injection E as <- <-;
    (rewrite lookup_assign_sub by reflexivity);
    rewrite Nat.eqb_refl; reflexivity.
Qed.

(** The fields that the due loop writes for the columns [i]. *)
Lemma due_step_names (row : gmap string pyval) (i : nat) (st : xstate) :
  due_detected row i = true ->
  let total := to_numeric (get row (fkey "DPM" i "") blank) in
  let field := if notna (VNum total) then VNum total else blank in
  In (subject_counter st, due) (subject_meta (due_step row st i))
  /\ forall s v,
       In (s, v) [("", VStr (strip (py_str (get row (fkey "DP" i "") VNone))));
                  ("_CREDIT", get row (fkey "DCR" i "") blank);
                  ("_TOT", field); ("_PERCENT", field)] ->
       new_row (due_step row st i) !! subkey (subject_counter st) s = Some v.
Proof.
  intros Hdet. cbv zeta. unfold due_step.
  unfold due_detected in Hdet. cbv zeta in Hdet. rewrite Hdet.
  cbn [push_subject subject_meta new_row].
  split; [apply in_or_app; right; left; reflexivity|].
  intros s v Hsv.
  rewrite lookup_insert_ne
    by (intros E; exact (subkey_not_remarks _ _ (eq_sym E))).
  simpl in Hsv.
  destruct Hsv as [E|[E|[E|[E|[]]]]]; injection E as <- <-;
    (rewrite lookup_assign_sub by reflexivity);
    rewrite Nat.eqb_refl; reflexivity.
Qed.

(** X9: a project subject is made for every index from 1 to 19 whose project
    code, project name, internal marks or external marks hold any text after
    stripping; a project without a name is called PROJECT, one without a code
    gets the code [PROJ] followed by its index, and its credit is the column
    CHPROJ of the index. *)
Theorem project_subject_detected (row : gmap string pyval) (cfg : scheme)
    (i : nat) :
  let name := strip (py_str (get row (fkey "SUBPROJ" i "") blank)) in
  let code := strip (py_str (get row (fkey "CODPROJ" i "") blank)) in
  In i indices ->
  code <> "" \/ name <> ""
  \/ strip (py_str (get row (fkey "IPROJ" i "") blank)) <> ""
  \/ strip (py_str (get row (fkey "EPROJ" i "") blank)) <> "" ->
  exists k,
    In (k, project) (subject_meta (extract row))
    /\ transform_row row cfg !! subkey k "NM"
       = Some (VStr (if String.eqb name "" then "PROJECT" else name))
    /\ transform_row row cfg !! subkey k ""
       = Some (VStr (if String.eqb code "" then fkey "PROJ" i "" else code))
    /\ transform_row row cfg !! subkey k "_CREDIT"
       = Some (get row (fkey "CHPROJ" i "") blank).
Proof.
  intros name code Hi Hdet.
  assert (Hb : negb (negb (String.eqb code "") || negb (String.eqb name "")
                     || negb (String.eqb
                                (strip (py_str (get row (fkey "IPROJ" i "") blank)))
                                "")
                     || negb (String.eqb
                                (strip (py_str (get row (fkey "EPROJ" i "") blank)))
                                "")) = false).
  { apply negb_false_iff.
    destruct Hdet as [H|[H|[H|H]]]; apply String.eqb_neq in H; rewrite H;
      cbn [negb orb]; rewrite ?orb_true_r; reflexivity. }
  set (st2 := fold_left (practical_step row) indices
                (fold_left (theory_step row) indices
                   {| new_row := direct_mappings row; subject_counter := 1;
                      theory_subjects := []; subject_meta := [] |})).
  assert (Hok2 : blocks_ok row st2)
    by (apply (rtc_block_push_ok row _ _ (theory_fold_blocks row));
        apply fold_block, practical_step_block).
  destruct (fold_detected row (project_step row) i indices st2 project _
              (project_step_block row)
              (fun st => project_step_names row i st Hb)) as (k & Hin & Hf);
    [|exact Hok2|exact Hi|].
  { intros s v Hsv. simpl in Hsv.
    destruct Hsv as [E|[E|[E|[]]]]; injection E as <- _; reflexivity. }
  set (st3 := fold_left (project_step row) indices st2) in *.
  assert (Hok3 : blocks_ok row st3)
    by (apply (rtc_block_push_ok row st2 _ Hok2);
        apply fold_block, project_step_block).
  assert (Hrest : rtc (block_push row) st3 (extract row))
    by (unfold extract; fold st2; fold st3; apply fold_block, due_step_block).
  exists k. split.
  - apply (rtc_block_push_keeps row _ _ k project "" Hok3 Hrest Hin eq_refl).
  - rewrite !transform_row_kept
      by (try reflexivity; simpl; intuition discriminate).
    repeat split;
      match goal with
      | |- new_row _ !! subkey _ ?s = _ =>
          destruct (rtc_block_push_keeps row _ _ k project s Hok3 Hrest Hin
                      eq_refl) as [_ ->]
      end; apply Hf; simpl; tauto.
Qed.

(** X10: a due subject is made for every index from 1 to 19 whose column DP
    holds a due paper: it carries the stripped text of DP as its code, the
    column DCR as its credit, and the number read from DPM as its total and as
    its percent, both empty when DPM is not a number. *)
Theorem due_subject_detected (row : gmap string pyval) (cfg : scheme)
    (i : nat) :
  let total := to_numeric (get row (fkey "DPM" i "") blank) in
  let field := if notna (VNum total) then VNum total else blank in
  In i indices -> due_detected row i = true ->
  exists k,
    In (k, due) (subject_meta (extract row))
    /\ transform_row row cfg !! subkey k ""
       = Some (VStr (strip (py_str (get row (fkey "DP" i "") VNone))))
    /\ transform_row row cfg !! subkey k "_CREDIT"
       = Some (get row (fkey "DCR" i "") blank)
    /\ transform_row row cfg !! subkey k "_TOT" = Some field
    /\ transform_row row cfg !! subkey k "_PERCENT" = Some field.
Proof.
  intros total field Hi Hdet.
  set (st3 := fold_left (project_step row) indices
                (fold_left (practical_step row) indices
                   (fold_left (theory_step row) indices
                      {| new_row := direct_mappings row; subject_counter := 1;
                         theory_subjects := []; subject_meta := [] |}))).
  assert (Hok3 : blocks_ok row st3).
  { apply (rtc_block_push_ok row _ _ (theory_fold_blocks row)).
    eapply rtc_trans; [apply fold_block, practical_step_block|].
    apply fold_block, project_step_block. }
  destruct (fold_detected row (due_step row) i indices st3 due _
              (due_step_block row)
              (fun st => due_step_names row i st Hdet)) as (k & Hin & Hf);
    [|exact Hok3|exact Hi|].
  { intros s v Hsv. simpl in Hsv.
    destruct Hsv as [E|[E|[E|[E|[]]]]]; injection E as <- _; reflexivity. }
  exists k. split; [exact Hin|].
  rewrite !transform_row_kept
    by (try reflexivity; simpl; intuition discriminate).
  repeat split; apply Hf; simpl; tauto.
Qed.

End LaterDetection.

Lemma project_subject_detected_witness :
  exists k,
    In (k, project) (subject_meta (extract row_project))
    /\ transform_row row_project scheme1 !! subkey k "NM"
       = Some (VStr (if String.eqb
                          (strip (py_str (get row_project (fkey "SUBPROJ" 1 "")
                                              blank))) ""
                     then "PROJECT"
                     else strip (py_str (get row_project (fkey "SUBPROJ" 1 "")
                                             blank))))
    /\ transform_row row_project scheme1 !! subkey k ""
       = Some (VStr (if String.eqb
                          (strip (py_str (get row_project (fkey "CODPROJ" 1 "")
                                              blank))) ""
                     then fkey "PROJ" 1 ""
                     else strip (py_str (get row_project (fkey "CODPROJ" 1 "")
                                             blank))))
    /\ transform_row row_project scheme1 !! subkey k "_CREDIT"
       = Some (get row_project (fkey "CHPROJ" 1 "") blank).
Proof.
  apply (project_subject_detected row_project scheme1 1).
  - vm_compute. tauto.
  - right. left. vm_compute. discriminate.
Defined.

(** The project gets the code PROJ1; its 160 marks over the default maximum
    of 200 are 80 percent, the grade A. *)
Example project_row :
  subject_meta (extract row_project) = [(1, project)]
  /\ transform_row row_project scheme1 !! "SUB1NM" = Some (VStr "THESIS")
  /\ transform_row row_project scheme1 !! "SUB1" = Some (VStr "PROJ1")
  /\ transform_row row_project scheme1 !! "SUB1_TOTAL_MAX"
     = Some (VNum (fZ 200))
  /\ transform_row row_project scheme1 !! "SUB1_GRADE" = Some (VStr "A").
Proof. repeat split; vm_compute; reflexivity. Qed.

Lemma due_subject_detected_witness :
  exists k,
    In (k, due) (subject_meta (extract row_two_dues))
    /\ transform_row row_two_dues scheme1 !! subkey k ""
       = Some (VStr (strip (py_str (get row_two_dues (fkey "DP" 2 "") VNone))))
    /\ transform_row row_two_dues scheme1 !! subkey k "_CREDIT"
       = Some (get row_two_dues (fkey "DCR" 2 "") blank)
    /\ transform_row row_two_dues scheme1 !! subkey k "_TOT"
       = Some (if notna (VNum (to_numeric (get row_two_dues (fkey "DPM" 2 "")
                                               blank)))
               then VNum (to_numeric (get row_two_dues (fkey "DPM" 2 "") blank))
               else blank)
    /\ transform_row row_two_dues scheme1 !! subkey k "_PERCENT"
       = Some (if notna (VNum (to_numeric (get row_two_dues (fkey "DPM" 2 "")
                                               blank)))
               then VNum (to_numeric (get row_two_dues (fkey "DPM" 2 "") blank))
               else blank).
Proof.
  apply (due_subject_detected row_two_dues scheme1 2).
  - vm_compute. tauto.
  - vm_compute. reflexivity.
Defined.

Section BlockClaims.
Context {L : PyLib} {HL : PyLibLaws L}.

(** No annotation is written for an index that is not a subject. *)
Lemma grace_phase_outside (cfg : scheme) (row : gmap string pyval)
    (st : xstate) (k : nat) :
  wf_state st -> ~ In k (map fst (subject_meta st)) ->
  g_row (grace_phase cfg row st) !! subkey k "_GRACE" = None.
Proof.
  intros Hwf Hk.
  assert (Hnot : ~ In (k, theory) (subject_meta st))
    by (intros H; apply Hk; apply (in_map fst) in H; exact H).
  assert (Hinit : init_grace (subject_meta st) (new_row st) !! subkey k "_GRACE"
                  = None).
  { rewrite init_grace_absent by exact Hnot. apply (wf_no_grace st Hwf). }
  unfold grace_phase. destruct (allow_grace cfg row && fle _ _); [|exact Hinit].
  rewrite distribute_other; [exact Hinit|].
  intros t Ht E. apply subkey_grace_inj in E. apply Hnot. rewrite E.
  apply (wf_theory st Hwf). apply (failed_subjects_incl cfg). exact Ht.
Qed.

Lemma meta_index_range (row : gmap string pyval) (k : nat) :
  In k (map fst (subject_meta (extract row)))
  <-> 1 <= k <= length (subject_meta (extract row)).
Proof.
  pose proof (extract_wf row) as Hwf.
  assert (Hlen : length (subject_meta (extract row))
                 = subject_counter (extract row) - 1).
  { rewrite <- (length_map fst), (wf_meta _ Hwf). apply length_seq. }
  rewrite (wf_meta _ Hwf), in_seq, Hlen. lia.
Qed.

Lemma meta_index_kind (meta : list (nat * kind)) (k : nat) :
  In k (map fst meta) -> exists c, In (k, c) meta.
Proof.
  intros H. apply in_map_iff in H. destruct H as ([j c] & <- & Hin).
  exists c. exact Hin.
Qed.

(** The fields of a block that the subject loops write, read on the output. *)
Lemma block_fields_output (row : gmap string pyval) (cfg : scheme)
    (k : nat) (c : kind) :
  In (k, c) (subject_meta (extract row)) ->
  block_fields row c k (fun s => transform_row row cfg !! subkey k s).
Proof.
  intros Hin. pose proof (bo_fields _ _ (extract_blocks row) k c Hin) as Hb.
  revert Hb. apply block_fields_ext. intros s Hs Hnot.
  apply transform_row_kept; assumption.
Qed.

(** X11: the output holds a block for each of the subjects 1 to n, with a name,
    a code, a total, a percent, a credit, a grace annotation, a grade, grade
    points and credit points, and no field of a block under any other index.
    *)
Theorem subject_blocks_complete (row : gmap string pyval) (cfg : scheme)
    (k : nat) :
  let out := transform_row row cfg in
  let n := length (subject_meta (extract row)) in
  (1 <= k <= n ->
   forall s, In s block_suffixes -> is_Some (out !! subkey k s))
  /\ (~ (1 <= k <= n) ->
      forall s, nodigit_head s = true -> out !! subkey k s = None).
Proof.
  cbv zeta. split.
  - intros Hk s Hs. apply meta_index_range, meta_index_kind in Hk.
    destruct Hk as [c Hin].
    destruct (block_fields_output row cfg k c Hin)
      as ((nm & code & Hnm & Hcode) & Htot & Hcr & Hp & _ & _).
    destruct (transform_row_graded row cfg k c Hin) as [H1 H2 H3 H4].
    simpl in Hs.
    destruct Hs as [<-|[<-|[<-|[<-|[<-|[<-|[<-|[<-|[<-|[]]]]]]]]]];
      try (eexists; eassumption); try assumption.
    destruct Hp as [[p Hp]|[_ Hp]]; eexists; exact Hp.
  - intros Hk s Hs. rewrite <- meta_index_range in Hk.
    unfold transform_row, grade_all.
    rewrite finish_sub, grade_fold_block by assumption. cbn [c_row].
    destruct (String.eqb s "_GRACE") eqn:E.
    + apply String.eqb_eq in E. subst s.
      apply grace_phase_outside; [apply extract_wf|exact Hk].
    + apply String.eqb_neq in E. rewrite grace_phase_other.
      * apply (bo_closed _ _ (extract_blocks row)); [|exact Hs].
        pose proof (extract_wf row) as Hwf.
        rewrite (wf_meta _ Hwf), in_seq in Hk.
        pose proof (wf_counter _ Hwf). lia.
      * intros j Ej. apply subkey_inj in Ej; [|exact Hs|reflexivity].
        destruct Ej as [_ Ej]. contradiction.
Qed.

Lemma grade_of_number (x : pyfloat) (is_practical : bool) (cfg : option scheme) :
  In (fst (compute_grade_and_points (VNum x) is_practical cfg)) grade_letters.
Proof.
  unfold compute_grade_and_points. rewrite number_not_AB.
  cbn [py_float]. cbv zeta.
  repeat match goal with
         | |- context [if fge x ?c then _ else _] => destruct (fge x c)
         end; simpl; tauto.
Qed.

Lemma grade_of_blank (is_practical : bool) (cfg : option scheme) :
  compute_grade_and_points blank is_practical cfg = ("", 0%Z).
Proof.
  unfold compute_grade_and_points. cbn [py_str blank py_float].
  change (String.eqb (upper (strip "")) "AB") with false. cbv iota.
  rewrite float_of_string_empty. reflexivity.
Qed.

Lemma graded_percent_number (m : gmap string pyval) (k : nat) (c : kind)
    (p : pyfloat) :
  m !! subkey k "_PERCENT" = Some (VNum p) ->
  exists x, graded_percent m k c = VNum x.
Proof.
  intros Hp. unfold graded_percent, percent_with_grace, get. rewrite Hp.
  cbn [default from_option id py_float].
  destruct (kind_eqb c theory && fgt _ _); [|eauto].
  destruct (py_float (default (VNum (fZ 100)) (m !! subkey k "_TH_MAX")))
    as [th|]; cbn [mbind option_bind default from_option id]; [|eauto].
  destruct (py_float (default (VNum (fZ 0)) (m !! subkey k "_CE_MAX")))
    as [ce|]; cbn [mbind option_bind default from_option id]; [|eauto].
  destruct (py_div _ _) as [r|]; cbn [mbind option_bind default from_option id];
    eauto.
Qed.

Lemma graded_percent_blank (m : gmap string pyval) (k : nat) (c : kind) :
  m !! subkey k "_PERCENT" = Some blank -> c <> theory ->
  graded_percent m k c = blank.
Proof.
  intros Hp Hc. unfold graded_percent, get. rewrite Hp.
  destruct c; try reflexivity. contradiction.
Qed.

Lemma percent_before_grading (row : gmap string pyval) (cfg : scheme) (k : nat) :
  g_row (grace_phase cfg row (extract row)) !! subkey k "_PERCENT"
  = transform_row row cfg !! subkey k "_PERCENT".
Proof.
  rewrite transform_row_kept
    by (try reflexivity; simpl; intuition discriminate).
  apply grace_phase_other. intros j E.
  apply subkey_inj in E; [|reflexivity..]. destruct E as [_ E]. discriminate E.
Qed.

(** X12: every subject gets one of the eight letters of the table, or the
    empty grade when it is a practical of the old format or a due paper
    without numeric marks; no subject ever gets the grade AB. *)
Theorem grades_are_letters (row : gmap string pyval) (cfg : scheme)
    (k : nat) (c : kind) :
  In (k, c) (subject_meta (extract row)) ->
  exists g,
    transform_row row cfg !! subkey k "_GRADE" = Some (VStr g)
    /\ (In g grade_letters \/ (c = practical \/ c = due) /\ g = "")
    /\ g <> "AB".
Proof.
  intros Hin.
  destruct (transform_row_graded row cfg k c Hin) as [_ H2 _ _].
  destruct (block_fields_output row cfg k c Hin) as (_ & _ & _ & Hp & _ & _).
  rewrite <- percent_before_grading in Hp.
  eexists. split; [exact H2|].
  assert (Hg : In (fst (compute_grade_and_points
                          (graded_percent
                             (g_row (grace_phase cfg row (extract row))) k c)
                          (is_practical_for_grading c) (Some cfg)))
                  grade_letters
               \/ (c = practical \/ c = due)
                  /\ fst (compute_grade_and_points
                            (graded_percent
                               (g_row (grace_phase cfg row (extract row))) k c)
                            (is_practical_for_grading c) (Some cfg)) = "").
  { destruct Hp as [[p Hp]|[Hc Hp]].
    - destruct (graded_percent_number _ k c p Hp) as [x ->].
      left. apply grade_of_number.
    - right. split; [exact Hc|].
      rewrite graded_percent_blank, grade_of_blank;
        [reflexivity|exact Hp|destruct Hc; subst c; discriminate]. }
  split; [exact Hg|].
  destruct Hg as [Hg|[_ ->]]; [|discriminate].
  intros E. rewrite E in Hg. simpl in Hg. intuition discriminate.
Qed.

(** X13: the credit of a theory subject, and of the practical that follows
    one, is read from the input column [CH] numbered by the subject's index in
    the output, not by the index of the input columns it was found in. *)
Theorem credit_column_by_output_index (row : gmap string pyval) (cfg : scheme)
    (k : nat) (c : kind) :
  In (k, c) (subject_meta (extract row)) -> c = theory \/ c = practical ->
  transform_row row cfg !! subkey k "_CREDIT"
  = Some (get row (fkey "CH" k "") blank).
Proof.
  intros Hin Hc.
  destruct (block_fields_output row cfg k c Hin) as (_ & _ & _ & _ & H & _).
  exact (H Hc).
Qed.

(** X14: the fields fixed by the kind of a subject, read on the output: the
    maxima 70 and 30 and the total as percent for a practical without maximum
    columns; the constant maxima 150 and 50 of a project; the fixed name of a
    due paper, which has no marks column at all. *)
Theorem blocks_by_kind (row : gmap string pyval) (cfg : scheme)
    (k : nat) (c : kind) :
  In (k, c) (subject_meta (extract row)) ->
  kind_fields c (fun s => transform_row row cfg !! subkey k s).
Proof.
  intros Hin.
  destruct (block_fields_output row cfg k c Hin) as (_ & _ & _ & _ & _ & H).
  exact H.
Qed.

End BlockClaims.

Lemma subject_blocks_complete_witness :
  is_Some (transform_row row_gap scheme1 !! subkey 2 "_GRADE")
  /\ transform_row row_gap scheme1 !! subkey 3 "_GRADE" = None.
Proof.
  destruct (subject_blocks_complete row_gap scheme1 2) as [H2 _].
  destruct (subject_blocks_complete row_gap scheme1 3) as [_ H3].
  split.
  - apply H2; [vm_compute; lia|vm_compute; tauto].
  - apply H3; [vm_compute; lia|reflexivity].
Defined.

Lemma blocks_by_kind_witness :
  kind_fields practical_no_grace
    (fun s => transform_row row_plain_practical scheme1 !! subkey 1 s).
Proof.
  apply (blocks_by_kind row_plain_practical scheme1 1 practical_no_grace).
  vm_compute. left. reflexivity.
Defined.

Lemma credit_column_by_output_index_witness :
  transform_row row_gap scheme1 !! subkey 2 "_CREDIT"
  = Some (get row_gap (fkey "CH" 2 "") blank).
Proof.
  apply (credit_column_by_output_index row_gap scheme1 2 theory).
  - vm_compute. right. left. reflexivity.
  - left. reflexivity.
Defined.

(** The second subject of the output comes from the input columns 3, whose
    credit column CH3 holds 3; its credit is the 9 of the column CH2. *)
Example gap_row :
  subject_meta (extract row_gap) = [(1, theory); (2, theory)]
  /\ transform_row row_gap scheme1 !! "SUB2" = Some (VStr "C3")
  /\ row_gap !! "CH3" = Some (VStr "3")
  /\ transform_row row_gap scheme1 !! "SUB2_CREDIT" = Some (VStr "9").
Proof. repeat split; vm_compute; reflexivity. Qed.

Lemma grades_are_letters_witness :
  exists g,
    transform_row row_two_dues scheme1 !! subkey 3 "_GRADE" = Some (VStr g)
    /\ (In g grade_letters \/ (due = practical \/ due = due) /\ g = "")
    /\ g <> "AB".
Proof.
  apply (grades_are_letters row_two_dues scheme1 3 due).
  vm_compute. right. right. left. reflexivity.
Defined.

(* ===================================================================== *)
(** ** Remarks *)
(* ===================================================================== *)

Section RemarkFacts.
Context {L : PyLib}.

Lemma theory_step_remarks (row : gmap string pyval) (st : xstate) (i : nat) :
  new_row (theory_step row st i) !! "REMARKS" = new_row st !! "REMARKS".
Proof.
  unfold theory_step. destruct (String.eqb _ _ && String.eqb _ _); [reflexivity|].
  unfold legacy_practical. destruct (notna _ && negb _).
  - cbn [new_row push_subject]. rewrite lookup_assign_sub_plain by exact I.
    unfold theory_subject. cbn [new_row push_subject].
    apply lookup_assign_sub_plain. exact I.
  - unfold theory_subject. cbn [new_row push_subject].
    apply lookup_assign_sub_plain. exact I.
Qed.

Lemma practical_step_remarks (row : gmap string pyval) (st : xstate) (i : nat) :
  new_row (practical_step row st i) !! "REMARKS" = new_row st !! "REMARKS".
Proof.
  unfold practical_step.
  destruct (String.eqb _ _ && String.eqb _ _); [reflexivity|].
  destruct (nonblank _ || nonblank _ || nonblank _);
    cbn [new_row push_subject]; apply lookup_assign_sub_plain; exact I.
Qed.

Lemma project_step_remarks (row : gmap string pyval) (st : xstate) (i : nat) :
  new_row (project_step row st i) !! "REMARKS" = new_row st !! "REMARKS".
Proof.
  unfold project_step. destruct (negb _); [reflexivity|].
  cbn [new_row push_subject]. apply lookup_assign_sub_plain. exact I.
Qed.

Lemma fold_remarks (step : xstate -> nat -> xstate) (l : list nat) (st : xstate) :
  (forall st i, new_row (step st i) !! "REMARKS" = new_row st !! "REMARKS") ->
  new_row (fold_left step l st) !! "REMARKS" = new_row st !! "REMARKS".
Proof.
  intros Hstep. revert st. induction l as [|i l IH]; intros st; [reflexivity|].
  simpl. rewrite IH. apply Hstep.
Qed.

Lemma due_step_remarks (row : gmap string pyval) (st : xstate) (i : nat) :
  new_row (due_step row st i) !! "REMARKS"
  = if due_detected row i then Some (get row (fkey "DPR" i "") blank)
    else new_row st !! "REMARKS".
Proof.
  unfold due_step, due_detected. cbv zeta.
  destruct (notna _ && negb _); [|reflexivity].
  cbn [new_row push_subject]. apply lookup_insert_eq.
Qed.

Lemma due_fold_remarks (row : gmap string pyval) (l : list nat) (st : xstate) :
  new_row (fold_left (due_step row) l st) !! "REMARKS"
  = match last (List.filter (due_detected row) l) with
    | Some i => Some (get row (fkey "DPR" i "") blank)
    | None => new_row st !! "REMARKS"
    end.
Proof.
  revert st. induction l as [|i l IH]; intros st; [reflexivity|].
  cbn [fold_left List.filter]. rewrite IH, due_step_remarks.
  destruct (due_detected row i); [|reflexivity].
  rewrite last_cons. destruct (last _); reflexivity.
Qed.

Lemma direct_mappings_remarks (row : gmap string pyval) :
  direct_mappings row !! "REMARKS" = None.
Proof.
  unfold direct_mappings, assign. cbv beta zeta.
  destruct (has_char _ _); cbn [app fold_left fst snd];
    rewrite !lookup_insert_ne by discriminate; apply lookup_empty.
Qed.

(** A record-level field that the grace, grading and result parts leave as
    the subject loops wrote it. *)
Lemma transform_row_record_field (row : gmap string pyval) (cfg : scheme)
    (key : string) :
  plain_key key -> ~ In key result_keys ->
  transform_row row cfg !! key = new_row (extract row) !! key.
Proof.
  intros Hp Hk. unfold transform_row, grade_all.
  rewrite finish_other by exact Hk.
  rewrite grade_fold_plain by exact Hp. cbn [c_row].
  apply grace_phase_other. intros j E.
  exact (plain_key_ne key _ _ Hp (eq_sym E)).
Qed.

(** X15: the output field REMARKS is the column [DPR] of the last due paper
    found; a record without a due paper has no field REMARKS, and the remarks
    of earlier due papers are overwritten. *)
Theorem remarks_from_last_due (row : gmap string pyval) (cfg : scheme) :
  transform_row row cfg !! "REMARKS"
  = (fun i => get row (fkey "DPR" i "") blank)
      <$> last (List.filter (due_detected row) indices).
Proof.
  rewrite transform_row_record_field
    by (try exact I; simpl; intuition discriminate).
  unfold extract. rewrite due_fold_remarks.
  destruct (last _) as [i|]; [reflexivity|]. cbn [fmap option_fmap option_map].
  rewrite (fold_remarks _ _ _ (project_step_remarks row)).
  rewrite (fold_remarks _ _ _ (practical_step_remarks row)).
  rewrite (fold_remarks _ _ _ (theory_step_remarks row)).
  apply direct_mappings_remarks.
Qed.

End RemarkFacts.

(** The due paper marked AB gets the empty grade, not the grade AB, and the
    remark of the record is the one of the second due paper. *)
Example two_dues_row :
  subject_meta (extract row_two_dues) = [(1, theory); (2, due); (3, due)]
  /\ transform_row row_two_dues scheme1 !! "SUB3_GRADE" = Some (VStr "")
  /\ transform_row row_two_dues scheme1 !! "SUB2_GRADE" = Some (VStr "C+")
  /\ transform_row row_two_dues scheme1 !! "REMARKS" = Some (VStr "SECOND").
Proof. repeat split; vm_compute; reflexivity. Qed.

(* ===================================================================== *)
(** ** Grace and grade points *)
(* ===================================================================== *)

Lemma fle_fadd_nonneg (p : pyfloat) (n : Z) :
  p <> NaN -> (0 <= n)%Z -> fle p (fadd p (fZ n)) = true.
Proof.
  intros Hp Hn. destruct p as [q| | |]; try reflexivity; [|congruence].
  simpl. apply Qle_bool_iff.
  assert (H : (inject_Z 0 <= inject_Z n)%Q) by (rewrite <- Zle_Qle; exact Hn).
  change (inject_Z 0) with 0%Q in H. lra.
Qed.

Lemma fle_fge_trans (p q c : pyfloat) :
  fle p q = true -> fge p c = true -> fge q c = true.
Proof.
  unfold fge.
  destruct p as [x| | |], q as [y| | |], c as [z| | |]; simpl;
    try discriminate; try reflexivity.
  intros H1 H2. apply Qle_bool_iff in H1, H2. apply Qle_bool_iff. lra.
Qed.






Section GraceOrder.
Context {L : PyLib} {HL : PyLibLaws L}.

(** The bands are tested from the top, so a larger number stops at a band
    that is at least as high. *)
Ltac band_order p q Ht :=
  repeat match goal with
         | |- context [fge p ?c] =>
             let E := fresh "E" in
             destruct (fge p c) eqn:E; [rewrite (Ht c E)|]
         end;
  repeat match goal with
         | |- context [fge q ?c] => destruct (fge q c)
         end; cbn [snd]; lia.

Lemma grade_points_le (p q : pyfloat) (is_practical : bool)
    (cfg : option scheme) :
  fle p q = true ->
  (snd (compute_grade_and_points (VNum p) is_practical cfg)
   <= snd (compute_grade_and_points (VNum q) is_practical cfg))%Z.
Proof.
  intros Hle. unfold compute_grade_and_points.
  rewrite !number_not_AB. cbn [py_float]. cbv zeta.
  pose proof (fun c => fle_fge_trans p q c Hle) as Ht.
  generalize (fZ (if is_practical then practical_passing (default scheme1 cfg)
                  else theory_passing (default scheme1 cfg))).
  intros t. band_order p q Ht.
Qed.

(** X16: the grade points never fall when the percent rises, whatever the
    scheme and the kind of subject: of two numbers the one that is not smaller
    gets at least as many points. *)
Theorem grade_points_monotone (p q : pyfloat) (is_practical : bool)
    (cfg : option scheme) :
  fle p q = true ->
  (snd (compute_grade_and_points (VNum p) is_practical cfg)
   <= snd (compute_grade_and_points (VNum q) is_practical cfg))%Z.
Proof.
  intros Hle.
  assert (Ht : forall c, fge p c = true -> fge q c = true)
    by (intros c; apply fle_fge_trans; exact Hle).
  unfold compute_grade_and_points.
  rewrite !number_not_AB. cbn [py_float]. cbv zeta.
  set (t := fZ (if is_practical then practical_passing (default scheme1 cfg)
                else theory_passing (default scheme1 cfg))).
  clearbody t. band_order p q Ht.
Qed.

(** X17: grace never costs grade points: a theory subject is graded with at
    least the points that its PERCENT field alone would give. *)
Theorem grace_never_lowers_grade (row : gmap string pyval) (cfg : scheme)
    (k : nat) :
  In (k, theory) (subject_meta (extract row)) ->
  let out := transform_row row cfg in
  exists gp,
    out !! subkey k "_GRADE_POINTS" = Some (VNum (fZ gp))
    /\ (snd (compute_grade_and_points (get out (subkey k "_PERCENT") blank)
               false (Some cfg)) <= gp)%Z.
Proof.
  intros Hin. cbv zeta.
  destruct (transform_row_graded row cfg k theory Hin) as [_ _ H3 _].
  change (is_practical_for_grading theory) with false in H3.
  destruct (grace_read row cfg k) as (n & Hn & En).
  destruct (theory_block_output row cfg k Hin) as (t & m & _ & Hp & Hmax).
  assert (Hkept : forall s, In s ["_TH_MAX"; "_CE_MAX"; "_PERCENT"] ->
            g_row (grace_phase cfg row (extract row)) !! subkey k s
            = transform_row row cfg !! subkey k s).
  { intros s Hs.
    assert (Hd : nodigit_head s = true)
      by (simpl in Hs; intuition (subst; reflexivity)).
    assert (Hnot : ~ In s graded_suffixes)
      by (intros Hg; simpl in Hs, Hg; intuition (subst; discriminate)).
    rewrite transform_row_kept by assumption.
    apply grace_phase_other. intros j E.
    apply subkey_inj in E; [|exact Hd|reflexivity].
    destruct E as [_ ->]. apply Hnot. left. reflexivity. }
  eexists. split; [exact H3|].
  unfold get at 1. rewrite Hp. cbn [default from_option id].
  destruct Hmax as [[Hth _]|(Hth & Hce & _)].
  - rewrite <- Hkept in Hth, Hp by (simpl; tauto).
    rewrite (graded_percent_override _ k n En Hth).
    unfold get. rewrite Hp. cbn [default from_option id]. lia.
  - rewrite <- Hkept in Hth, Hce, Hp by (simpl; tauto).
    rewrite (graded_percent_default _ k n _ false (Some cfg) En Hth Hce Hp Hn).
    destruct (percent_of t m (fZ 0)) as [q| | |] eqn:Eq;
      try (apply grade_points_le; apply fle_fadd_nonneg;
           [discriminate|exact Hn]).
    cbn [fadd]. lia.
Qed.

End GraceOrder.

Section GraceFull.
Context {L : PyLib}.




End GraceFull.

Lemma grade_points_monotone_witness :
  (snd (compute_grade_and_points (VNum (Fin 35)) false (Some scheme1))
   <= snd (compute_grade_and_points (VNum (Fin 36)) false (Some scheme1)))%Z.
Proof.
  apply (grade_points_monotone (Fin 35) (Fin 36) false (Some scheme1)).
  reflexivity.
Defined.


Lemma grace_never_lowers_grade_witness :
  exists gp,
    transform_row row_half_marks scheme1 !! subkey 1 "_GRADE_POINTS"
    = Some (VNum (fZ gp))
    /\ (snd (compute_grade_and_points
               (get (transform_row row_half_marks scheme1)
                    (subkey 1 "_PERCENT") blank)
               false (Some scheme1)) <= gp)%Z.
Proof.
  apply (grace_never_lowers_grade row_half_marks scheme1 1).
  vm_compute. left. reflexivity.
Defined.

(* ===================================================================== *)
(** ** Credit totals *)
(* ===================================================================== *)

Section TotalFacts.
Context {L : PyLib} {HL : PyLibLaws L}.

Lemma credit_of_grade_step (cfg : scheme) (cs : cstate) (e : nat * kind)
    (k : nat) :
  credit_of (c_row (grade_step cfg cs e)) k = credit_of (c_row cs) k.
Proof.
  unfold credit_of, get. rewrite grade_step_other; [reflexivity|].
  intros s Hs E.
  apply subkey_inj in E; [|reflexivity|apply graded_suffix_nodigit; exact Hs].
  destruct E as [_ <-]. simpl in Hs. intuition discriminate.
Qed.

Lemma grade_step_sums (cfg : scheme) (cs : cstate) (e : nat * kind) :
  total_credits (grade_step cfg cs e)
  = fadd (total_credits cs) (credit_of (c_row cs) (fst e))
  /\ total_credit_points (grade_step cfg cs e)
     = fadd (total_credit_points cs)
            (fmul (fZ (snd (compute_grade_and_points
                              (graded_percent (c_row cs) (fst e) (snd e))
                              (is_practical_for_grading (snd e)) (Some cfg)))) (credit_of (c_row cs) (fst e))).
Proof.
  unfold grade_step.
  destruct (compute_grade_and_points _ _ _) as [grade gp].
  cbn [total_credits total_credit_points snd].
  rewrite credit_after_grace. split; reflexivity.
Qed.

Lemma grade_fold_sums (cfg : scheme) (meta : list (nat * kind)) (cs : cstate) :
  NoDup (map fst meta) ->
  total_credits (fold_left (grade_step cfg) meta cs)
  = fold_left fadd (map (fun e => credit_of (c_row cs) (fst e)) meta)
              (total_credits cs)
  /\ total_credit_points (fold_left (grade_step cfg) meta cs)
     = fold_left fadd
         (map (fun e => fmul (fZ (snd (compute_grade_and_points
                              (graded_percent (c_row cs) (fst e) (snd e))
                              (is_practical_for_grading (snd e)) (Some cfg))))
                             (credit_of (c_row cs) (fst e))) meta)
         (total_credit_points cs).
Proof.
  revert cs. induction meta as [|e meta IH]; intros cs Hnd; [split; reflexivity|].
  cbn [map] in Hnd. apply NoDup_cons in Hnd. destruct Hnd as [He Hnd].
  rewrite list_elem_of_In in He.
  cbn [fold_left map]. destruct (IH (grade_step cfg cs e) Hnd) as [E1 E2].
  destruct (grade_step_sums cfg cs e) as [S1 S2].
  rewrite E1, E2, S1, S2. split.
  - f_equal. apply map_ext. intros e'. apply credit_of_grade_step.
  - f_equal. apply map_ext_in. intros e' Hin.
    rewrite credit_of_grade_step.
    rewrite (graded_percent_block (fst e') (snd e') (c_row cs)); [reflexivity|].
    apply grade_step_block_eq. intros E. apply He. rewrite E.
    apply in_map. exact Hin.
Qed.

Lemma credit_before_grading (row : gmap string pyval) (cfg : scheme) (k : nat) :
  credit_of (transform_row row cfg) k
  = credit_of (g_row (grace_phase cfg row (extract row))) k.
Proof.
  unfold credit_of, get. do 3 f_equal.
  rewrite transform_row_kept
    by (try reflexivity; simpl; intuition discriminate).
  symmetry. apply grace_phase_other. intros j E.
  apply subkey_inj in E; [|reflexivity..]. destruct E as [_ E]. discriminate E.
Qed.

(** X19: the credit points of a subject are its grade points times its credit,
    the credit counting as zero when it is not a number; the grade points are
    between 0 and 10. *)
Theorem credit_points_product (row : gmap string pyval) (cfg : scheme)
    (k : nat) (c : kind) :
  In (k, c) (subject_meta (extract row)) ->
  let out := transform_row row cfg in
  exists gp,
    (0 <= gp <= 10)%Z
    /\ out !! subkey k "_GRADE_POINTS" = Some (VNum (fZ gp))
    /\ out !! subkey k "_CREDIT_POINTS"
       = Some (VNum (fmul (fZ gp) (credit_of out k))).
Proof.
  intros Hin. cbv zeta.
  destruct (transform_row_graded row cfg k c Hin) as [_ _ H3 H4].
  eexists. split; [|split; [exact H3|]].
  - apply compute_grade_points_range.
  - rewrite credit_before_grading. exact H4.
Qed.

Lemma grade_all_sums (cfg : scheme) (meta : list (nat * kind))
    (m : gmap string pyval) :
  NoDup (map fst meta) ->
  finish cfg (grade_all cfg meta m) !! "TOT_CREDIT"
  = Some (VNum (if fgt (fsum (map (fun e => credit_of m (fst e)) meta)) (fZ 0)
                then fsum (map (fun e => credit_of m (fst e)) meta)
                else fZ 0))
  /\ finish cfg (grade_all cfg meta m) !! "TOT_CREDIT_POINTS"
     = Some (VNum (if fgt (fsum (map (fun e => credit_of m (fst e)) meta)) (fZ 0)
                   then fsum (map (fun e => fmul (fZ (snd (compute_grade_and_points
                              (graded_percent m (fst e) (snd e))
                              (is_practical_for_grading (snd e)) (Some cfg))))
                                                 (credit_of m (fst e))) meta)
                   else fZ 0)).
Proof.
  intros Hnd.
  destruct (finish_fields cfg (grade_all cfg meta m))
    as (_ & _ & _ & E1 & E2 & _).
  rewrite E1, E2. unfold grade_all.
  destruct (grade_fold_sums cfg meta
              {| c_row := m; total_credits := fZ 0;
                 total_credit_points := fZ 0 |} Hnd) as [S1 S2].
  cbn [c_row total_credits total_credit_points] in S1, S2.
  rewrite S1, S2. split; reflexivity.
Qed.

Lemma Forall2_map_both {A B C : Type} (P : B -> C -> Prop) (f : A -> B)
    (g : A -> C) (l : list A) :
  (forall x, In x l -> P (f x) (g x)) -> Forall2 P (map f l) (map g l).
Proof.
  induction l as [|x l IH]; intros H; [constructor|].
  cbn [map]. constructor; [apply H; left; reflexivity|].
  apply IH. intros y Hy. apply H. right. exact Hy.
Qed.

Lemma transform_row_eq (row : gmap string pyval) (cfg : scheme) :
  transform_row row cfg
  = finish cfg (grade_all cfg (subject_meta (extract row))
                          (g_row (grace_phase cfg row (extract row)))).
Proof. reflexivity. Qed.

Lemma credits_before_grading (row : gmap string pyval) (cfg : scheme)
    (meta : list (nat * kind)) :
  map (credit_of (transform_row row cfg)) (map fst meta)
  = map (fun e => credit_of (g_row (grace_phase cfg row (extract row))) (fst e))
        meta.
Proof.
  induction meta as [|e meta IH]; [reflexivity|].
  cbn [map]. rewrite IH, credit_before_grading. reflexivity.
Qed.

(** X20: TOT_CREDIT is the sum of the credits of the subjects and
    TOT_CREDIT_POINTS the sum of their credit points, both taken in subject
    order, when the sum of the credits is above zero; both are 0 otherwise. *)
Theorem totals_are_sums (row : gmap string pyval) (cfg : scheme) :
  let out := transform_row row cfg in
  let ks := map fst (subject_meta (extract row)) in
  exists cps,
    Forall2 (fun k cp => out !! subkey k "_CREDIT_POINTS" = Some (VNum cp))
            ks cps
    /\ let tc := fsum (map (credit_of out) ks) in
       out !! "TOT_CREDIT" = Some (VNum (if fgt tc (fZ 0) then tc else fZ 0))
       /\ out !! "TOT_CREDIT_POINTS"
          = Some (VNum (if fgt tc (fZ 0) then fsum cps else fZ 0)).
Proof.
  cbv zeta.
  exists (map (fun e => fmul (fZ (snd (compute_grade_and_points
                              (graded_percent (g_row (grace_phase cfg row (extract row))) (fst e) (snd e))
                              (is_practical_for_grading (snd e)) (Some cfg))))
                             (credit_of
                                (g_row (grace_phase cfg row (extract row)))
                                (fst e)))
              (subject_meta (extract row))).
  split.
  - apply Forall2_map_both. intros e Hin.
    assert (Hin' : In (fst e, snd e) (subject_meta (extract row)))
      by (destruct e; exact Hin).
    destruct (transform_row_graded row cfg (fst e) (snd e) Hin')
      as [_ _ _ H4].
    exact H4.
  - rewrite credits_before_grading, transform_row_eq.
    exact (grade_all_sums cfg (subject_meta (extract row))
             (g_row (grace_phase cfg row (extract row)))
             (NoDup_meta _ (extract_wf row))).
Qed.

End TotalFacts.

Lemma credit_points_product_witness :
  exists gp,
    (0 <= gp <= 10)%Z
    /\ transform_row row_sevenths scheme1 !! subkey 2 "_GRADE_POINTS"
       = Some (VNum (fZ gp))
    /\ transform_row row_sevenths scheme1 !! subkey 2 "_CREDIT_POINTS"
       = Some (VNum (fmul (fZ gp)
                          (credit_of (transform_row row_sevenths scheme1) 2))).
Proof.
  apply (credit_points_product row_sevenths scheme1 2 theory).
  vm_compute. right. left. reflexivity.
Defined.

Lemma totals_are_sums_witness :
  exists cps,
    Forall2 (fun k cp => transform_row row_sevenths scheme1
                           !! subkey k "_CREDIT_POINTS" = Some (VNum cp))
            (map fst (subject_meta (extract row_sevenths))) cps
    /\ transform_row row_sevenths scheme1 !! "TOT_CREDIT"
       = Some (VNum
                 (if fgt (fsum (map (credit_of (transform_row row_sevenths scheme1))
                                    (map fst (subject_meta (extract row_sevenths)))))
                         (fZ 0)
                  then fsum (map (credit_of (transform_row row_sevenths scheme1))
                                 (map fst (subject_meta (extract row_sevenths))))
                  else fZ 0))
    /\ transform_row row_sevenths scheme1 !! "TOT_CREDIT_POINTS"
       = Some (VNum
                 (if fgt (fsum (map (credit_of (transform_row row_sevenths scheme1))
                                    (map fst (subject_meta (extract row_sevenths)))))
                         (fZ 0)
                  then fsum cps else fZ 0)).
Proof. exact (totals_are_sums row_sevenths scheme1). Defined.

(* ===================================================================== *)
(** ** The frame transformer and the web service *)
(* ===================================================================== *)

Lemma courses_fold_inner (e : string * scheme) (cs : list string)
    (acc : list string * gmap string course_info) (c : string) :
  ~ In c cs ->
  snd (fold_left
         (fun acc course =>
            ((fst acc ++ [course])%list, <[course := info_of e]> (snd acc)))
         cs acc) !! c = snd acc !! c.
Proof.
  revert acc. induction cs as [|x cs IH]; intros acc Hc; [reflexivity|].
  cbn [fold_left]. rewrite IH by (intros H; apply Hc; right; exact H).
  cbn [snd]. apply lookup_insert_ne. intros ->. apply Hc. left. reflexivity.
Qed.

Lemma courses_fold_outer (l : list (string * scheme))
    (acc : list string * gmap string course_info) (c : string) :
  (forall e, In e l -> ~ In c (courses (snd e))) ->
  snd (fold_left
         (fun acc e =>
            fold_left
              (fun acc course =>
                 ((fst acc ++ [course])%list, <[course := info_of e]> (snd acc)))
              (courses (snd e)) acc)
         l acc) !! c = snd acc !! c.
Proof.
  revert acc. induction l as [|e l IH]; intros acc Hc; [reflexivity|].
  cbn [fold_left]. rewrite IH by (intros e' H; apply Hc; right; exact H).
  apply courses_fold_inner. apply Hc. left. reflexivity.
Qed.

Lemma In_insert_sorted (s x : string) (l : list string) :
  In x (insert_sorted s l) <-> x = s \/ In x l.
Proof.
  induction l as [|y l IH]; simpl.
  - intuition congruence.
  - destruct (String.leb s y); simpl; [intuition congruence|].
    rewrite IH. intuition congruence.
Qed.

Lemma In_sorted (x : string) (l : list string) : In x (sorted l) <-> In x l.
Proof.
  induction l as [|y l IH]; simpl; [tauto|].
  rewrite In_insert_sorted, IH. intuition congruence.
Qed.

Lemma courses_fold_list (l : list (string * scheme))
    (acc : list string * gmap string course_info) :
  fst (fold_left
         (fun acc e =>
            fold_left
              (fun acc course =>
                 ((fst acc ++ [course])%list, <[course := info_of e]> (snd acc)))
              (courses (snd e)) acc)
         l acc)
  = (fst acc ++ flat_map (fun e => courses (snd e)) l)%list.
Proof.
  revert acc. induction l as [|e l IH]; intros acc.
  - simpl. rewrite app_nil_r. reflexivity.
  - cbn [fold_left flat_map]. rewrite IH, app_assoc. f_equal.
    generalize (courses (snd e)). intros cs. revert acc.
    induction cs as [|x cs IHc]; intros acc.
    + simpl. rewrite app_nil_r. reflexivity.
    + cbn [fold_left]. rewrite IHc. cbn [fst]. rewrite <- app_assoc.
      reflexivity.
Qed.

(** X21: the reply of [/courses] agrees with the scheme lookup of the
    transformer: a course is listed exactly when the lookup accepts it, and
    the mapping names for it the scheme and thresholds the lookup returns. *)
Theorem courses_reply_agrees (course : string) :
  course_scheme_mapping get_courses !! course
  = info_of <$> get_scheme_for_course course
  /\ (In course (listed_courses get_courses)
      <-> is_Some (get_scheme_for_course course)).
Proof.
  split.
  - destruct (get_scheme_for_course course) as [[n cfg]|] eqn:E.
    + apply scheme_lookup_sound in E as [Hin Hc].
      simpl in Hin.
      repeat (destruct Hin as [E|Hin];
              [injection E as <- <-; simpl in Hc;
               repeat (destruct Hc as [<-|Hc]; [vm_compute; reflexivity|]);
               destruct Hc|]).
      destruct Hin.
    + pose proof (scheme_lookup_none course E) as Hno.
      unfold get_courses. cbn [course_scheme_mapping].
      rewrite courses_fold_outer by (intros [n c]; apply Hno).
      apply lookup_empty.
  - unfold get_courses. cbn [listed_courses].
    rewrite In_sorted, courses_fold_list. cbn [fst app].
    rewrite in_flat_map. split.
    + intros ([n cfg] & Hin & Hc). exists (n, cfg).
      apply scheme_lookup_found; assumption.
    + intros [[n cfg] E]. exists (n, cfg).
      apply scheme_lookup_sound in E. exact E.
Qed.

Lemma has_char_replace (c old : ascii) (new s : string) :
  has_char c new = false -> c = old \/ has_char c s = false ->
  has_char c (replace_char old new s) = false.
Proof.
  intros Hnew Hs. induction s as [|d s IH]; [reflexivity|].
  simpl. destruct (Ascii.eqb d old) eqn:E.
  - rewrite has_char_app, Hnew. simpl. apply IH.
    destruct Hs as [Hs|Hs]; [left; exact Hs|right].
    simpl in Hs. apply orb_false_iff in Hs. tauto.
  - simpl. destruct Hs as [->|Hs].
    + rewrite Ascii.eqb_sym, E. simpl. apply IH. left. reflexivity.
    + simpl in Hs. apply orb_false_iff in Hs. destruct Hs as [-> Hs].
      simpl. apply IH. right. exact Hs.
Qed.

(** X22: the course part of the download's file name holds no space, no point
    and no slash, whatever the course name. *)
Theorem safe_course_name_chars (course : string) (c : ascii) :
  In c [" "; "."; "/"]%char -> has_char c (safe_course_name course) = false.
Proof.
  intros Hc. unfold safe_course_name.
  assert (H1 : has_char " " (replace_char " " "_" course) = false)
    by (apply has_char_replace; [reflexivity|left; reflexivity]).
  assert (H2 : has_char "." (replace_char "." "" (replace_char " " "_" course))
               = false)
    by (apply has_char_replace; [reflexivity|left; reflexivity]).
  assert (H3 : has_char " " (replace_char "." "" (replace_char " " "_" course))
               = false)
    by (apply has_char_replace; [reflexivity|right; exact H1]).
  simpl in Hc. destruct Hc as [<-|[<-|[<-|[]]]];
    apply has_char_replace; try reflexivity; auto.
Qed.

Lemma safe_course_name_chars_witness :
  has_char "." (safe_course_name "M.Sc. COMPUTER SCIENCE") = false.
Proof.
  apply (safe_course_name_chars "M.Sc. COMPUTER SCIENCE" ".").
  simpl. tauto.
Defined.

Section ServiceFacts.
Context {L : PyLib} {content frame : Type}.
Variable read_csv : content -> exn + frame.
Variable read_excel_openpyxl : content -> exn + frame.
Variable read_excel_xlrd : content -> exn + frame.
Variable frame_empty : frame -> bool.
Variable frame_rows : frame -> list (gmap string pyval).
Variable to_csv : list (gmap string pyval) -> string.
Variable exn_str : exn -> string.

Local Notation "'handler'" :=
  (transform_marks read_csv read_excel_openpyxl read_excel_xlrd frame_empty
                   frame_rows to_csv exn_str).
Local Notation "'reader'" :=
  (read_upload read_csv read_excel_openpyxl read_excel_xlrd).

(** X23: rows are transformed one by one, in order, with the scheme that lists
    the course; a course listed nowhere fails whatever the frame holds. *)
Theorem transform_dataframe_rows (df : list (gmap string pyval))
    (course : string) :
  (forall name cfg,
      In (name, cfg) SCHEME_CONFIG -> In course (courses cfg) ->
      exists out,
        transform_dataframe df course = Some out
        /\ length out = length df
        /\ forall i row, df !! i = Some row ->
                         out !! i = Some (transform_row row cfg))
  /\ ((forall name cfg, In (name, cfg) SCHEME_CONFIG -> ~ In course (courses cfg))
      -> transform_dataframe df course = None).
Proof.
  unfold transform_dataframe. split.
  - intros name cfg Hin Hc.
    rewrite (scheme_lookup_found course name cfg Hin Hc).
    eexists. split; [reflexivity|]. split; [apply length_map|].
    intros i row Hi. rewrite list_lookup_fmap_Some_2 with (x := row) (f := fun row => transform_row row cfg); auto. 
  - intros Hno. rewrite (scheme_lookup_missing course Hno). reflexivity.
Qed.

(** X24: a file whose name ends in none of the three extensions is answered
    with the status 500: the [HTTPException] with status 400 raised for it
    inside the [try] block is caught there by [except Exception] and raised
    again as an error of reading. *)
Theorem unsupported_format_status (course : string) (f : UploadFile content)
    (name : string) :
  is_Some (get_scheme_for_course course) ->
  filename f = Some name -> name <> "" ->
  ends_with ".csv" name = false -> ends_with ".xlsx" name = false ->
  ends_with ".xls" name = false ->
  handler course (Some f)
  = Failure 500
      ("Error reading file: "
       +:+ exn_str (HTTPException 400
             "Unsupported file format. Please upload CSV, XLS, or XLSX file")).
Proof.
  intros [[n cfg] E] Hf Hne H1 H2 H3. unfold transform_marks.
  rewrite E, Hf. destruct name as [|c name]; [contradiction|].
  unfold read_upload. rewrite H1, H2, H3. reflexivity.
Qed.

(** X25: what each answer of the handler means: a download needs a listed
    course, a named file that one of the readers accepts and a frame that is
    not empty, and its records are the transformed rows; the status 400 is
    an unknown course, a missing file or file name, or an empty frame; the
    status 500 is a failure of reading.  The scheme lookup repeated inside
    [transform_dataframe] cannot fail once the handler's own lookup has
    succeeded. *)
Theorem transform_marks_answers (course : string)
    (upload : option (UploadFile content)) :
  match handler course upload with
  | Download body headers =>
      exists name cfg f fname df,
        get_scheme_for_course course = Some (name, cfg)
        /\ upload = Some f /\ filename f = Some fname /\ fname <> ""
        /\ reader fname (file f) = inr df /\ frame_empty df = false
        /\ body = to_csv (map (fun row => transform_row row cfg) (frame_rows df))
        /\ headers !! 0%nat
           = Some ("Content-Disposition",
                   "attachment; filename=transformed_"
                   +:+ safe_course_name course +:+ "_" +:+ name +:+ ".csv")
        /\ headers !! 1%nat = Some ("X-Scheme-Used", name)
  | Failure code detail =>
      code = 400%nat
      /\ (get_scheme_for_course course = None
          \/ upload = None
          \/ (exists f, upload = Some f
                        /\ (filename f = None \/ filename f = Some ""))
          \/ (exists f fname df,
                upload = Some f /\ filename f = Some fname
                /\ reader fname (file f) = inr df /\ frame_empty df = true))
      \/ code = 500%nat
         /\ is_Some (get_scheme_for_course course)
         /\ exists f fname e,
              upload = Some f /\ filename f = Some fname
              /\ reader fname (file f) = inl e
              /\ detail = "Error reading file: " +:+ exn_str e
  end.
Proof.
  unfold transform_marks, transform_dataframe.
  destruct (get_scheme_for_course course) as [[n cfg]|] eqn:E;
    [|left; auto].
  destruct upload as [f|]; [|left; auto].
  destruct (filename f) as [[|c fname]|] eqn:Ef;
    [left; split; [reflexivity|]; right; right; left; eauto| |
     left; split; [reflexivity|]; right; right; left; eauto].
  destruct (read_upload _ _ _ _ _) as [e|df] eqn:Er.
  - right. split; [reflexivity|]. split; [eauto|].
    exists f, (String c fname), e. auto.
  - destruct (frame_empty df) eqn:Ee.
    + left. split; [reflexivity|]. right. right. right.
      exists f, (String c fname), df. auto.
    + exists n, cfg, f, (String c fname), df.
      repeat split; try reflexivity; try assumption. discriminate.
Qed.

End ServiceFacts.

Lemma unsupported_format_status_witness :
  transform_marks (L := dec_lib) (content := unit) (frame := unit)
    (fun _ => inr tt) (fun _ => inr tt) (fun _ => inr tt)
    (fun _ => false) (fun _ => []) (fun _ => "")
    (fun e => match e with HTTPException _ d => d | LibraryError m => m end)
    "BCA" (Some {| filename := Some "marks.txt"; file := tt |})
  = Failure 500
      "Error reading file: Unsupported file format. Please upload CSV, XLS, or XLSX file".
Proof.
  apply (unsupported_format_status (L := dec_lib) (fun _ => inr tt)
           (fun _ => inr tt) (fun _ => inr tt) (fun _ => false) (fun _ => [])
           (fun _ => "")
           (fun e => match e with HTTPException _ d => d | LibraryError m => m end)
           "BCA" {| filename := Some "marks.txt"; file := tt |} "marks.txt").
  - eexists. vm_compute. reflexivity.
  - reflexivity.
  - discriminate.
  - reflexivity.
  - reflexivity.
  - reflexivity.
Defined.
